(** * SHA Connect: the outbox queue and its delivery-retry policy

    A shallow embedding of the outbox subsystem of [app.py]
    ([add_to_outbox], [process_outbox], the "Retry Failed Only" and
    "Clear All Failed" handlers of the Outbox page, the Twilio wrappers
    [safe_send_sms] / [safe_make_call], and the table loader and saver),
    followed by the properties of the retry state machine.

    The pandas tables are ordered association lists from index labels
    to rows; the Streamlit session is explicit state; the outside world
    (Twilio, the clock, the file system) is a record of oracles, and so
    is what the tables do not record of pandas: the dtype of the
    Attempts column, on which the write of a count of more than 53 bits
    depends.  The
    calls [st.info] and [st.success] inside [add_to_outbox] and
    [process_outbox] only display a text and are left out; the notices
    of the two button handlers carry the count they report and are
    their results. *)

From Stdlib Require Import ZArith Ascii String DecimalString.
From stdpp Require Import base tactics option list gmap strings.

Local Open Scope Z_scope.
Set Warnings "-clear-no-such-hyp".

(* ===================================================================== *)
(** ** Python values, exceptions and the builtin conversions *)
(* ===================================================================== *)

(** The contents of a table cell.  [VNaN] is the missing-value marker
    pandas fills in, [VNone] a JSON null kept in an object column.
    Strings are ASCII text.  No operation of the outbox writes a boolean
    or a float into its table: booleans and fractional floats are not
    part of the model, and an integral float (a count read from a column
    that also has missing cells) is identified with its integer. *)
Inductive value :=
  | VInt (n : Z)
  | VStr (s : string)
  | VNaN
  | VNone.

#[global] Instance value_eq_dec : EqDecision value.
Proof. solve_decision. Defined.

(** Python exceptions, with the text [str(e)] yields. *)
Inductive exn :=
  | ValueError (msg : string)
  | TypeError (msg : string)
  | KeyError (msg : string)
  | OSError (msg : string)
  | TwilioException (msg : string).

Definition str_exn (e : exn) : string :=
  match e with
  | ValueError m | TypeError m | KeyError m | OSError m
  | TwilioException m => m
  end.

Inductive result (A : Type) :=
  | Ok (a : A)
  | Raise (e : exn).
Arguments Ok {A} a.
Arguments Raise {A} e.

(** [v == s] for a string literal [s]: only an equal string compares
    equal. *)
Definition eq_str (v : value) (s : string) : bool :=
  match v with
  | VStr s' => bool_decide (s' = s)
  | _ => false
  end.

Module PyInt.

(** White space as [int()] strips it from an ASCII string: tab, line
    feed, vertical tab, form feed, carriage return and space. *)
Definition is_space (c : ascii) : bool :=
  let n := nat_of_ascii c in
  ((9 <=? n)%nat && (n <=? 13)%nat) || (n =? 32)%nat.

Definition digit (c : ascii) : option Z :=
  let n := nat_of_ascii c in
  if ((48 <=? n)%nat && (n <=? 57)%nat) then Some (Z.of_nat n - 48)
  else None.

Fixpoint lstrip (s : list ascii) : list ascii :=
  match s with
  | c :: s' => if is_space c then lstrip s' else s
  | [] => []
  end.

Definition strip (s : list ascii) : list ascii :=
  rev (lstrip (rev (lstrip s))).

(** Decimal digits, with single underscores allowed between digits.
    [prev] tells whether the previous character was a digit. *)
Fixpoint digits (s : list ascii) (acc : Z) (prev : bool) : option Z :=
  match s with
  | [] => if prev then Some acc else None
  | c :: s' =>
      match digit c with
      | Some d => digits s' (10 * acc + d) true
      | None =>
          if bool_decide (c = "_"%char) then
            if prev then digits s' acc false else None
          else None
      end
  end.

Definition parse (s : string) : option Z :=
  match strip (list_ascii_of_string s) with
  | c :: s' =>
      if bool_decide (c = "-"%char) then Z.opp <$> digits s' 0 false
      else if bool_decide (c = "+"%char) then digits s' 0 false
      else digits (c :: s') 0 false
  | [] => None
  end.

End PyInt.

(** [int(v)].  The interpreter's cap on the number of digits of a string
    argument is not modelled, and the message of the [ValueError] quotes
    the string without the escapes of [repr]. *)
Definition py_int (v : value) : result Z :=
  match v with
  | VInt n => Ok n
  | VStr s =>
      match PyInt.parse s with
      | Some n => Ok n
      | None => Raise (ValueError ("invalid literal for int() with base 10: '" +:+ s +:+ "'"))
      end
  | VNaN => Raise (ValueError "cannot convert float NaN to integer")
  | VNone => Raise (TypeError "int() argument must be a string, a bytes-like object or a real number, not 'NoneType'")
  end.

Definition str_Z (n : Z) : string := NilZero.string_of_int (Z.to_int n).
Definition str_nat (n : nat) : string := str_Z (Z.of_nat n).

(** [str(v)], as an f-string formats a cell. *)
Definition py_str (v : value) : string :=
  match v with
  | VInt n => str_Z n
  | VStr s => s
  | VNaN => "nan"
  | VNone => "None"
  end.

(* ===================================================================== *)
(** ** Tables *)
(* ===================================================================== *)

(** A row of [outbox_df].  The seven columns always exist: the loader
    adds the missing ones and [add_to_outbox] writes all seven, so
    [row.get(c, default)] never falls back to its default. *)
Record row := Row {
  Recipient : value;
  Message : value;
  Language : value;
  Date_Created : value;
  Type_ : value;
  Attempts : value;
  Status : value
}.

#[global] Instance row_eq_dec : EqDecision row.
Proof. solve_decision. Defined.

Inductive column :=
  | CRecipient | CMessage | CLanguage | CDate_Created | CType | CAttempts
  | CStatus.

Definition set_col (c : column) (v : value) (r : row) : row :=
  let '(Row rc ms lg dc ty at_ st) := r in
  match c with
  | CRecipient => Row v ms lg dc ty at_ st
  | CMessage => Row rc v lg dc ty at_ st
  | CLanguage => Row rc ms v dc ty at_ st
  | CDate_Created => Row rc ms lg v ty at_ st
  | CType => Row rc ms lg dc v at_ st
  | CAttempts => Row rc ms lg dc ty v st
  | CStatus => Row rc ms lg dc ty at_ v
  end.

(** The row pandas creates when a cell is set under a label that is not
    in the index: every other cell is NaN. *)
Definition nan_row : row := Row VNaN VNaN VNaN VNaN VNaN VNaN VNaN.

(** A row of [message_logs]. *)
Record sent_row := SentRow {
  Sent_Recipient : value;
  Sent_Message : value;
  Sent_Language : value;
  Date_Sent : value;
  Sent_Type : value;
  Sent_Status : value
}.

(** [outbox_df]: the rows in table order, each under its index label. *)
Abbreviation frame := (list (nat * row)).

Definition labels (df : frame) : list nat := df.*1.

Module Frame.

(** [df.at[idx, c] = v]: sets the cell of every row labelled [idx];
    when no row has the label, the table grows by one row. *)
Definition at_set (idx : nat) (c : column) (v : value) (df : frame) : frame :=
  if bool_decide (idx ∈ labels df) then
    (λ e : nat * row,
       if bool_decide (e.1 = idx) then (e.1, set_col c v e.2) else e) <$> df
  else df ++ [(idx, set_col c v nan_row)].

(** [df.drop(idx)]: removes the rows labelled [idx]; a label that is
    not in the index is a [KeyError]. *)
Definition drop (idx : nat) (df : frame) : result frame :=
  if bool_decide (idx ∈ labels df) then
    Ok (filter (λ e : nat * row, e.1 ≠ idx) df)
  else Raise (KeyError ("[" +:+ str_nat idx +:+ "] not found in axis")).

(** [pd.concat([df, pd.DataFrame([r])], ignore_index=True)]: the new
    row goes last and the index becomes 0, 1, 2, ... *)
Definition concat_ignore_index (df : frame) (r : row) : frame :=
  zip (seq 0 (length df + 1)) (df.*2 ++ [r]).

(** [df[c] == s], one boolean per row, in table order. *)
Definition mask_eq (c : row → value) (s : string) (df : frame) : list bool :=
  (λ e : nat * row, eq_str (c e.2) s) <$> df.

(** [mask.any()] and [mask.sum()]. *)
Definition any (mask : list bool) : bool := existsb id mask.
Definition sum (mask : list bool) : nat := length (filter (λ b : bool, b = true) mask).

(** [df.loc[mask, c] = v]. *)
Definition loc_set (mask : list bool) (c : column) (v : value) (df : frame) : frame :=
  zip_with (λ (b : bool) (e : nat * row),
              if b then (e.1, set_col c v e.2) else e) mask df.

(** [df[~mask]]. *)
Definition keep_not (mask : list bool) (df : frame) : frame :=
  (filter (λ be : bool * (nat * row), be.1 = false) (zip mask df)).*2.

(** [df.empty] *)
Definition empty (df : frame) : bool :=
  match df with [] => true | _ => false end.

End Frame.

(* ===================================================================== *)
(** ** The session, the outside world, and the monad of the handlers *)
(* ===================================================================== *)

(** One call of the Delivery Transport made by [process_outbox], with
    the label of the entry it was made for and what it answered. *)
Record attempt := Attempt {
  a_idx : nat;
  a_type : value;
  a_to : value;
  a_body : value;
  a_ok : bool;
  a_info : string
}.

(** [st.session_state], a counter of the questions asked to the outside
    world so far, and the transport calls made so far. *)
Record state := State {
  outbox_df : frame;
  message_logs : list sent_row;
  tick : nat;
  trace : list attempt
}.

Definition set_outbox_df (f : frame → frame) (s : state) : state :=
  State (f (outbox_df s)) (message_logs s) (tick s) (trace s).
Definition set_message_logs (f : list sent_row → list sent_row) (s : state) : state :=
  State (outbox_df s) (f (message_logs s)) (tick s) (trace s).
Definition set_tick (f : nat → nat) (s : state) : state :=
  State (outbox_df s) (message_logs s) (f (tick s)) (trace s).
Definition set_trace (f : list attempt → list attempt) (s : state) : state :=
  State (outbox_df s) (message_logs s) (tick s) (f (trace s)).

(** The outside world.  Each oracle is asked with the current [tick], so
    that two calls with the same arguments may answer differently. *)
Record env := Env {
  (** [twilio_configured()], which swallows every exception itself *)
  twilio_configured : nat → bool;
  (** whether [from twilio.rest import Client] succeeded *)
  TwilioClient : bool;
  (** [client.messages.create(body, from_, to).sid], or what it raises *)
  messages_create : nat → value → value → result string;
  (** [client.calls.create(twiml, from_, to).sid], or what it raises *)
  calls_create : nat → string → value → result string;
  (** [datetime.datetime.now().strftime("%Y-%m-%d %H:%M:%S")] *)
  now : nat → string;
  (** [df.to_json(path, ...)] and the fallback [json.dump] into [path] *)
  to_json : nat → string → result unit;
  json_dump : nat → string → result unit;
  (** [outbox_df.at[idx, "Attempts"] = count] for a count of more than
      53 bits: whether pandas takes it or raises depends on the dtype
      the column has by then (an int64 column has no room beyond
      [2^63 - 1], a column of Python objects takes any integer), and
      the tables of the model do not record dtypes *)
  at_large : nat → Z → result unit
}.

(** The counts every dtype pandas gives a column of counts holds as
    they are (int64, float64 beside missing cells, object): the
    integers of at most 53 bits. *)
Definition small_count (n : Z) : bool := (- 2 ^ 53 <=? n) && (n <=? 2 ^ 53).

(** What the write of [count] into the Attempts column answers at tick
    [t]: a small count is always taken. *)
Definition count_write (E : env) (t : nat) (count : Z) : result unit :=
  if small_count count then Ok tt else at_large E t count.

(** A computation over the session that returns or raises; the session
    keeps the changes made before an exception. *)
Definition M (A : Type) : Type := state → state * result A.

Definition ret {A} (a : A) : M A := λ s, (s, Ok a).
Definition bind {A B} (m : M A) (f : A → M B) : M B :=
  λ s, match m s with
       | (s', Ok a) => f a s'
       | (s', Raise e) => (s', Raise e)
       end.
Definition try_except {A} (m : M A) (handler : exn → M A) : M A :=
  λ s, match m s with
       | (s', Ok a) => (s', Ok a)
       | (s', Raise e) => handler e s'
       end.
Definition lift {A} (r : result A) : M A := λ s, (s, r).
Definition gets {A} (f : state → A) : M A := λ s, (s, Ok (f s)).
Definition modify (f : state → state) : M unit := λ s, (f s, Ok tt).
(** Asking the outside world: the current tick, which is then used up. *)
Definition ask : M nat := λ s, (set_tick S s, Ok (tick s)).

#[global] Instance M_ret : MRet M := @ret.
#[global] Instance M_bind : MBind M := λ A B f m, bind m f.

(** [for x in l: acc = body(x, acc)] *)
Fixpoint for_each {A B} (body : A → B → M B) (l : list A) (acc : B) : M B :=
  match l with
  | [] => ret acc
  | x :: l' => acc' ← body x acc; for_each body l' acc'
  end.

(* ===================================================================== *)
(** ** The operations of [app.py] *)
(* ===================================================================== *)

Definition OUTBOX_FILE : string := "./data/outbox.json".
Definition MESSAGES_FILE : string := "./data/message_logs.json".

(** What [process_outbox] reports for one entry: [(idx, ok, info)]. *)
Abbreviation outcome := (nat * bool * string)%type.

(** What a handler of the Outbox page shows: [st.success] or [st.info]. *)
Inductive notice :=
  | st_success (text : string)
  | st_info (text : string).

Section Operations.

Variable E : env.

(** The Delivery Transport, channel sms. *)
Definition safe_send_sms (to_number message : value) : M (bool * string) :=
  t ← ask;
  if negb (twilio_configured E t) || negb (TwilioClient E) then
    mret (false, "Twilio not configured")
  else
    try_except
      (sid ← lift (messages_create E t message to_number);
       mret (true, "SMS sent: " +:+ sid))
      (λ e, mret (false, "Twilio error: " +:+ str_exn e)).

(** The Delivery Transport, channel voice. *)
Definition safe_make_call (to_number message : value) : M (bool * string) :=
  t ← ask;
  if negb (twilio_configured E t) || negb (TwilioClient E) then
    mret (false, "Twilio not configured")
  else
    try_except
      (sid ← lift (calls_create E t
                     ("<Response><Say>" +:+ py_str message +:+ "</Say></Response>")
                     to_number);
       mret (true, "Call initiated: " +:+ sid))
      (λ e, mret (false, "Twilio error: " +:+ str_exn e)).

(** [save_df_to_file(df, path)]: [to_json], and on any exception the
    [json.dump] fallback, whose exceptions propagate.  What the file
    then holds is not tracked. *)
Definition save_df_to_file (path : string) : M unit :=
  t ← ask;
  try_except (lift (to_json E t path)) (λ _, lift (json_dump E t path)).

(** enqueue *)
Definition add_to_outbox (recipient message language msg_type : value) : M unit :=
  t ← ask;
  let row := Row recipient message language (VStr (now E t)) msg_type
                 (VInt 0) (VStr "Pending") in
  modify (set_outbox_df (λ df, Frame.concat_ignore_index df row));;
  save_df_to_file OUTBOX_FILE.

(** Line 421, [outbox_df.at[idx, "Attempts"] = count]: the cell is
    written unless pandas refuses the count, and then the exception
    comes out and the table is as it was. *)
Definition write_attempts (idx : nat) (count : Z) : M unit :=
  t ← gets tick;
  lift (count_write E t count);;
  modify (set_outbox_df (Frame.at_set idx CAttempts (VInt count))).

(** Lines 409-421 of the loop of [process_outbox]: the transport is
    called for the row and the attempt is counted, whatever the
    answer. *)
Definition attempt_delivery (idx : nat) (row : row) (attempts : Z) : M (bool * string) :=
  let recipient := Recipient row in
  let message := Message row in
  let msg_type := Type_ row in
  '(ok, info) ← (if eq_str msg_type "sms"
                 then safe_send_sms recipient message
                 else safe_make_call recipient message);
  modify (set_trace (λ tr, tr ++ [Attempt idx msg_type recipient message ok info]));;
  write_attempts idx (attempts + 1);;
  mret (ok, info).

(** The body of the loop of [process_outbox], for the row [row] that
    the copy of the table holds under [idx]. *)
Definition process_row (max_attempts : Z) (entry : nat * row)
    (results : list outcome) : M (list outcome) :=
  let '(idx, row) := entry in
  attempts ← lift (py_int (Attempts row));
  if max_attempts <=? attempts then
    modify (set_outbox_df (Frame.at_set idx CStatus (VStr "Failed")));;
    mret (results ++ [(idx, false, "max attempts reached")])
  else
    '(ok, info) ← attempt_delivery idx row attempts;
    if (ok : bool) then
      t ← ask;
      let sent_row := SentRow (Recipient row) (Message row) (Language row)
                              (VStr (now E t)) (Type_ row) (VStr "Sent") in
      modify (set_message_logs (λ logs, logs ++ [sent_row]));;
      df ← gets outbox_df;
      df' ← lift (Frame.drop idx df);
      modify (set_outbox_df (λ _, df'));;
      mret (results ++ [(idx, true, info)])
    else
      (if attempts + 1 <? max_attempts
       then modify (set_outbox_df (Frame.at_set idx CStatus (VStr "Retrying")))
       else modify (set_outbox_df (Frame.at_set idx CStatus (VStr "Failed"))));;
      mret (results ++ [(idx, false, info)]).

(** drain: [process_outbox(max_attempts)].  The loop runs over the copy
    of the table taken when it starts; the two tables are saved after
    it. *)
Definition process_outbox (max_attempts : Z) : M (list outcome) :=
  df ← gets outbox_df;
  if Frame.empty df then mret []
  else
    results ← for_each (process_row max_attempts) df [];
    save_df_to_file OUTBOX_FILE;;
    save_df_to_file MESSAGES_FILE;;
    mret results.

(** resetFailed: the "Retry Failed Only" button.  The Outbox page shows
    its buttons only while the table is not empty. *)
Definition retry_failed_only : M notice :=
  df ← gets outbox_df;
  if Frame.empty df then mret (st_info "Outbox is empty.")
  else
    let failed_mask := Frame.mask_eq Status "Failed" df in
    if Frame.any failed_mask then
      modify (set_outbox_df (Frame.loc_set failed_mask CStatus (VStr "Pending")));;
      modify (set_outbox_df (Frame.loc_set failed_mask CAttempts (VInt 0)));;
      save_df_to_file OUTBOX_FILE;;
      mret (st_success ("Marked " +:+ str_nat (Frame.sum failed_mask)
                       +:+ " failed messages for retry."))
    else mret (st_info "No failed messages to retry.").

(** purgeFailed: the "Clear All Failed" button. *)
Definition clear_all_failed : M notice :=
  df ← gets outbox_df;
  if Frame.empty df then mret (st_info "Outbox is empty.")
  else
    let failed_mask := Frame.mask_eq Status "Failed" df in
    if Frame.any failed_mask then
      modify (set_outbox_df (Frame.keep_not failed_mask));;
      save_df_to_file OUTBOX_FILE;;
      mret (st_success ("Cleared " +:+ str_nat (Frame.sum failed_mask)
                       +:+ " failed messages."))
    else mret (st_info "No failed messages to clear.").

End Operations.

(* ===================================================================== *)
(** ** The table loader *)
(* ===================================================================== *)

(** A JSON file as the loader sees it: whether it exists; the table
    [pd.read_json] makes of it, row by row, or what it raises; and the
    records [json.load] reads from it, or what it raises.  Each record
    maps column names to cells.  [pd.read_json] converts the cells
    while it reads (a column of numeric-looking strings, a phone number
    with its plus sign among them, comes out as integers): its records
    are the cells after that conversion, not the text of the file.
    [json.load] gives the values as the file has them. *)
Record file := File {
  isfile : bool;
  read_json : result (list (gmap string value));
  json_load : result (list (gmap string value))
}.

Module Loader.

(** [df.columns] of the table built from the records. *)
Definition columns (recs : list (gmap string value)) : gset string :=
  ⋃ (dom <$> recs).

(** The cell of column [c] after [if c not in df.columns: df[c] = ""]:
    a column no record has is filled with the empty string; a cell a
    record lacks, in a column other records have, is NaN. *)
Definition cell (cols : gset string) (r : gmap string value) (c : string) : value :=
  if bool_decide (c ∈ cols) then default VNaN (r !! c) else VStr "".

Definition outbox_row (cols : gset string) (r : gmap string value) : row :=
  Row (cell cols r "Recipient") (cell cols r "Message")
      (cell cols r "Language") (cell cols r "Date Created")
      (cell cols r "Type") (cell cols r "Attempts") (cell cols r "Status").

Definition outbox_frame (recs : list (gmap string value)) : frame :=
  zip (seq 0 (length recs)) (outbox_row (columns recs) <$> recs).

End Loader.

(** [load_df_from_file(OUTBOX_FILE, columns=[...])] *)
Definition load_df_from_file (f : file) : frame :=
  if negb (isfile f) then []
  else
    match read_json f with
    | Ok recs => Loader.outbox_frame recs
    | Raise _ =>
        match json_load f with
        | Ok recs => Loader.outbox_frame recs
        | Raise _ => []
        end
    end.

(** A fresh session: empty tables, nothing asked yet. *)
Definition empty_state : state := State [] [] 0 [].

(* ===================================================================== *)
(** ** Vocabulary of the properties *)
(* ===================================================================== *)

(** What the Delivery Transport answers when asked at tick [t]. *)
Definition answer (E : env) (t : nat) (msg_type to_number message : value) : bool * string :=
  if negb (twilio_configured E t) || negb (TwilioClient E) then
    (false, "Twilio not configured")
  else if eq_str msg_type "sms" then
    match messages_create E t message to_number with
    | Ok sid => (true, "SMS sent: " +:+ sid)
    | Raise e => (false, "Twilio error: " +:+ str_exn e)
    end
  else
    match calls_create E t ("<Response><Say>" +:+ py_str message +:+ "</Say></Response>")
                       to_number with
    | Ok sid => (true, "Call initiated: " +:+ sid)
    | Raise e => (false, "Twilio error: " +:+ str_exn e)
    end.

(** The transport calls and the log rows added between two states. *)
Definition new_attempts (s s' : state) : list attempt :=
  drop (length (trace s)) (trace s').
Definition new_logs (s s' : state) : list sent_row :=
  drop (length (message_logs s)) (message_logs s').

(** The row a failed delivery leaves behind, [a] being the count before
    the attempt. *)
Definition after_failure (max_attempts a : Z) (r : row) : row :=
  set_col CStatus (VStr (if a + 1 <? max_attempts then "Retrying" else "Failed"))
    (set_col CAttempts (VInt (a + 1)) r).

(** The effect of "Retry Failed Only" on one row. *)
Definition reopened (r : row) : row :=
  if eq_str (Status r) "Failed"
  then set_col CAttempts (VInt 0) (set_col CStatus (VStr "Pending") r)
  else r.

(** The number of rows whose status is Failed. *)
Definition count_failed (df : frame) : nat :=
  length (filter (λ e : nat * row, eq_str (Status e.2) "Failed" = true) df).

(** What one pass of the loop of [process_outbox] does to the rows it is
    given, row by row and without the table: the rows it keeps, the log
    rows and transport calls it adds, what it reports, the tick it ends
    at and the exception that stopped it, if any: the one of [int()] on
    a count that does not convert, or the one of the write of a count
    pandas refuses, which comes after the transport was called. *)
Record pass := Pass {
  kept : frame;
  logged : list sent_row;
  tried : list attempt;
  reported : list outcome;
  clock : nat;
  failure : option exn
}.

Fixpoint run_rows (E : env) (max_attempts : Z) (rows : frame) (t : nat) : pass :=
  match rows with
  | [] => Pass [] [] [] [] t None
  | (idx, r) :: rest =>
      match py_int (Attempts r) with
      | Raise e => Pass rows [] [] [] t (Some e)
      | Ok a =>
          if max_attempts <=? a then
            let p := run_rows E max_attempts rest t in
            Pass ((idx, set_col CStatus (VStr "Failed") r) :: kept p) (logged p)
                 (tried p) ((idx, false, "max attempts reached") :: reported p)
                 (clock p) (failure p)
          else
            let oi := answer E t (Type_ r) (Recipient r) (Message r) in
            let att := Attempt idx (Type_ r) (Recipient r) (Message r) oi.1 oi.2 in
            match count_write E (S t) (a + 1) with
            | Raise e => Pass rows [] [att] [] (S t) (Some e)
            | Ok _ =>
                if oi.1 then
                  let p := run_rows E max_attempts rest (S (S t)) in
                  Pass (kept p)
                       (SentRow (Recipient r) (Message r) (Language r)
                                (VStr (now E (S t))) (Type_ r) (VStr "Sent") :: logged p)
                       (att :: tried p) ((idx, true, oi.2) :: reported p)
                       (clock p) (failure p)
                else
                  let p := run_rows E max_attempts rest (S t) in
                  Pass ((idx, after_failure max_attempts a r) :: kept p) (logged p)
                       (att :: tried p) ((idx, false, oi.2) :: reported p)
                       (clock p) (failure p)
            end
      end
  end.

(** Every count a drain would write back is a small one. *)
Definition counts_fit (max_attempts : Z) (df : frame) : Prop :=
  ∀ idx r a, (idx, r) ∈ df → py_int (Attempts r) = Ok a → a < max_attempts →
    small_count (a + 1) = true.

(** The count converts with [int()] to a small integer. *)
Definition small_like (v : value) : Prop :=
  ∃ a, py_int v = Ok a ∧ small_count a = true.


(** The entry under [idx] was delivered between [s] and [s']. *)
Definition delivered (s s' : state) (idx : nat) : Prop :=
  ∃ att, att ∈ new_attempts s s' ∧ a_idx att = idx ∧ a_ok att = true.

(** The transport was called for the entry under [idx] between [s] and
    [s']. *)
Definition attempted (s s' : state) (idx : nat) : Prop :=
  ∃ att, att ∈ new_attempts s s' ∧ a_idx att = idx.


(** Several drains in a row, each in its own outside world; a drain that
    raises leaves the session as it was when the exception came. *)
Definition drains (max_attempts : Z) (Es : list env) (s : state) : state :=
  foldl (λ s E, (process_outbox E max_attempts s).1) s Es.

(** One operation of the outbox, returning or raising. *)
Inductive step (max_attempts : Z) : state → state → Prop :=
  | step_enqueue E recipient message language msg_type s :
      step max_attempts s (add_to_outbox E recipient message language msg_type s).1
  | step_drain E s :
      step max_attempts s (process_outbox E max_attempts s).1
  | step_reset E s :
      step max_attempts s (retry_failed_only E s).1
  | step_purge E s :
      step max_attempts s (clear_all_failed E s).1.

(** The sessions reachable from an empty queue. *)
Definition reachable (max_attempts : Z) (s : state) : Prop :=
  ∃ s0, outbox_df s0 = [] ∧ rtc (step max_attempts) s0 s.

(** The shape of a row in a session reachable from an empty queue: the
    count is a non-negative integer, and a Retrying row has failed at
    least once and has attempts left. *)
Definition row_ok (max_attempts : Z) (r : row) : Prop :=
  ∃ a, Attempts r = VInt a ∧ 0 ≤ a
       ∧ (Status r = VStr "Retrying" → 1 ≤ a ∧ a < max_attempts).

Definition queue_ok (max_attempts : Z) (s : state) : Prop :=
  NoDup (labels (outbox_df s))
  ∧ ∀ idx r, (idx, r) ∈ outbox_df s → row_ok max_attempts r.

(** The count converts with [int()]. *)
Definition int_like (v : value) : Prop := ∃ a, py_int v = Ok a.

(** The file system accepts a write at every tick: [to_json] or, after
    it, the fallback goes through. *)
Definition storage_ok (E : env) : Prop :=
  ∀ t path, to_json E t path = Ok tt ∨ json_dump E t path = Ok tt.

(** The file system refuses the writes into [path] at every tick:
    [to_json] raises, and the fallback raises [e]. *)
Definition storage_refuses (E : env) (path : string) (e : exn) : Prop :=
  ∀ t, (∃ e', to_json E t path = Raise e') ∧ json_dump E t path = Raise e.

Definition returns {A} (r : state * result A) : Prop :=
  match r.2 with Ok _ => True | Raise _ => False end.
Definition raises {A} (r : state * result A) : Prop :=
  match r.2 with Ok _ => False | Raise _ => True end.

(* ===================================================================== *)
(** ** Sessions used as examples *)
(* ===================================================================== *)

Module Examples.

(** In the first three worlds the Attempts column takes every count, as
    a column of Python objects does. *)

(** A world without Twilio credentials, with a working disk. *)
Definition unconfigured : env :=
  Env (λ _, false) true (λ _ _ _, Ok "SM0") (λ _ _ _, Ok "CA0")
      (λ _, "2025-01-01 08:00:00") (λ _ _, Ok tt) (λ _ _, Ok tt) (λ _ _, Ok tt).

(** A world where Twilio accepts text messages and rejects calls. *)
Definition sms_only : env :=
  Env (λ _, true) true (λ _ _ _, Ok "SM1")
      (λ _ _ _, Raise (TwilioException "number rejected"))
      (λ _, "2025-01-01 09:00:00") (λ _ _, Ok tt) (λ _ _, Ok tt) (λ _ _, Ok tt).

(** A world whose disk refuses every write. *)
Definition disk_full : env :=
  Env (λ _, false) true (λ _ _ _, Ok "SM0") (λ _ _ _, Ok "CA0")
      (λ _, "2025-01-01 10:00:00")
      (λ _ _, Raise (OSError "No space left on device"))
      (λ _ _, Raise (OSError "No space left on device"))
      (λ _ _, Ok tt).

(** A world where Twilio accepts text messages and the Attempts column
    is an int64 one: pandas raises [e] for a count it has no room
    for. *)
Definition int64_column (e : exn) : env :=
  Env (λ _, true) true (λ _ _ _, Ok "SM1")
      (λ _ _ _, Raise (TwilioException "number rejected"))
      (λ _, "2025-01-01 11:00:00") (λ _ _, Ok tt) (λ _ _, Ok tt)
      (λ _ count, if (count <=? 2 ^ 63 - 1)%Z then Ok tt else Raise e).

Definition entry (to_number msg_type : string) (n : Z) (status : string) : row :=
  Row (VStr to_number) (VStr "Register for SHA") (VStr "English")
      (VStr "2025-01-01 07:00:00") (VStr msg_type) (VInt n) (VStr status).

(** Two fresh entries, one per channel. *)
Definition two_pending : state :=
  State [(0%nat, entry "+254700000000" "sms" 0 "Pending");
         (1%nat, entry "+254700000001" "voice" 0 "Pending")] [] 0 [].

(** An entry at the ceiling of three attempts, not yet marked, and a
    fresh one. *)
Definition one_exhausted : state :=
  State [(0%nat, entry "+254700000000" "sms" 3 "Retrying");
         (1%nat, entry "+254700000001" "voice" 0 "Pending")] [] 0 [].

(** Two failed entries around a pending one. *)
Definition two_failed : state :=
  State [(0%nat, entry "+254700000000" "sms" 3 "Failed");
         (1%nat, entry "+254700000001" "voice" 1 "Retrying");
         (4%nat, entry "+254700000002" "sms" 3 "Failed")] [] 0 [].

(** One message queued in a fresh session, then one drain without
    Twilio credentials. *)
Definition queued_once : state :=
  (add_to_outbox unconfigured (VStr "+254700000000") (VStr "Register for SHA")
                 (VStr "English") (VStr "sms") empty_state).1.
Definition drained_once : state := (process_outbox unconfigured 3 queued_once).1.

(** An outbox file whose records have no Attempts key.  [pd.read_json]
    reads it, and makes the integer 254700000000 of the recipient
    ["+254700000000"]. *)
Definition old_file : file :=
  File true
       (Ok [ {[ "Recipient" := VInt 254700000000; "Message" := VStr "Register for SHA";
                "Language" := VStr "English"; "Date Created" := VStr "2024-12-31 07:00:00";
                "Type" := VStr "sms"; "Status" := VStr "Pending" ]} ])
       (Ok [ {[ "Recipient" := VStr "+254700000000"; "Message" := VStr "Register for SHA";
                "Language" := VStr "English"; "Date Created" := VStr "2024-12-31 07:00:00";
                "Type" := VStr "sms"; "Status" := VStr "Pending" ]} ]).

(** An outbox file [pd.read_json] raises on, so that the loader falls
    back on [json.load]: the count of its record has more than 64
    bits. *)
Definition wide_file : file :=
  File true
       (Raise (ValueError "Value is too big!"))
       (Ok [ {[ "Recipient" := VStr "+254700000000"; "Message" := VStr "Register for SHA";
                "Language" := VStr "English"; "Date Created" := VStr "2024-12-31 07:00:00";
                "Type" := VStr "sms"; "Attempts" := VInt (2 ^ 70) ]} ]).

End Examples.

(* ===================================================================== *)
(** ** The FAQ table and the translation tables *)
(* ===================================================================== *)

(** [faqs]: questions and answers, in the order the dictionary lists
    them. *)
Definition faqs : list (string * string) :=
  [
    ("What is SHA?",
     "SHA stands for Social Health Authority, which provides health services and benefits.");
    ("How can I register for SHA?",
     "You can register at your nearest health center or via the SHA portal.");
    ("Which services are covered?",
     "SHA covers preventive care, maternal care, and essential treatments.");
    ("Is SHA free or do I need to pay?",
     "Some services are free, but others may require a small contribution depending on the package.");
    ("Who is eligible for SHA?",
     "All Kenyan citizens and residents are eligible to register for SHA.");
    ("Can I use SHA in any hospital?",
     "Yes, SHA can be used in all public hospitals and selected private facilities.");
    ("Does SHA cover emergencies?",
     "Yes, SHA covers emergency medical care.");
    ("Can I register my children under SHA?",
     "Yes, dependents such as children and spouses can be included.");
    ("How do I check if I am registered?",
     "You can check your registration status online or at a health center.");
    ("What should I do if I lose my SHA card?",
     "Visit your nearest health center or SHA office to request a replacement.")
  ].

(** The four dictionaries of [faq_translations], entry by entry. *)
Module Translations.

Definition English : list (string * string) :=
  [
    ("What is SHA?",
     "SHA stands for Social Health Authority, which provides health services and benefits.");
    ("How can I register for SHA?",
     "You can register at your nearest health center or via the SHA portal.");
    ("Which services are covered?",
     "SHA covers preventive care, maternal care, and essential treatments.");
    ("Is SHA free or do I need to pay?",
     "Some services are free, but others may require a small contribution depending on the package.");
    ("Who is eligible for SHA?",
     "All Kenyan citizens and residents are eligible to register for SHA.");
    ("Can I use SHA in any hospital?",
     "Yes, SHA can be used in all public hospitals and selected private facilities.");
    ("Does SHA cover emergencies?",
     "Yes, SHA covers emergency medical care.");
    ("Can I register my children under SHA?",
     "Yes, dependents such as children and spouses can be included.");
    ("How do I check if I am registered?",
     "You can check your registration status online or at a health center.");
    ("What should I do if I lose my SHA card?",
     "Visit your nearest health center or SHA office to request a replacement.");
    ("Thank you for your feedback!",
     "Thank you for your feedback!");
    ("Home",
     "Home");
    ("FAQs & Chatbot",
     "FAQs & Chatbot");
    ("Multilingual Messages",
     "Multilingual Messages");
    ("Outreach Partners",
     "Outreach Partners");
    ("Community Feedback",
     "Community Feedback");
    ("Notifications & Reminders",
     "Notifications & Reminders");
    ("Campaign Dashboard",
     "Campaign Dashboard");
    ("Outbox",
     "Outbox");
    ("Settings",
     "Settings");
    ("Send",
     "Send");
    ("Submit",
     "Submit");
    ("Add",
     "Add");
    ("Search",
     "Search");
    ("Process All Messages",
     "Process All Messages");
    ("Retry Failed Only",
     "Retry Failed Only");
    ("Clear All Failed",
     "Clear All Failed");
    ("Save All Data Now",
     "Save All Data Now");
    ("Reload All Data",
     "Reload All Data")
  ].

Definition Swahili : list (string * string) :=
  [
    ("SHA ni nini?",
     "SHA inamaanisha Mamlaka ya Afya ya Jamii, ambayo inatoa huduma na manufaa ya afya.");
    ("Ninawezaje kujisajili kwa SHA?",
     "Unaweza kujisajili katika kituo cha afya kilicho karibu nawe au kupitia tovuti ya SHA.");
    ("Huduma zipi zinashughulikiwa?",
     "SHA inagharamia huduma za kinga, huduma za uzazi, na matibabu muhimu.");
    ("Je, SHA ni bure au nahitaji kulipa?",
     "Baadhi ya huduma ni bure, lakini zingine zinahitaji mchango mdogo kulingana na kifurushi.");
    ("Nani anastahiki kwa SHA?",
     "Raia wote wa Kenya na wakaazi wanastahiki kujisajili kwa SHA.");
    ("Je, naweza kutumia SHA katika hospitali yoyote?",
     "Ndiyo, SHA inatumika katika hospitali zote za umma na vituo binafsi vilivyochaguliwa.");
    ("Je, SHA inashughulikia dharura?",
     "Ndiyo, SHA inashughulikia huduma za dharura za matibabu.");
    ("Naweza kusajili watoto wangu chini ya SHA?",
     "Ndiyo, wategemezi kama watoto na wenzi wanaweza kuingizwa.");
    ("Ninawezaje kujua kama nimesajiliwa?",
     "Unaweza kuangalia hali ya usajili mtandaoni au katika kituo cha afya.");
    ("Nifanye nini nikikosa kadi ya SHA?",
     "Tembelea kituo cha afya kilicho karibu nawe au ofisi ya SHA kuomba kadi mpya.");
    ("Asante kwa maoni yako!",
     "Asante kwa maoni yako!");
    ("Home",
     "Nyumbani");
    ("FAQs & Chatbot",
     "Maswali Yanayoulizwa Mara Kwa Mara & Msaidizi");
    ("Multilingual Messages",
     "Ujumbe wa Lugha Nyingi");
    ("Outreach Partners",
     "Washirika wa Ufikiaji");
    ("Community Feedback",
     "Maoni ya Jamii");
    ("Notifications & Reminders",
     "Arifa na Vikumbusho");
    ("Campaign Dashboard",
     "Dashibodi ya Kampeni");
    ("Outbox",
     "Kikasha cha Kutuma");
    ("Settings",
     "Mipangilio");
    ("Send",
     "Tuma");
    ("Submit",
     "Wasilisha");
    ("Add",
     "Ongeza");
    ("Search",
     "Tafuta");
    ("Process All Messages",
     "Fanyia Kazi Ujumbe Wote");
    ("Retry Failed Only",
     "Jaribu Tena Ushindwaji Pekee");
    ("Clear All Failed",
     "Futa Yaliyoshindwa Yote");
    ("Save All Data Now",
     "Hifadhi Data Yote Sasa");
    ("Reload All Data",
     "Pakia Upya Data Yote")
  ].

Definition Luo : list (string * string) :=
  [
    ("SHA en ang'o?",
     "SHA en Social Health Authority, ma orit gi dhok yi mondo giko gi bedo mag dhok.");
    ("Nadi inyalo bedo e SHA?",
     "Inyalo registr kendo e health center maduong' gi e SHA portal.");
    ("Nadi tiende ma SHA oyudo?",
     "SHA en giko mag preventive care, maternal care, kod treatments ma nyaka.");
    ("SHA en nono kata inyalo chulogi?",
     "Kitiyo moko en nono, to moko nyalo kawo chul kata matin machielo.");
    ("Ng'a ma inyalo bedo gi SHA?",
     "Jodak Kenya duto gi joma nigi res ngima inyalo bedo gi SHA.");
    ("Inyalo tiyo gi SHA e hospital moro amora?",
     "Ee, inyalo tiyo gi SHA e hospitala duto ma ja-State gi moko ma obedo approved.");
    ("SHA biro orito emergencies?",
     "Ee, SHA biro konyo e ndalo ma emergency.");
    ("Nadi inyalo keto nyithindo e SHA?",
     "Ee, nyithindo gi mon ma inyalo keto e kaka dependents.");
    ("Nadi inyalo ng'eyo ka abedo registered?",
     "Inyalo temo ka in registered online kata e health center.");
    ("Nadi anyalo yudo kadi ma obiro ka aluwo?",
     "Dhi e health center maduong' kata SHA office mondo inyal goyo kadi manyien.");
    ("Erokamano kuom paro ni!",
     "Awuoyo gi nyalo walo!");
    ("Home",
     "Ot");
    ("FAQs & Chatbot",
     "Penj Kendo Kendo & Mony Kwer");
    ("Multilingual Messages",
     "Tik ma lwongo moko");
    ("Outreach Partners",
     "Joot ma onyiso");
    ("Community Feedback",
     "Paro ma joot");
    ("Notifications & Reminders",
     "Pwony kod gwoko");
    ("Campaign Dashboard",
     "Dashboard ma Campaign");
    ("Outbox",
     "Outbox");
    ("Settings",
     "Golo moko");
    ("Send",
     "Oro");
    ("Submit",
     "Iro");
    ("Add",
     "Medo");
    ("Search",
     "Yien");
    ("Process All Messages",
     "Timo Tik Duto");
    ("Retry Failed Only",
     "Temo Manyien ma Omedo");
    ("Clear All Failed",
     "Weche ma Omedo Duto");
    ("Save All Data Now",
     "Goyo Data Duto Sani");
    ("Reload All Data",
     "Lo Data Duto Manyien")
  ].

Definition Luhya : list (string * string) :=
  [
    ("SHA nindi?",
     "SHA ni Social Health Authority, ebuya amagara netaweire.");
    ("Wekha okhulikhila ku SHA nindi?",
     "Olwikhilire kuhealth center oba e SHA portal.");
    ("Nindi ebisese ebyo SHA ibuyire?",
     "SHA ibuyire preventive care, maternal care, ne essential treatments.");
    ("SHA nibere bukhaya nende mbela?",
     "Ebisese bimu nibere bukhaya, naye ebirala bulikhilanga obusolo butiti.");
    ("Niwenyefwa wosi bali nende SHA?",
     "Abandu bosi be Kenya nende abakhaya nibasungulwa khukhila ku SHA.");
    ("Nisena khukozesa SHA mu hospital esio yosi?",
     "Ee, SHA nibakhozesa mu hospitala yosi yebukhaya nende bimu bia private bibakhulile.");
    ("SHA ibachuranga emergency?",
     "Ee, SHA ibachuranga obulala obwa emergency.");
    ("Nisena khusangila abana bange mu SHA?",
     "Ee, abana nende musakhulu nibasambwa khuli dependents.");
    ("Nisena khwiyanza khukhwola obwikhilile bwanje?",
     "Wena khwiyanza khukhwola online oba mu health center.");
    ("Nisena khwiyanza khwibula khadi ya SHA?",
     "Leka health center oba SHA office khukhwola khadi emupi.");
    ("Webale muno okhu",
     "Webale muno okhu");
    ("Home",
     "Emukaro");
    ("FAQs & Chatbot",
     "Ebibulo Ebikhongo & Omusaidizi");
    ("Multilingual Messages",
     "Ebifuma ebilwanga mubulayi");
    ("Outreach Partners",
     "Abasaidizi bokusania");
    ("Community Feedback",
     "Ebiro byomukaro");
    ("Notifications & Reminders",
     "Ebimanyisio nende ebikumbusho");
    ("Campaign Dashboard",
     "Dashboard yomukhung'ano");
    ("Outbox",
     "Ebilayi okhuruma");
    ("Settings",
     "Ebiandikhwo");
    ("Send",
     "Ruma");
    ("Submit",
     "Ebisia");
    ("Add",
     "Ongeza");
    ("Search",
     "Khwenya");
    ("Process All Messages",
     "Khola ebifuma ebiosi");
    ("Retry Failed Only",
     "Elinga ebiosi ebifwile");
    ("Clear All Failed",
     "Sasania ebiosi ebifwile");
    ("Save All Data Now",
     "Tega data yosi sani");
    ("Reload All Data",
     "Lola data yosi manyasi")
  ].

End Translations.

(** [faq_translations]: language, then text, to translated text. *)
Definition faq_translations : gmap string (gmap string string) :=
  list_to_map
    [("English", list_to_map Translations.English);
     ("Swahili", list_to_map Translations.Swahili);
     ("Luo", list_to_map Translations.Luo);
     ("Luhya", list_to_map Translations.Luhya)].

(** [safe_translate(text, lang)]: the entry of the table of [lang] for
    [text], and [text] itself when the text is empty, the language has
    no table or the table has no such entry. *)
Definition safe_translate (text lang : string) : string :=
  if bool_decide (text = "") then text
  else default text (default ∅ (faq_translations !! lang) !! text).

(* ===================================================================== *)
(** ** Strings as the pages handle them *)
(* ===================================================================== *)

Module PyStr.

(** [s.lower()] on ASCII text. *)
Definition lower_char (c : ascii) : ascii :=
  let n := nat_of_ascii c in
  if (65 <=? n)%nat && (n <=? 90)%nat then ascii_of_nat (n + 32) else c.

Fixpoint lower (s : string) : string :=
  match s with
  | EmptyString => EmptyString
  | String c s' => String (lower_char c) (lower s')
  end.

(** [needle in hay] *)
Fixpoint contains (needle hay : string) : bool :=
  String.prefix needle hay
  || match hay with
     | String _ hay' => contains needle hay'
     | EmptyString => false
     end.

(** White space as [s.strip()] removes it from ASCII text. *)
Definition is_space (c : ascii) : bool :=
  let n := nat_of_ascii c in
  ((9 <=? n)%nat && (n <=? 13)%nat) || ((28 <=? n)%nat && (n <=? 32)%nat).

Fixpoint lstrip (s : list ascii) : list ascii :=
  match s with
  | c :: s' => if is_space c then lstrip s' else s
  | [] => []
  end.

Definition strip (s : string) : string :=
  string_of_list_ascii (rev (lstrip (rev (lstrip (list_ascii_of_string s))))).

(** [s.split(",")[0]]: the text before the first comma. *)
Fixpoint before_comma (s : string) : string :=
  match s with
  | EmptyString => EmptyString
  | String c s' => if bool_decide (c = ","%char) then EmptyString
                   else String c (before_comma s')
  end.

End PyStr.

(** What a page puts on the screen. *)
Inductive output :=
  | show_success (text : string)
  | show_info (text : string)
  | show_warning (text : string)
  | show_error (text : string)
  | show_markdown (text : string).

(* ===================================================================== *)
(** ** The chatbot of the FAQ page *)
(* ===================================================================== *)

(** The keyword loop of the chatbot: the answer of the first FAQ whose
    question or answer contains the lowered input [u], and [response]
    when there is none. *)
Fixpoint first_match (u : string) (items : list (string * string))
    (response : string) : string :=
  match items with
  | [] => response
  | (q, a) :: rest =>
      if PyStr.contains u (PyStr.lower q) || PyStr.contains u (PyStr.lower a)
      then a
      else first_match u rest response
  end.

(** The OpenAI side: whether [import openai] succeeded, what
    [openai_configured()] says (it swallows every exception itself), and
    the text [ChatCompletion.create(...).choices[0].message.content] for
    a question, or what the call raises. *)
Record ai := Ai {
  openai : bool;
  openai_configured : bool;
  ChatCompletion_create : string → result string
}.

Definition configure_openai_api (A : ai) : bool :=
  openai_configured A && openai A.

(** The "Get Answer" button. *)
Definition get_answer (A : ai) (user_input selected_language : string) : list output :=
  if bool_decide (user_input = "") then
    [show_warning (safe_translate "Please enter a question." selected_language)]
  else if openai A && configure_openai_api A then
    match ChatCompletion_create A user_input with
    | Ok content =>
        let answer := PyStr.strip content in
        [show_markdown ("**" +:+ safe_translate "Chatbot (AI) Response:" selected_language
                        +:+ "** " +:+ safe_translate answer selected_language)]
    | Raise e =>
        let fallback :=
          first_match (PyStr.lower user_input) faqs
            "Sorry, I couldn't fetch an AI response. Here is a simple answer attempt." in
        [show_error ("OpenAI error: " +:+ str_exn e);
         show_markdown ("**" +:+ safe_translate "Chatbot (Fallback):" selected_language
                        +:+ "** " +:+ safe_translate fallback selected_language)]
    end
  else
    let response :=
      first_match (PyStr.lower user_input) faqs
        "Sorry, I don't have an answer for that yet." in
    [show_markdown ("**" +:+ safe_translate "Chatbot Response:" selected_language
                    +:+ "** " +:+ safe_translate response selected_language)].

(** The FAQ page lists, for each FAQ, the translated question as the
    header of an expander and the translated answer inside it. *)
Definition faq_page (selected_language : string) : list (string * string) :=
  (λ qa : string * string,
     (safe_translate qa.1 selected_language, safe_translate qa.2 selected_language))
  <$> faqs.

(* ===================================================================== *)
(** ** The pages that send and the "Process All Messages" button *)
(* ===================================================================== *)

(** A row of [partners_df]; the language cell holds the string the Add
    form writes (the languages joined by commas) or the loader fills
    in. *)
Record partner := Partner {
  P_Name : value;
  P_Role : value;
  P_Language : string;
  P_Contact : value;
  P_Campaign_Assigned : value
}.

(** The first language listed for a partner, English when none is. *)
Definition preferred_lang (language : string) : string :=
  if bool_decide (language = "") then "English"
  else PyStr.strip (PyStr.before_comma language).

Section Pages.

Variable E : env.

(** The page's own test before a send:
    [f(...) if twilio_configured() and TwilioClient else (False, ...)]. *)
Definition send_if_configured (send : M (bool * string)) : M (bool * string) :=
  t ← ask;
  if twilio_configured E t && TwilioClient E then send
  else mret (false, "Twilio not configured").

(** The "Send" button of the Multilingual Messages page: a message that
    goes out is logged, one that does not is queued.  What the page
    shows ([st.warning], [st.success], [st.error]) is left out.  The
    transport calls of the pages are not recorded in [trace], which
    lists the calls of [process_outbox]. *)
Definition send_message (recipient msg_text msg_type msg_lang : string) : M unit :=
  if bool_decide (recipient = "") || bool_decide (msg_text = "") then mret tt
  else
    let translated := safe_translate msg_text msg_lang in
    if bool_decide (msg_type = "sms") then
      '(ok, info) ← send_if_configured (safe_send_sms E (VStr recipient) (VStr translated));
      if (ok : bool) then
        t ← ask;
        let log_row := SentRow (VStr recipient) (VStr translated) (VStr msg_lang)
                               (VStr (now E t)) (VStr "sms") (VStr "Sent") in
        modify (set_message_logs (λ logs, logs ++ [log_row]));;
        save_df_to_file E MESSAGES_FILE
      else
        add_to_outbox E (VStr recipient) (VStr translated) (VStr msg_lang) (VStr "sms")
    else
      '(ok, info) ← send_if_configured (safe_make_call E (VStr recipient) (VStr translated));
      if (ok : bool) then
        t ← ask;
        let log_row := SentRow (VStr recipient) (VStr translated) (VStr msg_lang)
                               (VStr (now E t)) (VStr "voice") (VStr "Sent") in
        modify (set_message_logs (λ logs, logs ++ [log_row]));;
        save_df_to_file E MESSAGES_FILE
      else
        add_to_outbox E (VStr recipient) (VStr translated) (VStr msg_lang) (VStr "voice").

(** The "Send Message" button of the Outreach Partners page; what the
    page shows is left out. *)
Definition send_to_partner (partner_row : partner) (msg_text msg_type : string) : M unit :=
  if bool_decide (msg_text = "") then mret tt
  else
    let preferred := preferred_lang (P_Language partner_row) in
    let translated := safe_translate msg_text preferred in
    if bool_decide (msg_type = "sms") then
      '(ok, info) ← send_if_configured
                      (safe_send_sms E (P_Contact partner_row) (VStr translated));
      if (ok : bool) then mret tt
      else add_to_outbox E (P_Contact partner_row) (VStr translated) (VStr preferred)
                         (VStr "sms")
    else
      '(ok, info) ← send_if_configured
                      (safe_make_call E (P_Contact partner_row) (VStr translated));
      if (ok : bool) then mret tt
      else add_to_outbox E (P_Contact partner_row) (VStr translated) (VStr preferred)
                         (VStr "voice").

(** The "Process All Messages" button of the Outbox page: a drain with
    the default [max_attempts=3], then the number of deliveries and one
    error line per entry that was not delivered.  The page shows the
    button only while the table is not empty, and the notice otherwise;
    its text is a key of no table of [faq_translations], so it is shown
    as written in every language. *)
Definition process_all_messages : M (list output) :=
  df ← gets outbox_df;
  if Frame.empty df then mret [show_info "Outbox is empty."]
  else
    results ← process_outbox E 3;
    match results with
    | [] => mret []
    | _ =>
        mret (show_success
                ("Processed "
                 +:+ str_nat (length (filter (λ r : outcome, r.1.2 = true) results))
                 +:+ " messages successfully.")
              :: omap (λ r : outcome,
                         if r.1.2 then None
                         else Some (show_error ("Message " +:+ str_nat r.1.1 +:+ ": " +:+ r.2)))
                   results)
    end.

End Pages.

(* ===================================================================== *)
(** ** Vocabulary of the further properties *)
(* ===================================================================== *)

(** The count of the row converts and is below the ceiling: the rows a
    drain calls the transport for. *)
Definition below_ceiling (max_attempts : Z) (r : row) : bool :=
  match py_int (Attempts r) with
  | Ok a => a <? max_attempts
  | Raise _ => false
  end.

(** The transport of the world [E] delivers nothing: both send
    operations answer [False] whenever they are called. *)
Definition never_delivers (E : env) : Prop :=
  ∀ to_number message s,
    (∃ inf, (safe_send_sms E to_number message s).2 = Ok (false, inf))
    ∧ (∃ inf, (safe_make_call E to_number message s).2 = Ok (false, inf)).

(** What a drain leaves of a row when the transport delivers nothing. *)
Definition undelivered (max_attempts : Z) (r : row) : row :=
  match py_int (Attempts r) with
  | Ok a => if max_attempts <=? a
            then set_col CStatus (VStr "Failed") r
            else after_failure max_attempts a r
  | Raise _ => r
  end.

(** The count of an entry after [k] drains that deliver nothing, [a]
    being its count before them. *)
Definition count_after (max_attempts a : Z) (k : nat) : Z :=
  if max_attempts <=? a then a else Z.min (a + Z.of_nat k) max_attempts.

(** The cells a drain never writes. *)
Definition same_message (r r' : row) : Prop :=
  Recipient r' = Recipient r ∧ Message r' = Message r ∧ Language r' = Language r
  ∧ Date_Created r' = Date_Created r ∧ Type_ r' = Type_ r.

(** The row [add_to_outbox] queues. *)
Definition queued (recipient message language msg_type : value) (date : string) : row :=
  Row recipient message language (VStr date) msg_type (VInt 0) (VStr "Pending").

(** The channel a page sends on: sms when selected, voice otherwise. *)
Definition channel (msg_type : string) : string :=
  if bool_decide (msg_type = "sms") then "sms" else "voice".

(** The name of a column in the file, and the cell of a row in it. *)
Definition column_name (c : column) : string :=
  match c with
  | CRecipient => "Recipient"
  | CMessage => "Message"
  | CLanguage => "Language"
  | CDate_Created => "Date Created"
  | CType => "Type"
  | CAttempts => "Attempts"
  | CStatus => "Status"
  end.

Definition get_col (c : column) (r : row) : value :=
  match c with
  | CRecipient => Recipient r
  | CMessage => Message r
  | CLanguage => Language r
  | CDate_Created => Date_Created r
  | CType => Type_ r
  | CAttempts => Attempts r
  | CStatus => Status r
  end.

(** The loader reads the file through its fallback: the file exists,
    [pd.read_json] raises, and [json.load] gives the records. *)
Definition fallback_read (f : file) (recs : list (gmap string value)) : Prop :=
  isfile f = true ∧ (∃ e, read_json f = Raise e) ∧ json_load f = Ok recs.

(** What a page gets when it sends at tick [t]: the page's own test of
    the configuration, then the answer of the transport. *)
Definition page_answer (E : env) (t : nat) (msg_type : string) (to_number message : value)
  : bool * string :=
  if twilio_configured E t && TwilioClient E
  then answer E (S t) (VStr (channel msg_type)) to_number message
  else (false, "Twilio not configured").

(** [d.get(text, text)] for a translation table [d], behind the test
    for the empty text. *)
Definition translate_in (d : gmap string string) (text : string) : string :=
  if bool_decide (text = "") then text else default text (d !! text).

(* ===================================================================== *)
(** ** Partners' languages and the reminders *)
(* ===================================================================== *)

Definition language_options : list string := ["English"; "Swahili"; "Luo"; "Luhya"].

(** [sep.join(l)] *)
Fixpoint py_join (sep : string) (l : list string) : string :=
  match l with
  | [] => ""
  | [x] => x
  | x :: rest => x +:+ sep +:+ py_join sep rest
  end.

(** The row the "Add" button of the partners page appends: the
    languages picked in the form are joined by a comma and a blank. *)
Definition new_partner (name role : string) (langs : list string)
    (contact campaign : string) : partner :=
  Partner (VStr name) (VStr role) (py_join ", " langs) (VStr contact) (VStr campaign).

Module Reminders.

(** A row of [reminders_df]. *)
Record reminder := Reminder {
  Task : value;
  Due_Date : value;
  Assigned_To : value;
  R_Status : value
}.

Definition nan_reminder : reminder := Reminder VNaN VNaN VNaN VNaN.

Definition set_Status (v : value) (r : reminder) : reminder :=
  Reminder (Task r) (Due_Date r) (Assigned_To r) v.

(** The "Complete" button of the reminder labelled [idx]:
    [reminders_df.at[idx, "Status"] = "Completed"], which sets the cell
    of every row under the label and adds a row when there is none.
    The write of the file that follows is left out. *)
Definition complete (idx : nat) (df : list (nat * reminder)) : list (nat * reminder) :=
  if bool_decide (idx ∈ df.*1) then
    (λ e : nat * reminder,
       if bool_decide (e.1 = idx) then (e.1, set_Status (VStr "Completed") e.2) else e)
    <$> df
  else df ++ [(idx, set_Status (VStr "Completed") nan_reminder)].

(** [row["Status"] in ["Pending", "In Progress"]] *)
Definition active (r : reminder) : bool :=
  eq_str (R_Status r) "Pending" || eq_str (R_Status r) "In Progress".

(** The "Active Reminders" figure of the dashboard:
    [len(df[df["Status"].isin(["Pending", "In Progress"])])]. *)
Definition active_reminders (df : list (nat * reminder)) : nat :=
  length (filter (λ e : nat * reminder, active e.2 = true) df).

End Reminders.

(* ===================================================================== *)
(** ** Sessions of button presses *)
(* ===================================================================== *)

(** One press of a button that touches the queue: "Send" of the
    messages page, "Send Message" of the partners page, and the three
    buttons of the Outbox page. *)
Inductive press : state → state → Prop :=
  | press_send E recipient msg_text msg_type msg_lang s :
      press s (send_message E recipient msg_text msg_type msg_lang s).1
  | press_send_to_partner E partner_row msg_text msg_type s :
      press s (send_to_partner E partner_row msg_text msg_type s).1
  | press_process E s :
      press s (process_all_messages E s).1
  | press_retry E s :
      press s (retry_failed_only E s).1
  | press_clear E s :
      press s (clear_all_failed E s).1.

(** Status and count agree, for the ceiling 3 of the Outbox page. *)
Definition consistent_row (r : row) : Prop :=
  (Status r = VStr "Pending" ∧ Attempts r = VInt 0)
  ∨ (Status r = VStr "Retrying" ∧ (Attempts r = VInt 1 ∨ Attempts r = VInt 2))
  ∨ (Status r = VStr "Failed" ∧ Attempts r = VInt 3).

Definition consistent (s : state) : Prop :=
  NoDup (labels (outbox_df s))
  ∧ ∀ idx r, (idx, r) ∈ outbox_df s → consistent_row r.

(* ===================================================================== *)
(** ** The builtin conversions: examples *)
(* ===================================================================== *)

Example py_int_empty :
  py_int (VStr "") = Raise (ValueError "invalid literal for int() with base 10: ''").
Proof. reflexivity. Qed.

Example py_int_padded : py_int (VStr " -1_0 ") = Ok (-10).
Proof. reflexivity. Qed.

Example py_int_leading_zeros : py_int (VStr "007") = Ok 7.
Proof. reflexivity. Qed.

Example py_int_sign_alone :
  py_int (VStr "+") = Raise (ValueError "invalid literal for int() with base 10: '+'").
Proof. reflexivity. Qed.

Example py_int_bad :
  py_int (VStr "1__0") = Raise (ValueError "invalid literal for int() with base 10: '1__0'").
Proof. reflexivity. Qed.

Example str_Z_neg : str_Z (-42) = "-42"%string.
Proof. reflexivity. Qed.

(* ===================================================================== *)
(** ** Tables: lemmas *)
(* ===================================================================== *)

Section FrameLemmas.

Implicit Types (df done rest : frame) (idx : nat) (r : row).

Lemma labels_app done rest : labels (done ++ rest) = labels done ++ labels rest.
Proof. unfold labels. apply fmap_app. Qed.

Lemma at_set_middle idx c v done r rest :
  NoDup (labels (done ++ (idx, r) :: rest)) →
  Frame.at_set idx c v (done ++ (idx, r) :: rest)
  = done ++ (idx, set_col c v r) :: rest.
Proof.
  intros Hnd. unfold Frame.at_set.
  rewrite bool_decide_eq_true_2
    by (rewrite labels_app; set_solver).
  rewrite labels_app in Hnd. cbn in Hnd.
  apply NoDup_app in Hnd as (_ & Hdisj & Hnd).
  apply NoDup_cons in Hnd as [Hrest _].
  rewrite fmap_app, fmap_cons. cbn.
  rewrite bool_decide_eq_true_2 by done.
  f_equal; [|f_equal].
  - rewrite <- (list_fmap_id done) at 2. apply list_fmap_ext.
    intros i [j x] Hl. cbn. rewrite bool_decide_eq_false_2; [done|].
    intros ->. apply (Hdisj idx).
    + apply list_elem_of_fmap. exists (idx, x). split; [done|].
      eapply list_elem_of_lookup_2; eauto.
    + set_solver.
  - rewrite <- (list_fmap_id rest) at 2. apply list_fmap_ext.
    intros i [j x] Hl. cbn. rewrite bool_decide_eq_false_2; [done|].
    intros ->. apply Hrest.
    apply list_elem_of_fmap. exists (idx, x). split; [done|].
    eapply list_elem_of_lookup_2; eauto.
Qed.

Lemma filter_labels_other idx df :
  idx ∉ labels df → filter (λ e : nat * row, e.1 ≠ idx) df = df.
Proof.
  induction df as [|[j x] df IH]; [done|]. intros Hni.
  unfold labels in *. rewrite fmap_cons in Hni. cbn in Hni.
  rewrite filter_cons_True by (cbn; set_solver).
  f_equal. apply IH. set_solver.
Qed.

Lemma drop_middle idx done r rest :
  NoDup (labels (done ++ (idx, r) :: rest)) →
  Frame.drop idx (done ++ (idx, r) :: rest) = Ok (done ++ rest).
Proof.
  intros Hnd. unfold Frame.drop.
  rewrite bool_decide_eq_true_2
    by (rewrite labels_app; set_solver).
  rewrite labels_app in Hnd. cbn in Hnd.
  apply NoDup_app in Hnd as (_ & Hdisj & Hnd).
  apply NoDup_cons in Hnd as [Hrest _].
  rewrite filter_app, filter_cons_False by (cbn; tauto).
  rewrite !filter_labels_other; [done|done|].
  intros Hin. apply (Hdisj idx Hin). set_solver.
Qed.

Lemma NoDup_labels_remove idx done r rest :
  NoDup (labels (done ++ (idx, r) :: rest)) → NoDup (labels (done ++ rest)).
Proof.
  rewrite !labels_app. cbn. intros Hnd.
  apply NoDup_app in Hnd as (Hd & Hdisj & Hnd).
  apply NoDup_cons in Hnd as [_ Hrest].
  apply NoDup_app. split_and!; [done| |done].
  intros x Hx Hx'. apply (Hdisj x Hx). set_solver.
Qed.

Lemma NoDup_labels_replace idx done r r' rest :
  NoDup (labels (done ++ (idx, r) :: rest)) →
  NoDup (labels (done ++ (idx, r') :: rest)).
Proof. by rewrite !labels_app. Qed.

Lemma NoDup_labels_settled idx done r r' rest :
  NoDup (labels (done ++ (idx, r) :: rest)) →
  NoDup (labels ((done ++ [(idx, r')]) ++ rest)).
Proof. by rewrite <- app_assoc, !labels_app. Qed.

Lemma label_unique df idx r r' :
  NoDup (labels df) → (idx, r) ∈ df → (idx, r') ∈ df → r = r'.
Proof.
  induction df as [|[i x] df IH]; [by intros _ ?%elem_of_nil|].
  cbn. intros [Hi Hnd]%NoDup_cons H1 H2.
  apply elem_of_cons in H1 as [[= -> ->]|H1];
    apply elem_of_cons in H2 as [[= ?]|H2]; subst; try done.
  - exfalso. apply Hi. apply list_elem_of_fmap. by exists (i, r').
  - exfalso. apply Hi. apply list_elem_of_fmap. by exists (i, r).
  - by apply IH.
Qed.

End FrameLemmas.

(* ===================================================================== *)
(** ** The Delivery Transport and the saver: lemmas *)
(* ===================================================================== *)

Ltac run :=
  cbv beta delta [mbind M_bind bind mret M_ret ret lift gets modify ask
                  try_except] iota.
Ltac fields :=
  unfold set_outbox_df, set_message_logs, set_tick, set_trace;
  cbn [outbox_df message_logs tick trace fst snd].

Section OperationLemmas.

Variables (E : env) (max_attempts : Z).

Lemma safe_send_sms_answer to_number message s :
  safe_send_sms E to_number message s
  = (set_tick S s, Ok (answer E (tick s) (VStr "sms") to_number message)).
Proof.
  unfold safe_send_sms, answer. run. cbn [eq_str].
  rewrite bool_decide_eq_true_2 by done.
  destruct (negb _ || negb _); [done|].
  by destruct (messages_create _ _ _ _).
Qed.

Lemma safe_make_call_answer msg_type to_number message s :
  eq_str msg_type "sms" = false →
  safe_make_call E to_number message s
  = (set_tick S s, Ok (answer E (tick s) msg_type to_number message)).
Proof.
  intros Hty. unfold safe_make_call, answer. run. rewrite Hty.
  destruct (negb _ || negb _); [done|].
  by destruct (calls_create _ _ _ _).
Qed.

Lemma send_answer msg_type to_number message s :
  (if eq_str msg_type "sms"
   then safe_send_sms E to_number message
   else safe_make_call E to_number message) s
  = (set_tick S s, Ok (answer E (tick s) msg_type to_number message)).
Proof.
  destruct (eq_str msg_type "sms") eqn:Hty.
  - rewrite safe_send_sms_answer. do 2 f_equal.
    destruct msg_type; try done. cbn in Hty.
    apply bool_decide_eq_true in Hty. by subst.
  - by apply safe_make_call_answer.
Qed.

Lemma for_each_cons {A B} (body : A → B → M B) x l acc s :
  for_each body (x :: l) acc s
  = match body x acc s with
    | (s', Ok acc') => for_each body l acc' s'
    | (s', Raise e) => (s', Raise e)
    end.
Proof. reflexivity. Qed.

(** Lines 409-421 on a table without repeated labels: one question to
    the transport, one call recorded, and one cell written unless
    pandas refuses the count. *)
Lemma attempt_delivery_run idx r a done rest logs t tr :
  NoDup (labels (done ++ (idx, r) :: rest)) →
  attempt_delivery E idx r a (State (done ++ (idx, r) :: rest) logs t tr)
  = let oi := answer E t (Type_ r) (Recipient r) (Message r) in
    let att := Attempt idx (Type_ r) (Recipient r) (Message r) oi.1 oi.2 in
    match count_write E (S t) (a + 1) with
    | Ok _ =>
        (State (done ++ (idx, set_col CAttempts (VInt (a + 1)) r) :: rest) logs (S t)
               (tr ++ [att]),
         Ok oi)
    | Raise e => (State (done ++ (idx, r) :: rest) logs (S t) (tr ++ [att]), Raise e)
    end.
Proof.
  intros Hnd. unfold attempt_delivery, write_attempts. run. rewrite send_answer.
  destruct (answer _ _ _ _ _) as [ok inf]. fields.
  destruct (count_write E (S t) (a + 1)) as [[]|e]; [|done].
  by rewrite at_set_middle by done.
Qed.

(** One turn of the loop on a table without repeated labels. *)
Lemma process_row_run idx r results done rest logs t tr :
  NoDup (labels (done ++ (idx, r) :: rest)) →
  process_row E max_attempts (idx, r) results
    (State (done ++ (idx, r) :: rest) logs t tr)
  = match py_int (Attempts r) with
    | Raise e => (State (done ++ (idx, r) :: rest) logs t tr, Raise e)
    | Ok a =>
        if max_attempts <=? a then
          (State (done ++ (idx, set_col CStatus (VStr "Failed") r) :: rest) logs t tr,
           Ok (results ++ [(idx, false, "max attempts reached")]))
        else
          let oi := answer E t (Type_ r) (Recipient r) (Message r) in
          let att := Attempt idx (Type_ r) (Recipient r) (Message r) oi.1 oi.2 in
          match count_write E (S t) (a + 1) with
          | Raise e => (State (done ++ (idx, r) :: rest) logs (S t) (tr ++ [att]), Raise e)
          | Ok _ =>
              if oi.1 then
                (State (done ++ rest)
                       (logs ++ [SentRow (Recipient r) (Message r) (Language r)
                                         (VStr (now E (S t))) (Type_ r) (VStr "Sent")])
                       (S (S t)) (tr ++ [att]),
                 Ok (results ++ [(idx, true, oi.2)]))
              else
                (State (done ++ (idx, after_failure max_attempts a r) :: rest) logs (S t)
                       (tr ++ [att]),
                 Ok (results ++ [(idx, false, oi.2)]))
          end
    end.
Proof.
  intros Hnd. unfold process_row. run.
  destruct (py_int (Attempts r)) as [a|e]; [|done].
  destruct (max_attempts <=? a) eqn:Hmax.
  { fields. by rewrite at_set_middle by done. }
  rewrite attempt_delivery_run by done. cbv zeta.
  destruct (count_write E (S t) (a + 1)) as [[]|e]; [|done].
  destruct (answer E t (Type_ r) (Recipient r) (Message r)) as [[] inf]; fields.
  - by rewrite drop_middle by (by eapply NoDup_labels_replace).
  - unfold after_failure.
    destruct (a + 1 <? max_attempts); fields;
      by rewrite at_set_middle by (by eapply NoDup_labels_replace).
Qed.

(** The loop of [process_outbox] over the rows [rows] of the copy,
    when the table holds them after the rows [done] already settled
    and no label occurs twice: the loop does to the table what
    [run_rows] does to the rows. *)
Lemma for_each_process_row rows : ∀ done logs t tr results,
  NoDup (labels (done ++ rows)) →
  for_each (process_row E max_attempts) rows results
    (State (done ++ rows) logs t tr)
  = let p := run_rows E max_attempts rows t in
    (State (done ++ kept p) (logs ++ logged p) (clock p) (tr ++ tried p),
     match failure p with
     | None => Ok (results ++ reported p)
     | Some e => Raise e
     end).
Proof.
  induction rows as [|[idx r] rest IH]; intros done logs t tr results Hnd.
  - cbn. by rewrite !app_nil_r.
  - rewrite for_each_cons, process_row_run by done. cbn [run_rows].
    destruct (py_int (Attempts r)) as [a|e]; [|cbn; by rewrite !app_nil_r].
    destruct (max_attempts <=? a) eqn:Hmax.
    { rewrite (cons_middle _ done rest), app_assoc, IH
        by (by eapply NoDup_labels_settled).
      cbn. rewrite <- !app_assoc. cbn. by destruct (failure _). }
    cbv zeta.
    destruct (count_write E (S t) (a + 1)) as [[]|e]; [|cbn; by rewrite !app_nil_r].
    destruct (answer E t (Type_ r) (Recipient r) (Message r)) as [[] inf];
      cbn [fst snd].
    + rewrite IH by (by eapply NoDup_labels_remove).
      cbn. rewrite <- !app_assoc. cbn. by destruct (failure _).
    + rewrite (cons_middle _ done rest), app_assoc, IH
        by (by eapply NoDup_labels_settled).
      cbn. rewrite <- !app_assoc. cbn. by destruct (failure _).
Qed.

Lemma save_df_to_file_run path s :
  save_df_to_file E path s
  = (set_tick S s,
     match to_json E (tick s) path with
     | Ok u => Ok u
     | Raise _ => json_dump E (tick s) path
     end).
Proof.
  unfold save_df_to_file. run.
  destruct (to_json _ _ _); [done|]. by destruct (json_dump _ _ _).
Qed.

Lemma save_df_to_file_state path s :
  outbox_df (save_df_to_file E path s).1 = outbox_df s
  ∧ message_logs (save_df_to_file E path s).1 = message_logs s
  ∧ trace (save_df_to_file E path s).1 = trace s.
Proof. by rewrite save_df_to_file_run. Qed.

(** [process_outbox] on a table without repeated labels: whatever the
    outcome, the session ends with the tables and the calls of
    [run_rows]; and a returned list is the one of a pass that no
    exception stopped. *)
Lemma process_outbox_run s :
  NoDup (labels (outbox_df s)) →
  let p := run_rows E max_attempts (outbox_df s) (tick s) in
  let s' := (process_outbox E max_attempts s).1 in
  outbox_df s' = kept p
  ∧ message_logs s' = message_logs s ++ logged p
  ∧ trace s' = trace s ++ tried p
  ∧ ∀ results, (process_outbox E max_attempts s).2 = Ok results →
      failure p = None ∧ results = reported p.
Proof.
  destruct s as [df logs t tr]. cbn [outbox_df message_logs tick trace].
  intros Hnd. unfold process_outbox. run. cbn [outbox_df].
  destruct df as [|e df].
  { cbn. rewrite !app_nil_r. split_and!; try done. by intros ? [= <-]. }
  cbn [Frame.empty]. generalize dependent (e :: df). clear e df. intros df Hnd.
  pose proof (for_each_process_row df [] logs t tr [] Hnd) as Hloop.
  cbn [app] in Hloop. rewrite Hloop. cbv zeta.
  destruct (failure (run_rows E max_attempts df t)) as [e|] eqn:Hf.
  { cbn. by split_and!. }
  rewrite !save_df_to_file_run. fields.
  destruct (match to_json E _ OUTBOX_FILE with Ok u => _ | Raise _ => _ end).
  2:{ cbn. by split_and!. }
  destruct (match to_json E _ MESSAGES_FILE with Ok u => _ | Raise _ => _ end);
    cbn; split_and!; try done.
  by intros ? [= <-].
Qed.

End OperationLemmas.

(* ===================================================================== *)
(** ** One pass over the rows: lemmas *)
(* ===================================================================== *)

Lemma count_write_small E t n : small_count n = true → count_write E t n = Ok tt.
Proof. unfold count_write. by intros ->. Qed.

Lemma counts_fit_cons max_attempts e (rows : frame) :
  counts_fit max_attempts (e :: rows) → counts_fit max_attempts rows.
Proof. intros H idx r a Hin. apply (H idx r a). by apply list_elem_of_further. Qed.

Section PassLemmas.

Variables (E : env) (max_attempts : Z).

Ltac pass_cases r t :=
  cbn [run_rows];
  let a := fresh "a" in
  let inf := fresh "inf" in
  destruct (py_int (Attempts r)) as [a|?] eqn:?;
  [ destruct (max_attempts <=? a) eqn:?;
    [ | destruct (count_write E (S t) (a + 1)) as [[]|?] eqn:?;
        [ destruct (answer E t (Type_ r) (Recipient r) (Message r)) as [[] inf] eqn:? | ] ] | ];
  cbn [kept logged tried reported clock failure fst snd].

(** Every call of the transport made in a pass was made for a row of
    the table that had attempts left, with the cells of that row; and
    when the count was written (no exception stopped the pass, or the
    count is a small one) a failed call leaves the row counted and
    marked and is reported, a successful one is reported and logged. *)
Lemma tried_row rows : ∀ t att,
  att ∈ tried (run_rows E max_attempts rows t) →
  let p := run_rows E max_attempts rows t in
  ∃ r a, (a_idx att, r) ∈ rows
    ∧ py_int (Attempts r) = Ok a ∧ a < max_attempts
    ∧ a_type att = Type_ r ∧ a_to att = Recipient r ∧ a_body att = Message r
    ∧ (failure p = None ∨ small_count (a + 1) = true →
         (a_idx att, a_ok att, a_info att) ∈ reported p
         ∧ (a_ok att = false → (a_idx att, after_failure max_attempts a r) ∈ kept p)
         ∧ (a_ok att = true →
              ∃ tk, SentRow (Recipient r) (Message r) (Language r) (VStr (now E tk))
                            (Type_ r) (VStr "Sent") ∈ logged p)).
Proof.
  induction rows as [|[idx r] rest IH]; intros t att; [by cbn; intros ?%elem_of_nil|].
  cbv zeta. pass_cases r t; intros Hin.
  - destruct (IH _ _ Hin) as (r' & a' & ? & ? & ? & ? & ? & ? & Hw).
    exists r', a'. split_and!; [set_solver|done..|].
    intros Hc. destruct (Hw Hc) as (? & ? & ?). split_and!; [set_solver|set_solver|done].
  - apply elem_of_cons in Hin as [->|Hin].
    + exists r, a. cbn. split_and!; [set_solver|done|lia|done..|].
      intros _. split_and!; [set_solver|done|]. intros _. eexists. apply list_elem_of_here.
    + destruct (IH _ _ Hin) as (r' & a' & ? & ? & ? & ? & ? & ? & Hw).
      exists r', a'. split_and!; [set_solver|done..|].
      intros Hc. destruct (Hw Hc) as (? & ? & Hlog). split_and!; [set_solver|done|].
      intros Hok. destruct (Hlog Hok) as [tk ?]. exists tk. set_solver.
  - apply elem_of_cons in Hin as [->|Hin].
    + exists r, a. cbn. split_and!; [set_solver|done|lia|done..|].
      intros _. split_and!; [set_solver|set_solver|done].
    + destruct (IH _ _ Hin) as (r' & a' & ? & ? & ? & ? & ? & ? & Hw).
      exists r', a'. split_and!; [set_solver|done..|].
      intros Hc. destruct (Hw Hc) as (? & ? & ?). split_and!; [set_solver|set_solver|done].
  - apply list_elem_of_singleton in Hin as ->.
    exists r, a. cbn. split_and!; [set_solver|done|lia|done..|].
    intros [?|Hs]; [done|]. rewrite count_write_small in * by done. done.
  - by apply elem_of_nil in Hin.
Qed.

(** Every row a pass keeps stands for a row of the table under the
    same label: untouched, marked Failed by the guard, or counted and
    marked after a failed delivery. *)
Lemma kept_row rows : ∀ t idx r',
  (idx, r') ∈ kept (run_rows E max_attempts rows t) →
  ∃ r, (idx, r) ∈ rows
    ∧ (r' = r
       ∨ (∃ a, py_int (Attempts r) = Ok a ∧ max_attempts ≤ a
               ∧ r' = set_col CStatus (VStr "Failed") r)
       ∨ (∃ a, py_int (Attempts r) = Ok a ∧ a < max_attempts
               ∧ r' = after_failure max_attempts a r)).
Proof.
  induction rows as [|[i r] rest IH]; intros t idx r'; [by cbn; intros ?%elem_of_nil|].
  pass_cases r t; intros Hin.
  - apply elem_of_cons in Hin as [[= -> ->]|Hin].
    + exists r. split; [set_solver|]. right; left. exists a. split_and!; [done|lia|done].
    + destruct (IH _ _ _ Hin) as (r0 & ? & ?). exists r0. split; [set_solver|done].
  - destruct (IH _ _ _ Hin) as (r0 & ? & ?). exists r0. split; [set_solver|done].
  - apply elem_of_cons in Hin as [[= -> ->]|Hin].
    + exists r. split; [set_solver|]. right; right. exists a. split_and!; [done|lia|done].
    + destruct (IH _ _ _ Hin) as (r0 & ? & ?). exists r0. split; [set_solver|done].
  - exists r'. split; [done|by left].
  - exists r'. split; [done|by left].
Qed.

Lemma kept_labels rows : ∀ t,
  sublist (labels (kept (run_rows E max_attempts rows t))) (labels rows).
Proof.
  induction rows as [|[i r] rest IH]; intros t; [done|].
  pass_cases r t; cbn; try done.
  - by apply sublist_skip.
  - by apply sublist_cons.
  - by apply sublist_skip.
Qed.

Lemma kept_NoDup rows t :
  NoDup (labels rows) → NoDup (labels (kept (run_rows E max_attempts rows t))).
Proof. intros Hnd. eapply sublist_NoDup; [done|apply kept_labels]. Qed.

Lemma Attempts_set_Status v r : Attempts (set_col CStatus v r) = Attempts r.
Proof. by destruct r. Qed.

Lemma Status_set_Status v r : Status (set_col CStatus v r) = v.
Proof. by destruct r. Qed.

Lemma Attempts_set_Attempts v r : Attempts (set_col CAttempts v r) = v.
Proof. by destruct r. Qed.

Lemma set_Status_same r s : Status r = VStr s → set_col CStatus (VStr s) r = r.
Proof. destruct r. cbn. by intros ->. Qed.

(** A row at the ceiling is marked Failed and reported by a pass that
    reaches it, and stays in the table in any case. *)
Lemma guard_kept rows : ∀ t idx r a,
  (idx, r) ∈ rows → py_int (Attempts r) = Ok a → max_attempts ≤ a →
  let p := run_rows E max_attempts rows t in
  (failure p = None →
     (idx, set_col CStatus (VStr "Failed") r) ∈ kept p
     ∧ (idx, false, "max attempts reached") ∈ reported p)
  ∧ ((idx, set_col CStatus (VStr "Failed") r) ∈ kept p ∨ (idx, r) ∈ kept p).
Proof.
  induction rows as [|[i r0] rest IH]; intros t idx r a Hin Hint Hmax;
    [by apply elem_of_nil in Hin|].
  cbv zeta.
  apply elem_of_cons in Hin as [[= <- <-]|Hin].
  - cbn [run_rows]. rewrite Hint.
    rewrite (proj2 (Z.leb_le _ _)) by done. cbn. set_solver.
  - pass_cases r0 t;
      try (destruct (IH ltac:(eassumption || exact t) _ _ _ Hin Hint Hmax) as [? ?]);
      set_solver.
Qed.

(** The transport is not called for a row at the ceiling. *)
Lemma guard_not_tried rows t idx r a att :
  NoDup (labels rows) →
  (idx, r) ∈ rows → py_int (Attempts r) = Ok a → max_attempts ≤ a →
  att ∈ tried (run_rows E max_attempts rows t) → a_idx att ≠ idx.
Proof.
  intros Hnd Hin Hint Hmax Hatt Heq.
  destruct (tried_row _ _ _ Hatt) as (r' & a' & Hin' & Hint' & Hlt & _).
  rewrite Heq in Hin'.
  assert (r = r') as <- by (by eapply label_unique).
  rewrite Hint in Hint'. injection Hint' as <-. lia.
Qed.





(** A pass that no exception stops has converted every count; and
    when the counts to write are small ones, the pass is stopped
    exactly when a count does not convert. *)
Lemma failure_None rows : ∀ t,
  (failure (run_rows E max_attempts rows t) = None →
     ∀ idx r, (idx, r) ∈ rows → ∃ a, py_int (Attempts r) = Ok a)
  ∧ (counts_fit max_attempts rows →
     (∀ idx r, (idx, r) ∈ rows → ∃ a, py_int (Attempts r) = Ok a) →
     failure (run_rows E max_attempts rows t) = None).
Proof.
  induction rows as [|[i r0] rest IH]; intros t.
  { split; [by intros _ ?? ?%elem_of_nil|done]. }
  pass_cases r0 t.
  1-3: split;
    [ intros Hf idx r [[= -> ->]|Hin]%elem_of_cons;
        [by eexists|by eapply (proj1 (IH _))]
    | intros Hfit Hall; apply IH; [by eapply counts_fit_cons|];
      intros idx r Hin; eapply Hall; by apply list_elem_of_further ].
  - split; [done|]. intros Hfit _. exfalso.
    rewrite count_write_small in *; [done|].
    eapply (Hfit i r0); [apply list_elem_of_here|done|].
    by apply Z.leb_gt.
  - split; [done|]. intros _ Hall.
    destruct (Hall i r0 (list_elem_of_here _ _)) as [a Ha]. congruence.
Qed.


(** [process_outbox] in terms of the pass, with the rows and calls
    added. *)
Lemma drain_pass s :
  NoDup (labels (outbox_df s)) →
  let p := run_rows E max_attempts (outbox_df s) (tick s) in
  let s' := (process_outbox E max_attempts s).1 in
  outbox_df s' = kept p
  ∧ new_logs s s' = logged p
  ∧ new_attempts s s' = tried p
  ∧ message_logs s' = message_logs s ++ logged p
  ∧ trace s' = trace s ++ tried p
  ∧ ∀ results, (process_outbox E max_attempts s).2 = Ok results →
      failure p = None ∧ results = reported p.
Proof.
  intros Hnd. destruct (process_outbox_run E max_attempts s Hnd) as (H1 & H2 & H3 & H4).
  cbv zeta. unfold new_logs, new_attempts. rewrite H2, H3, !drop_app_length.
  by split_and!.
Qed.

End PassLemmas.

(* ===================================================================== *)
(** ** Properties of one drain *)
(* ===================================================================== *)

(** C9. Draining an empty queue returns the empty list of outcomes and
    leaves the whole session as it was: the delivery log is the same and
    the transport has been called for no entry. *)
Theorem drain_empty_queue (E : env) (max_attempts : Z) logs t tr :
  process_outbox E max_attempts (State [] logs t tr) = (State [] logs t tr, Ok []).
Proof. reflexivity. Qed.

(** C1. In a drain that returns, on a queue whose labels are distinct,
    every transport call that failed was made for an entry of the queue
    whose count [a] was below [max_attempts]; that entry is still in the queue with count [a + 1]
    and status Retrying when [a + 1 < max_attempts] and Failed
    otherwise, and the drain reports [(idx, False, info)] for it with
    the transport's own [info]. *)
Theorem drain_failed_delivery (E : env) (max_attempts : Z) s s' results att :
  NoDup (labels (outbox_df s)) →
  process_outbox E max_attempts s = (s', Ok results) →
  att ∈ new_attempts s s' →
  a_ok att = false →
  ∃ r a r',
    (a_idx att, r) ∈ outbox_df s
    ∧ py_int (Attempts r) = Ok a ∧ a < max_attempts
    ∧ (a_idx att, r') ∈ outbox_df s'
    ∧ r' = after_failure max_attempts a r
    ∧ Attempts r' = VInt (a + 1)
    ∧ Status r' = VStr (if a + 1 <? max_attempts then "Retrying" else "Failed")
    ∧ (a_idx att, false, a_info att) ∈ results.
Proof.
  intros Hnd Hrun Hatt Hok.
  destruct (drain_pass E max_attempts s Hnd) as (Hdf & _ & Htr & _ & _ & Hres).
  rewrite Hrun in *. cbn [fst snd] in *.
  destruct (Hres _ eq_refl) as [Hf ->].
  rewrite Htr in Hatt.
  destruct (tried_row _ _ _ _ _ Hatt) as (r & a & Hin & Hint & Hlt & _ & _ & _ & Hw).
  destruct (Hw (or_introl Hf)) as (Hrep & Hkept & _).
  exists r, a, (after_failure max_attempts a r).
  rewrite Hdf, Hok in *. split_and!; try done.
  - by apply Hkept.
  - unfold after_failure. by rewrite Attempts_set_Status, Attempts_set_Attempts.
  - unfold after_failure. by rewrite Status_set_Status.
Qed.

Lemma drain_failed_delivery_witness :
  ∃ r a r',
    (1%nat, r) ∈ outbox_df Examples.two_pending
    ∧ py_int (Attempts r) = Ok a ∧ a < 2
    ∧ (1%nat, r') ∈ outbox_df (process_outbox Examples.sms_only 2 Examples.two_pending).1
    ∧ r' = after_failure 2 a r
    ∧ Attempts r' = VInt (a + 1)
    ∧ Status r' = VStr (if a + 1 <? 2 then "Retrying" else "Failed")
    ∧ (1%nat, false, "Twilio error: number rejected")
        ∈ [(0%nat, true, "SMS sent: SM1"); (1%nat, false, "Twilio error: number rejected")].
Proof.
  apply (drain_failed_delivery Examples.sms_only 2 Examples.two_pending
           (process_outbox Examples.sms_only 2 Examples.two_pending).1
           [(0%nat, true, "SMS sent: SM1"); (1%nat, false, "Twilio error: number rejected")]
           (Attempt 1 (VStr "voice") (VStr "+254700000001") (VStr "Register for SHA")
                    false "Twilio error: number rejected")).
  - refine (bool_decide_unpack _ _). vm_compute. exact I.
  - vm_compute. reflexivity.
  - vm_compute. apply list_elem_of_further, list_elem_of_here.
  - reflexivity.
Defined.



(* ===================================================================== *)
(** ** Properties of several drains *)
(* ===================================================================== *)

Section Drains.

Variable max_attempts : Z.

Lemma drains_cons E Es s :
  drains max_attempts (E :: Es) s
  = drains max_attempts Es (process_outbox E max_attempts s).1.
Proof. reflexivity. Qed.

Lemma drain_NoDup E s :
  NoDup (labels (outbox_df s)) →
  NoDup (labels (outbox_df (process_outbox E max_attempts s).1)).
Proof.
  intros Hnd. destruct (drain_pass E max_attempts s Hnd) as (-> & _).
  by apply kept_NoDup.
Qed.

(** An entry at the ceiling that is marked Failed goes through a drain
    untouched and without a call of the transport, whatever the outcome
    of the drain. *)
Lemma drain_keeps_failed E s idx r a :
  NoDup (labels (outbox_df s)) →
  (idx, r) ∈ outbox_df s → py_int (Attempts r) = Ok a → max_attempts ≤ a →
  Status r = VStr "Failed" →
  let s' := (process_outbox E max_attempts s).1 in
  (idx, r) ∈ outbox_df s'
  ∧ ∀ att, att ∈ new_attempts s s' → a_idx att ≠ idx.
Proof.
  intros Hnd Hin Hint Hmax Hst.
  destruct (drain_pass E max_attempts s Hnd) as (Hdf & _ & Htr & _).
  cbv zeta. rewrite Hdf, Htr. split.
  - destruct (guard_kept E max_attempts _ (tick s) _ _ _ Hin Hint Hmax) as [_ Hk].
    rewrite set_Status_same in Hk by done. by destruct Hk.
  - intros att Hatt. by eapply guard_not_tried.
Qed.

Lemma trace_grows E s :
  NoDup (labels (outbox_df s)) →
  ∃ tr, trace (process_outbox E max_attempts s).1 = trace s ++ tr
        ∧ new_attempts s (process_outbox E max_attempts s).1 = tr.
Proof.
  intros Hnd. destruct (drain_pass E max_attempts s Hnd) as (_ & _ & Htr & _ & Ht & _).
  eexists. by split.
Qed.

Lemma drains_keep_failed Es : ∀ s idx r a,
  NoDup (labels (outbox_df s)) →
  (idx, r) ∈ outbox_df s → py_int (Attempts r) = Ok a → max_attempts ≤ a →
  Status r = VStr "Failed" →
  let s' := drains max_attempts Es s in
  (idx, r) ∈ outbox_df s'
  ∧ ∃ tr, trace s' = trace s ++ tr ∧ ∀ att, att ∈ tr → a_idx att ≠ idx.
Proof.
  induction Es as [|E Es IH]; intros s idx r a Hnd Hin Hint Hmax Hst.
  { cbn. split; [done|]. exists []. rewrite app_nil_r. split; [done|].
    by intros ? ?%elem_of_nil. }
  cbv zeta. rewrite drains_cons.
  destruct (drain_keeps_failed E s idx r a) as [Hin1 Hno1]; try done.
  destruct (trace_grows E s Hnd) as (tr1 & Htr1 & Hnew1). rewrite Hnew1 in Hno1.
  destruct (IH (process_outbox E max_attempts s).1 idx r a) as (Hin2 & tr2 & Htr2 & Hno2);
    try done; [by apply drain_NoDup|].
  split; [done|]. exists (tr1 ++ tr2). rewrite Htr2, Htr1, app_assoc. split; [done|].
  intros att [?|?]%elem_of_app; auto.
Qed.




End Drains.

(** C3. On a queue whose labels are distinct, an entry whose count is
    at or above [max_attempts] when a drain starts is not sent: the drain that returns marks it Failed and
    reports [(idx, False, "max attempts reached")] without calling the
    transport for it; and through any further drains with the same
    [max_attempts] the transport is still never called for it and it
    stays in the queue, Failed and with the same cells. *)
Theorem drain_terminal_budget (E : env) (max_attempts : Z) s s' results idx r a Es :
  NoDup (labels (outbox_df s)) →
  (idx, r) ∈ outbox_df s → py_int (Attempts r) = Ok a → max_attempts ≤ a →
  process_outbox E max_attempts s = (s', Ok results) →
  ¬ attempted s s' idx
  ∧ (idx, set_col CStatus (VStr "Failed") r) ∈ outbox_df s'
  ∧ (idx, false, "max attempts reached") ∈ results
  ∧ ¬ attempted s' (drains max_attempts Es s') idx
  ∧ (idx, set_col CStatus (VStr "Failed") r) ∈ outbox_df (drains max_attempts Es s').
Proof.
  intros Hnd Hin Hint Hmax Hrun.
  destruct (drain_pass E max_attempts s Hnd) as (Hdf & _ & Htr & _ & _ & Hres).
  pose proof (drain_NoDup max_attempts E s Hnd) as Hnd'.
  rewrite Hrun in *. cbn [fst snd] in *.
  destruct (Hres _ eq_refl) as [Hf ->].
  destruct (guard_kept E max_attempts _ (tick s) _ _ _ Hin Hint Hmax) as [Hk _].
  destruct (Hk Hf) as [Hkept Hrep]. rewrite <- Hdf in Hkept.
  destruct (drains_keep_failed max_attempts Es s' idx (set_col CStatus (VStr "Failed") r) a)
    as (Hin' & tr & Htr' & Hno); try done.
  { by rewrite Attempts_set_Status. }
  { by rewrite Status_set_Status. }
  split_and!; try done.
  - intros (att & Hatt & Heq). rewrite Htr in Hatt.
    exact (guard_not_tried E max_attempts _ _ _ _ _ _ Hnd Hin Hint Hmax Hatt Heq).
  - intros (att & Hatt & Heq). unfold new_attempts in Hatt.
    rewrite Htr', drop_app_length in Hatt. exact (Hno _ Hatt Heq).
Qed.

Lemma drain_terminal_budget_witness :
  let s := Examples.one_exhausted in
  let s' := (process_outbox Examples.sms_only 3 s).1 in
  let Es := [Examples.sms_only; Examples.unconfigured] in
  ¬ attempted s s' 0
  ∧ (0%nat, set_col CStatus (VStr "Failed") (Examples.entry "+254700000000" "sms" 3 "Retrying"))
      ∈ outbox_df s'
  ∧ (0%nat, false, "max attempts reached")
      ∈ [(0%nat, false, "max attempts reached"); (1%nat, false, "Twilio error: number rejected")]
  ∧ ¬ attempted s' (drains 3 Es s') 0
  ∧ (0%nat, set_col CStatus (VStr "Failed") (Examples.entry "+254700000000" "sms" 3 "Retrying"))
      ∈ outbox_df (drains 3 Es s').
Proof.
  apply (drain_terminal_budget Examples.sms_only 3 Examples.one_exhausted
           (process_outbox Examples.sms_only 3 Examples.one_exhausted).1
           [(0%nat, false, "max attempts reached"); (1%nat, false, "Twilio error: number rejected")]
           0%nat (Examples.entry "+254700000000" "sms" 3 "Retrying") 3).
  - refine (bool_decide_unpack _ _). vm_compute. exact I.
  - apply list_elem_of_here.
  - reflexivity.
  - reflexivity.
  - vm_compute. reflexivity.
Defined.





(** A count at the end of int64, in a world whose Attempts column is an
    int64 one: the text message goes out, the write of the count raises,
    and the drain raises with the entry as it was, unlogged. *)
Example drain_at_the_end_of_int64 (e : exn) :
  let s := State [(0%nat, Examples.entry "+254700000000" "sms" (2 ^ 63 - 1) "Retrying")]
                 [] 0 [] in
  process_outbox (Examples.int64_column e) (2 ^ 64) s
  = (State (outbox_df s) []
           1 [Attempt 0 (VStr "sms") (VStr "+254700000000") (VStr "Register for SHA")
                      true "SMS sent: SM1"],
     Raise e).
Proof. vm_compute. reflexivity. Qed.

(** Two drains of the queue with one exhausted entry: its count stays
    3, the count of the other entry goes from 0 to 2. *)
Example two_drains_counts :
  outbox_df (drains 3 [Examples.unconfigured; Examples.sms_only] Examples.one_exhausted)
  = [(0%nat, Examples.entry "+254700000000" "sms" 3 "Failed");
     (1%nat, Examples.entry "+254700000001" "voice" 2 "Retrying")].
Proof. vm_compute. reflexivity. Qed.

(* ===================================================================== *)
(** ** The buttons of the Outbox page *)
(* ===================================================================== *)

Section Handlers.

Implicit Types (df : frame) (r : row).

Lemma eq_str_true v s : eq_str v s = true ↔ v = VStr s.
Proof.
  destruct v; cbn; try (split; [done|by intros [=]]).
  rewrite bool_decide_eq_true. split; [by intros ->|by intros [= ->]].
Qed.

Lemma eq_str_false v s : eq_str v s = false ↔ v ≠ VStr s.
Proof. rewrite <- eq_str_true. by destruct (eq_str v s). Qed.

Lemma any_mask_eq df :
  Frame.any (Frame.mask_eq Status "Failed" df) = false ↔ count_failed df = 0%nat.
Proof.
  unfold Frame.any, Frame.mask_eq, count_failed.
  induction df as [|[i r] df IH]; [done|].
  rewrite fmap_cons. cbn [existsb id snd].
  destruct (eq_str (Status r) "Failed") eqn:Hst.
  - rewrite filter_cons_True by done. done.
  - rewrite filter_cons_False by (cbn; congruence). done.
Qed.

Lemma sum_mask_eq df :
  Frame.sum (Frame.mask_eq Status "Failed" df) = count_failed df.
Proof.
  unfold Frame.sum, Frame.mask_eq, count_failed.
  induction df as [|[i r] df IH]; [done|].
  rewrite fmap_cons. cbn [snd].
  destruct (eq_str (Status r) "Failed") eqn:Hst.
  - rewrite !filter_cons_True by done. cbn. by rewrite IH.
  - rewrite !filter_cons_False by (cbn; congruence). done.
Qed.

(** The two masked writes of "Retry Failed Only", row by row. *)
Lemma loc_set_reopened df :
  Frame.loc_set (Frame.mask_eq Status "Failed" df) CAttempts (VInt 0)
    (Frame.loc_set (Frame.mask_eq Status "Failed" df) CStatus (VStr "Pending") df)
  = (λ e : nat * row, (e.1, reopened e.2)) <$> df.
Proof.
  unfold Frame.loc_set, Frame.mask_eq, reopened.
  induction df as [|[i r] df IH]; [done|].
  rewrite !fmap_cons. cbn [zip_with fst snd]. rewrite IH. f_equal.
  by destruct (eq_str (Status r) "Failed").
Qed.

(** The masked selection of "Clear All Failed", as a filter. *)
Lemma keep_not_filter df :
  Frame.keep_not (Frame.mask_eq Status "Failed" df) df
  = filter (λ e : nat * row, Status e.2 ≠ VStr "Failed") df.
Proof.
  unfold Frame.keep_not, Frame.mask_eq.
  induction df as [|[i r] df IH]; [done|].
  rewrite fmap_cons. cbn [zip zip_with snd].
  destruct (eq_str (Status r) "Failed") eqn:Hst.
  - rewrite filter_cons_False by (cbn; congruence).
    apply eq_str_true in Hst.
    rewrite (filter_cons_False _ (i, r)) by (cbn; tauto). apply IH.
  - rewrite filter_cons_True by done. apply eq_str_false in Hst.
    rewrite (filter_cons_True _ (i, r)) by done. rewrite fmap_cons. cbn. f_equal. apply IH.
Qed.

Lemma count_failed_filter df :
  (count_failed df
   + length (filter (λ e : nat * row, Status e.2 ≠ VStr "Failed") df))%nat
  = length df.
Proof.
  unfold count_failed. induction df as [|[i r] df IH]; [done|].
  destruct (eq_str (Status r) "Failed") eqn:Hst.
  - rewrite filter_cons_True by done. apply eq_str_true in Hst.
    rewrite (filter_cons_False _ (i, r)) by (cbn; tauto). cbn. lia.
  - rewrite filter_cons_False by (cbn; congruence). apply eq_str_false in Hst.
    rewrite (filter_cons_True _ (i, r)) by done. cbn. lia.
Qed.

Lemma map_reopened_none df :
  count_failed df = 0%nat → (λ e : nat * row, (e.1, reopened e.2)) <$> df = df.
Proof.
  unfold count_failed, reopened. induction df as [|[i r] df IH]; [done|].
  destruct (eq_str (Status r) "Failed") eqn:Hst.
  - by rewrite filter_cons_True by done.
  - rewrite filter_cons_False by (cbn; congruence). intros H0.
    rewrite fmap_cons, IH by done. cbn. by rewrite Hst.
Qed.

Variable E : env.

(** "Retry Failed Only", whatever the disk does. *)
Lemma retry_failed_only_run s :
  let n := count_failed (outbox_df s) in
  retry_failed_only E s
  = if decide (n = 0%nat) then
      (s, Ok (st_info (if Frame.empty (outbox_df s) then "Outbox is empty."
                       else "No failed messages to retry.")))
    else
      (State ((λ e : nat * row, (e.1, reopened e.2)) <$> outbox_df s)
             (message_logs s) (S (tick s)) (trace s),
       match to_json E (tick s) OUTBOX_FILE with
       | Ok _ => Ok (st_success ("Marked " +:+ str_nat n +:+ " failed messages for retry."))
       | Raise _ =>
           match json_dump E (tick s) OUTBOX_FILE with
           | Ok _ => Ok (st_success ("Marked " +:+ str_nat n +:+ " failed messages for retry."))
           | Raise e => Raise e
           end
       end).
Proof.
  destruct s as [df logs t tr]. cbn [outbox_df message_logs tick trace].
  unfold retry_failed_only. run. cbn [outbox_df].
  destruct df as [|e df]; [done|]. cbn [Frame.empty].
  generalize dependent (e :: df). clear e df. intros df.
  destruct (Frame.any _) eqn:Hany.
  - destruct (decide _) as [H0|_].
    { apply any_mask_eq in H0. congruence. }
    rewrite save_df_to_file_run. fields. rewrite loc_set_reopened, sum_mask_eq.
    destruct (to_json _ _ _) as [[]|]; [done|]. by destruct (json_dump _ _ _) as [[]|].
  - apply any_mask_eq in Hany. by rewrite decide_True by done.
Qed.

(** "Clear All Failed", whatever the disk does. *)
Lemma clear_all_failed_run s :
  let n := count_failed (outbox_df s) in
  clear_all_failed E s
  = if decide (n = 0%nat) then
      (s, Ok (st_info (if Frame.empty (outbox_df s) then "Outbox is empty."
                       else "No failed messages to clear.")))
    else
      (State (filter (λ e : nat * row, Status e.2 ≠ VStr "Failed") (outbox_df s))
             (message_logs s) (S (tick s)) (trace s),
       match to_json E (tick s) OUTBOX_FILE with
       | Ok _ => Ok (st_success ("Cleared " +:+ str_nat n +:+ " failed messages."))
       | Raise _ =>
           match json_dump E (tick s) OUTBOX_FILE with
           | Ok _ => Ok (st_success ("Cleared " +:+ str_nat n +:+ " failed messages."))
           | Raise e => Raise e
           end
       end).
Proof.
  destruct s as [df logs t tr]. cbn [outbox_df message_logs tick trace].
  unfold clear_all_failed. run. cbn [outbox_df].
  destruct df as [|e df]; [done|]. cbn [Frame.empty].
  generalize dependent (e :: df). clear e df. intros df.
  destruct (Frame.any _) eqn:Hany.
  - destruct (decide _) as [H0|_].
    { apply any_mask_eq in H0. congruence. }
    rewrite save_df_to_file_run. fields. rewrite keep_not_filter, sum_mask_eq.
    destruct (to_json _ _ _) as [[]|]; [done|]. by destruct (json_dump _ _ _) as [[]|].
  - apply any_mask_eq in Hany. by rewrite decide_True by done.
Qed.

End Handlers.

Lemma filter_not_failed_none (df : frame) :
  count_failed df = 0%nat →
  filter (λ e : nat * row, Status e.2 ≠ VStr "Failed") df = df.
Proof.
  unfold count_failed. induction df as [|[i r] df IH]; [done|].
  destruct (eq_str (Status r) "Failed") eqn:Hst.
  - by rewrite filter_cons_True by done.
  - rewrite filter_cons_False by (cbn; congruence). intros H0.
    apply eq_str_false in Hst.
    rewrite (filter_cons_True _ (i, r)) by done. by rewrite IH.
Qed.

(** C6. "Retry Failed Only" rewrites the table row by row, in place: a
    row whose status is Failed gets status Pending and count 0 and keeps
    its other cells, every other row (Pending, Retrying or anything
    else) is left as it is; the delivery log and the calls made are
    untouched; with no Failed row nothing at all changes; and the notice
    shown, if the handler returns, says "Marked n ..." with [n] the
    number of rows that were Failed, or that there is nothing to retry
    when [n] is 0. *)
Theorem retry_failed_only_reopens (E : env) s :
  let s' := (retry_failed_only E s).1 in
  let n := count_failed (outbox_df s) in
  length (outbox_df s') = length (outbox_df s)
  ∧ (∀ i idx r, outbox_df s !! i = Some (idx, r) →
       outbox_df s' !! i
       = Some (idx, if decide (Status r = VStr "Failed")
                    then set_col CAttempts (VInt 0) (set_col CStatus (VStr "Pending") r)
                    else r))
  ∧ message_logs s' = message_logs s
  ∧ trace s' = trace s
  ∧ (n = 0%nat → s' = s)
  ∧ (∀ shown, (retry_failed_only E s).2 = Ok shown →
       shown = if decide (n = 0%nat)
               then st_info (if Frame.empty (outbox_df s) then "Outbox is empty."
                             else "No failed messages to retry.")
               else st_success ("Marked " +:+ str_nat n +:+ " failed messages for retry.")).
Proof.
  cbv zeta. rewrite retry_failed_only_run. cbv zeta.
  destruct (decide (count_failed (outbox_df s) = 0%nat)) as [H0|Hn];
    cbn [fst snd outbox_df message_logs trace].
  - split_and!; try done.
    + intros i idx r Hi. rewrite Hi. do 2 f_equal.
      destruct (decide (Status r = VStr "Failed")) as [Hst|]; [|done].
      exfalso. apply list_elem_of_lookup_2 in Hi.
      unfold count_failed in H0. apply length_zero_iff_nil in H0.
      eapply (filter_nil_not_elem_of _ _ _ H0); [|done]. cbn. by apply eq_str_true.
    + by intros shown [= <-].
  - split_and!; try done.
    + by rewrite length_fmap.
    + intros i idx r Hi. rewrite list_lookup_fmap, Hi. cbn. do 2 f_equal.
      unfold reopened.
      destruct (decide (Status r = VStr "Failed")) as [Hst|Hst].
      * by rewrite (proj2 (eq_str_true _ _) Hst).
      * by rewrite (proj2 (eq_str_false _ _) Hst).
    + intros shown.
      destruct (to_json _ _ _) as [[]|]; [by intros [= <-]|].
      destruct (json_dump _ _ _) as [[]|]; [by intros [= <-]|done].
Qed.

(** C7. "Clear All Failed" keeps exactly the rows whose status is not
    Failed, in their order and under their labels, and drops the others;
    the delivery log and the calls made are untouched; the rows dropped
    are as many as the rows that were Failed, and that number is the one
    in the notice "Cleared n ..." shown if the handler returns (with no
    Failed row the notice says there is nothing to clear). *)
Theorem clear_all_failed_purges (E : env) s :
  let s' := (clear_all_failed E s).1 in
  let n := count_failed (outbox_df s) in
  outbox_df s' = filter (λ e : nat * row, Status e.2 ≠ VStr "Failed") (outbox_df s)
  ∧ message_logs s' = message_logs s
  ∧ trace s' = trace s
  ∧ length (outbox_df s) = (n + length (outbox_df s'))%nat
  ∧ (∀ shown, (clear_all_failed E s).2 = Ok shown →
       shown = if decide (n = 0%nat)
               then st_info (if Frame.empty (outbox_df s) then "Outbox is empty."
                             else "No failed messages to clear.")
               else st_success ("Cleared " +:+ str_nat n +:+ " failed messages.")).
Proof.
  cbv zeta. rewrite clear_all_failed_run. cbv zeta.
  destruct (decide (count_failed (outbox_df s) = 0%nat)) as [H0|Hn];
    cbn [fst snd outbox_df message_logs trace].
  - rewrite filter_not_failed_none by done. split_and!; try done.
    + by rewrite H0.
    + by intros shown [= <-].
  - split_and!; try done.
    + by rewrite count_failed_filter.
    + intros shown.
      destruct (to_json _ _ _) as [[]|]; [by intros [= <-]|].
      destruct (json_dump _ _ _) as [[]|]; [by intros [= <-]|done].
Qed.

(* ===================================================================== *)
(** ** The Delivery Transport *)
(* ===================================================================== *)

(** C8. The two send operations of the Delivery Transport always return
    a pair and never raise: without credentials or without the Twilio
    library the pair is [(False, "Twilio not configured")], an exception
    of the Twilio client comes back as [(False, "Twilio error: ...")],
    and an accepted request as [(True, ...)]. *)
Theorem transport_never_raises (E : env) (to_number message : value) s :
  (∃ ok inf, safe_send_sms E to_number message s = (set_tick S s, Ok (ok, inf)))
  ∧ (∃ ok inf, safe_make_call E to_number message s = (set_tick S s, Ok (ok, inf)))
  ∧ (twilio_configured E (tick s) = false ∨ TwilioClient E = false →
       (safe_send_sms E to_number message s).2 = Ok (false, "Twilio not configured")
       ∧ (safe_make_call E to_number message s).2 = Ok (false, "Twilio not configured"))
  ∧ (twilio_configured E (tick s) = true → TwilioClient E = true →
       (safe_send_sms E to_number message s).2
       = Ok (match messages_create E (tick s) message to_number with
             | Ok sid => (true, "SMS sent: " +:+ sid)
             | Raise e => (false, "Twilio error: " +:+ str_exn e)
             end)
       ∧ (safe_make_call E to_number message s).2
         = Ok (match calls_create E (tick s)
                       ("<Response><Say>" +:+ py_str message +:+ "</Say></Response>")
                       to_number with
               | Ok sid => (true, "Call initiated: " +:+ sid)
               | Raise e => (false, "Twilio error: " +:+ str_exn e)
               end)).
Proof.
  rewrite safe_send_sms_answer, (safe_make_call_answer E (VStr "voice")) by done.
  unfold answer. cbn [eq_str fst snd].
  rewrite bool_decide_eq_true_2, bool_decide_eq_false_2 by done.
  split_and!.
  - destruct (negb _ || negb _); [by eexists _, _|].
    destruct (messages_create _ _ _ _); by eexists _, _.
  - destruct (negb _ || negb _); [by eexists _, _|].
    destruct (calls_create _ _ _ _); by eexists _, _.
  - by intros [->| ->]; rewrite ?orb_true_r.
  - by intros -> ->.
Qed.

(* ===================================================================== *)
(** ** The sessions reachable from an empty queue *)
(* ===================================================================== *)

Section Reachable.

Variable max_attempts : Z.

Lemma add_to_outbox_state E recipient message language msg_type s :
  outbox_df (add_to_outbox E recipient message language msg_type s).1
  = Frame.concat_ignore_index (outbox_df s)
      (Row recipient message language (VStr (now E (tick s))) msg_type
           (VInt 0) (VStr "Pending")).
Proof.
  unfold add_to_outbox. run. rewrite save_df_to_file_run. by destruct s.
Qed.

Lemma queue_ok_enqueue E recipient message language msg_type s :
  queue_ok max_attempts s →
  queue_ok max_attempts (add_to_outbox E recipient message language msg_type s).1.
Proof.
  intros [Hnd Hrows]. unfold queue_ok. rewrite add_to_outbox_state.
  unfold Frame.concat_ignore_index, labels. split.
  - rewrite fst_zip by (rewrite length_seq, length_app, length_fmap; cbn; lia).
    apply NoDup_seq.
  - intros idx r Hin. apply elem_of_zip_r in Hin.
    apply elem_of_app in Hin as [Hin|Hin].
    + apply list_elem_of_fmap in Hin as ([i r'] & -> & Hin). by eapply Hrows.
    + apply list_elem_of_singleton in Hin as ->.
      exists 0. by split_and!.
Qed.

Lemma queue_ok_drain E s :
  queue_ok max_attempts s → queue_ok max_attempts (process_outbox E max_attempts s).1.
Proof.
  intros [Hnd Hrows]. split; [by apply drain_NoDup|].
  destruct (drain_pass E max_attempts s Hnd) as (-> & _).
  intros idx r' Hin.
  destruct (kept_row _ _ _ _ _ _ Hin) as (r & Hr & Hcases).
  destruct (Hrows _ _ Hr) as (a0 & Ha0 & Hpos & Hretry).
  destruct Hcases as [->|[(a & _ & _ & ->)|(a & Hint & Hlt & ->)]].
  - by exists a0.
  - exists a0. rewrite Attempts_set_Status, Status_set_Status. by split_and!.
  - rewrite Ha0 in Hint. injection Hint as <-.
    exists (a0 + 1). unfold after_failure.
    rewrite Attempts_set_Status, Attempts_set_Attempts, Status_set_Status.
    split_and!; [done|lia|].
    destruct (a0 + 1 <? max_attempts) eqn:Hlt'; [|done].
    intros _. apply Z.ltb_lt in Hlt'. lia.
Qed.

Lemma queue_ok_reset E s :
  queue_ok max_attempts s → queue_ok max_attempts (retry_failed_only E s).1.
Proof.
  intros [Hnd Hrows]. rewrite retry_failed_only_run. cbv zeta.
  destruct (decide _); [done|]. cbn [fst]. split; cbn [outbox_df].
  - unfold labels. by rewrite <- list_fmap_compose.
  - intros idx r' ([i r] & [= -> ->] & Hin)%list_elem_of_fmap. cbn.
    destruct (Hrows _ _ Hin) as (a0 & Ha0 & Hpos & Hretry).
    unfold reopened. destruct (eq_str (Status r) "Failed"); [|by exists a0].
    exists 0. rewrite Attempts_set_Attempts. split_and!; [done..|].
    destruct r. cbn. by intros [=].
Qed.

Lemma queue_ok_purge E s :
  queue_ok max_attempts s → queue_ok max_attempts (clear_all_failed E s).1.
Proof.
  intros [Hnd Hrows]. rewrite clear_all_failed_run. cbv zeta.
  destruct (decide _); [done|]. cbn [fst]. split; cbn [outbox_df].
  - eapply sublist_NoDup; [done|]. apply fmap_sublist, sublist_filter.
  - intros idx r [_ Hin]%list_elem_of_filter. by eapply Hrows.
Qed.

Lemma queue_ok_step s s' :
  step max_attempts s s' → queue_ok max_attempts s → queue_ok max_attempts s'.
Proof.
  destruct 1; auto using queue_ok_enqueue, queue_ok_drain, queue_ok_reset, queue_ok_purge.
Qed.

(** Every session reachable from an empty queue has distinct labels and
    well-shaped rows: the queues the properties of a drain are stated
    for. *)
Lemma reachable_queue_ok s : reachable max_attempts s → queue_ok max_attempts s.
Proof.
  intros (s0 & H0 & Hsteps).
  assert (queue_ok max_attempts s0) as Hinit.
  { unfold queue_ok. rewrite H0. split; [constructor|]. by intros ?? ?%elem_of_nil. }
  clear H0. induction Hsteps as [|x y z Hxy _ IH]; [done|].
  apply IH. by eapply queue_ok_step.
Qed.

End Reachable.

(** The table the loader returns has the labels 0, 1, 2, ... *)
Lemma load_df_from_file_NoDup f : NoDup (labels (load_df_from_file f)).
Proof.
  assert (∀ recs, NoDup (labels (Loader.outbox_frame recs))) as Hrecs.
  { intros recs. unfold Loader.outbox_frame, labels.
    rewrite fst_zip by (by rewrite length_seq, length_fmap). apply NoDup_seq. }
  unfold load_df_from_file.
  destruct (negb _); [constructor|].
  destruct (read_json f); [done|]. destruct (json_load f); [done|constructor].
Qed.

(** C5. In every session reachable from an empty queue by enqueueing,
    draining with one fixed [max_attempts], "Retry Failed Only" and
    "Clear All Failed", in any order and whether the operations return
    or raise, an entry whose status is Retrying has an integer count
    that is at least 1 and strictly below [max_attempts]. *)
Theorem retrying_within_budget (max_attempts : Z) s idx r :
  reachable max_attempts s →
  (idx, r) ∈ outbox_df s →
  Status r = VStr "Retrying" →
  ∃ a, Attempts r = VInt a ∧ py_int (Attempts r) = Ok a ∧ 1 ≤ a ∧ a < max_attempts.
Proof.
  intros Hreach Hin Hst.
  destruct (reachable_queue_ok _ _ Hreach) as [_ Hrows].
  destruct (Hrows _ _ Hin) as (a & Ha & _ & Hretry).
  destruct (Hretry Hst). exists a. rewrite Ha. by split_and!.
Qed.

Lemma retrying_within_budget_witness :
  ∃ a, Attempts (Row (VStr "+254700000000") (VStr "Register for SHA") (VStr "English")
                     (VStr "2025-01-01 08:00:00") (VStr "sms") (VInt 1) (VStr "Retrying"))
       = VInt a
    ∧ py_int (Attempts (Row (VStr "+254700000000") (VStr "Register for SHA") (VStr "English")
                            (VStr "2025-01-01 08:00:00") (VStr "sms") (VInt 1)
                            (VStr "Retrying")))
      = Ok a
    ∧ 1 ≤ a ∧ a < 3.
Proof.
  apply (retrying_within_budget 3 Examples.drained_once 0%nat).
  - exists empty_state. split; [reflexivity|].
    eapply rtc_l; [apply (step_enqueue 3 Examples.unconfigured (VStr "+254700000000")
                            (VStr "Register for SHA") (VStr "English") (VStr "sms"))|].
    eapply rtc_l; [apply (step_drain 3 Examples.unconfigured)|].
    apply rtc_refl.
  - vm_compute. apply list_elem_of_here.
  - reflexivity.
Defined.

(* ===================================================================== *)
(** ** When a drain raises *)
(* ===================================================================== *)

Section Totality.

Variables (E : env) (max_attempts : Z).

Lemma returns_or_raises {A} (x : state * result A) : raises x ↔ ¬ returns x.
Proof. unfold raises, returns. destruct x as [s [a|e]]; cbn; tauto. Qed.

(** After [df.at[idx, c] = v] the label [idx] is in the index, so that
    the [drop] that follows a delivery finds it. *)
Lemma at_set_label idx c v (df : frame) : idx ∈ labels (Frame.at_set idx c v df).
Proof.
  unfold Frame.at_set. case_bool_decide as Hin.
  - unfold labels in *. rewrite <- list_fmap_compose.
    erewrite list_fmap_ext; [exact Hin|].
    intros i [j x] _. cbn. by case_bool_decide.
  - rewrite labels_app. set_solver.
Qed.

(** One turn of the loop, on any table: it raises when the count of
    the row does not convert, and then changes nothing, and when pandas
    refuses the new count; it returns otherwise. *)
Lemma process_row_returns idx r results s :
  (returns (process_row E max_attempts (idx, r) results s) → int_like (Attempts r))
  ∧ (∀ a, py_int (Attempts r) = Ok a →
       (a < max_attempts → count_write E (S (tick s)) (a + 1) = Ok tt) →
       returns (process_row E max_attempts (idx, r) results s))
  ∧ (∀ e, py_int (Attempts r) = Raise e →
       process_row E max_attempts (idx, r) results s = (s, Raise e))
  ∧ (∀ a, py_int (Attempts r) = Ok a → a < max_attempts →
       returns (process_row E max_attempts (idx, r) results s) →
       count_write E (S (tick s)) (a + 1) = Ok tt).
Proof.
  unfold process_row. run.
  destruct (py_int (Attempts r)) as [a|e] eqn:Hint.
  2:{ split_and!; [done|done|by intros ? [= ->]|done]. }
  destruct (max_attempts <=? a) eqn:Hmax.
  { split_and!; [intros _; by exists a|intros; exact I|done|].
    intros ? [= <-] Hlt. apply Z.leb_le in Hmax. lia. }
  apply Z.leb_gt in Hmax.
  unfold attempt_delivery, write_attempts. run. rewrite send_answer.
  destruct (answer _ _ _ _ _) as [ok inf]. fields.
  destruct (count_write E (S (tick s)) (a + 1)) as [[]|e] eqn:Hw.
  - split_and!; [intros _; by exists a| |done|by intros ? [= <-] _ _].
    intros ? [= <-] _. destruct ok; fields.
    + unfold Frame.drop. by rewrite bool_decide_eq_true_2 by apply at_set_label.
    + by destruct (a + 1 <? max_attempts).
  - split_and!; [done| |done|by intros ? [= <-] _ []].
    intros ? [= <-] Hok. specialize (Hok Hmax). congruence.
Qed.

Lemma for_each_returns rows : ∀ s acc,
  (returns (for_each (process_row E max_attempts) rows acc s) →
     ∀ idx r, (idx, r) ∈ rows → int_like (Attempts r))
  ∧ (counts_fit max_attempts rows →
     (∀ idx r, (idx, r) ∈ rows → int_like (Attempts r)) →
     returns (for_each (process_row E max_attempts) rows acc s))
  ∧ (returns (for_each (process_row E max_attempts) rows acc s) →
     ∀ idx r a, (idx, r) ∈ rows → py_int (Attempts r) = Ok a → a < max_attempts →
       ∃ t, count_write E t (a + 1) = Ok tt).
Proof.
  induction rows as [|[i r0] rest IH]; intros s acc.
  { split_and!; [by intros _ ?? ?%elem_of_nil|done|by intros _ ??? ?%elem_of_nil]. }
  rewrite for_each_cons.
  destruct (process_row_returns i r0 acc s) as (Hint & Hret & Hraise & Hwrote).
  destruct (process_row E max_attempts (i, r0) acc s) as [s' [acc'|e]] eqn:Hrow.
  - destruct (IH s' acc') as (IH1 & IH2 & IH3). split_and!.
    + intros Hall idx r [[= -> ->]|Hin]%elem_of_cons; [by apply Hint|by eapply IH1].
    + intros Hfit Hall. apply IH2; [by eapply counts_fit_cons|].
      intros idx r Hin. eapply Hall. by apply list_elem_of_further.
    + intros Hall idx r a [[= -> ->]|Hin]%elem_of_cons Ha Hlt; [|by eapply IH3].
      eexists. by eapply Hwrote.
  - split_and!; [done| |done].
    intros Hfit Hall. exfalso.
    destruct (Hall i r0 (list_elem_of_here _ _)) as [a Ha].
    assert (returns (s', @Raise (list outcome) e)) as []. apply (Hret a Ha).
    intros Hlt. apply count_write_small. eapply (Hfit i r0); [apply list_elem_of_here|done..].
Qed.

(** A save into a file the file system refuses raises the exception
    of the fallback. *)
Lemma save_df_to_file_refused path e s :
  storage_refuses E path e → (save_df_to_file E path s).2 = Raise e.
Proof.
  intros Hno. rewrite save_df_to_file_run. cbn.
  destruct (Hno (tick s)) as [[e' ->] ->]. done.
Qed.

Lemma process_outbox_returns s :
  (returns (process_outbox E max_attempts s) →
     ∀ idx r, (idx, r) ∈ outbox_df s → int_like (Attempts r))
  ∧ (storage_ok E → counts_fit max_attempts (outbox_df s) →
     (∀ idx r, (idx, r) ∈ outbox_df s → int_like (Attempts r)) →
     returns (process_outbox E max_attempts s))
  ∧ (returns (process_outbox E max_attempts s) →
     ∀ idx r a, (idx, r) ∈ outbox_df s → py_int (Attempts r) = Ok a → a < max_attempts →
       ∃ t, count_write E t (a + 1) = Ok tt)
  ∧ (outbox_df s ≠ [] → ∀ path e,
       path = OUTBOX_FILE ∨ path = MESSAGES_FILE →
       storage_refuses E path e →
       raises (process_outbox E max_attempts s)
       ∧ (returns (for_each (process_row E max_attempts) (outbox_df s) [] s) →
          path = OUTBOX_FILE
          ∨ (∀ t, to_json E t OUTBOX_FILE = Ok tt ∨ json_dump E t OUTBOX_FILE = Ok tt) →
          (process_outbox E max_attempts s).2 = Raise e)).
Proof.
  unfold process_outbox. run.
  destruct (outbox_df s) as [|e df] eqn:Hdf.
  { split_and!; [by intros _ ?? ?%elem_of_nil|done|by intros _ ??? ?%elem_of_nil|done]. }
  cbn [Frame.empty]. rewrite <- Hdf. clear Hdf e df.
  destruct (for_each_returns (outbox_df s) s []) as (Hloop1 & Hloop2 & Hloop3).
  destruct (for_each _ _ _ _) as [s1 [results|e]].
  2:{ split_and!; [done| |done|by intros _ ?? _ _].
      intros _ Hfit Hall. by apply Hloop2. }
  split_and!; [intros _; by apply Hloop1| |intros _; by apply Hloop3|].
  - intros Hdisk _ _. rewrite !save_df_to_file_run.
    destruct (Hdisk (tick s1) OUTBOX_FILE) as [->| ->];
      [|destruct (to_json _ _ OUTBOX_FILE) as [[]|]]; fields.
    all: destruct (Hdisk (S (tick s1)) MESSAGES_FILE) as [->| ->];
      [|destruct (to_json _ _ MESSAGES_FILE) as [[]|]]; done.
  - intros _ path e [-> | ->] Hno.
    + pose proof (save_df_to_file_refused OUTBOX_FILE e s1 Hno) as Hsave.
      destruct (save_df_to_file E OUTBOX_FILE s1) as [s2 [[]|e2]]; [done|].
      cbn in Hsave. injection Hsave as ->. by split.
    + pose proof (save_df_to_file_run E OUTBOX_FILE s1) as Hrun1.
      destruct (save_df_to_file E OUTBOX_FILE s1) as [s2 [[]|e2]].
      * pose proof (save_df_to_file_refused MESSAGES_FILE e s2 Hno) as Hsave.
        destruct (save_df_to_file E MESSAGES_FILE s2) as [s3 [[]|e3]]; [done|].
        cbn in Hsave. injection Hsave as ->. by split.
      * split; [done|]. intros _ [[=]|Hok]. exfalso.
        injection Hrun1 as _ Hrun1.
        destruct (Hok (tick s1)) as [H|H]; rewrite H in Hrun1; [done|].
        by destruct (to_json E (tick s1) OUTBOX_FILE) as [[]|].
Qed.

End Totality.

Lemma load_df_from_file_no_Attempts f recs idx r :
  isfile f = true → read_json f = Ok recs →
  "Attempts" ∉ Loader.columns recs →
  (idx, r) ∈ load_df_from_file f → Attempts r = VStr "".
Proof.
  intros Hf Hread Hcol. unfold load_df_from_file. rewrite Hf, Hread. cbn.
  unfold Loader.outbox_frame. intros Hin%elem_of_zip_r.
  apply list_elem_of_fmap in Hin as (rec & -> & _).
  unfold Loader.outbox_row, Loader.cell. cbn. by rewrite bool_decide_eq_false_2.
Qed.

(** C10, as the code has it.  A drain returns only if the count of
    every entry converts with [int()], and an entry whose count is the
    empty string, which is what the loader puts in every row of a file
    that has no Attempts column, makes it raise.  The conversion is not
    the only step that can raise.  The write of the new count raises
    when pandas refuses it, which a count of more than 53 bits can meet:
    when the counts to write are small ones the loop returns exactly
    when every count converts.  And the tables are saved after the
    loop: the drain returns when the counts convert, the counts to
    write are small and the two tables can be written, and when the
    file system refuses the writes of one of them the drain of a queue
    that is not empty raises: when the loop has returned, it raises the
    exception of the fallback if it is the outbox table that cannot be
    written, or the log while the outbox table can. *)
Theorem drain_returns_iff_counts_convert (E : env) (max_attempts : Z) s :
  (returns (for_each (process_row E max_attempts) (outbox_df s) [] s) →
     ∀ idx r, (idx, r) ∈ outbox_df s → int_like (Attempts r))
  ∧ (counts_fit max_attempts (outbox_df s) →
     (returns (for_each (process_row E max_attempts) (outbox_df s) [] s)
        ↔ ∀ idx r, (idx, r) ∈ outbox_df s → int_like (Attempts r)))
  ∧ (returns (process_outbox E max_attempts s) →
       ∀ idx r, (idx, r) ∈ outbox_df s → int_like (Attempts r))
  ∧ (storage_ok E → counts_fit max_attempts (outbox_df s) →
       (∀ idx r, (idx, r) ∈ outbox_df s → int_like (Attempts r)) →
       returns (process_outbox E max_attempts s))
  ∧ (∀ idx r, (idx, r) ∈ outbox_df s → Attempts r = VStr "" →
       raises (process_outbox E max_attempts s))
  ∧ (∀ idx r a, (idx, r) ∈ outbox_df s → py_int (Attempts r) = Ok a → a < max_attempts →
       (∀ t, ∃ e, count_write E t (a + 1) = Raise e) →
       raises (process_outbox E max_attempts s))
  ∧ (outbox_df s ≠ [] → ∀ path e,
       path = OUTBOX_FILE ∨ path = MESSAGES_FILE →
       storage_refuses E path e →
       raises (process_outbox E max_attempts s)
       ∧ (returns (for_each (process_row E max_attempts) (outbox_df s) [] s) →
          path = OUTBOX_FILE
          ∨ (∀ t, to_json E t OUTBOX_FILE = Ok tt ∨ json_dump E t OUTBOX_FILE = Ok tt) →
          (process_outbox E max_attempts s).2 = Raise e))
  ∧ (∀ f recs idx r,
       isfile f = true → read_json f = Ok recs → "Attempts" ∉ Loader.columns recs →
       (idx, r) ∈ load_df_from_file f → Attempts r = VStr "").
Proof.
  destruct (process_outbox_returns E max_attempts s) as (Honly & Hif & Hwrote & Hdisk).
  destruct (for_each_returns E max_attempts (outbox_df s) s []) as (Hl1 & Hl2 & _).
  split_and!; try done.
  - intros Hfit. split; [done|by apply Hl2].
  - intros idx r Hin Hempty. apply returns_or_raises. intros Hret.
    destruct (Honly Hret _ _ Hin) as [a Ha]. by rewrite Hempty in Ha.
  - intros idx r a Hin Hint Hlt Hno. apply returns_or_raises. intros Hret.
    destruct (Hwrote Hret _ _ _ Hin Hint Hlt) as [t Ht].
    destruct (Hno t) as [e He]. congruence.
  - intros f recs idx r. apply load_df_from_file_no_Attempts.
Qed.

(** Every count is an integer and the drain raises all the same: the
    disk refuses both writes of the outbox table. *)
Lemma drain_raises_when_disk_full :
  (∀ idx r, (idx, r) ∈ outbox_df Examples.two_pending → ∃ a, Attempts r = VInt a)
  ∧ process_outbox Examples.disk_full 3 Examples.two_pending
    = (State [(0%nat, Examples.entry "+254700000000" "sms" 1 "Retrying");
              (1%nat, Examples.entry "+254700000001" "voice" 1 "Retrying")]
             [] 3
             [Attempt 0 (VStr "sms") (VStr "+254700000000") (VStr "Register for SHA")
                      false "Twilio not configured";
              Attempt 1 (VStr "voice") (VStr "+254700000001") (VStr "Register for SHA")
                      false "Twilio not configured"],
       Raise (OSError "No space left on device")).
Proof.
  split; [|vm_compute; reflexivity].
  intros idx r Hin. cbn in Hin.
  apply elem_of_cons in Hin as [[= -> ->]|Hin]; [by exists 0|].
  apply elem_of_cons in Hin as [[= -> ->]|Hin]; [by exists 0|].
  by apply elem_of_nil in Hin.
Qed.

(** A disk that takes every write, and a drain that returns on it. *)
Example drain_returns_on_working_disk :
  storage_ok Examples.unconfigured
  ∧ returns (process_outbox Examples.unconfigured 3 Examples.two_pending).
Proof. split; [by left|exact I]. Qed.

(** A file without an Attempts column: the loader fills the column with
    empty strings, and the first turn of the next drain raises. *)
Example drain_after_loading_old_file :
  load_df_from_file Examples.old_file
  = [(0%nat, Row (VInt 254700000000) (VStr "Register for SHA") (VStr "English")
                 (VStr "2024-12-31 07:00:00") (VStr "sms") (VStr "") (VStr "Pending"))]
  ∧ process_outbox Examples.unconfigured 3
      (State (load_df_from_file Examples.old_file) [] 0 [])
    = (State (load_df_from_file Examples.old_file) [] 0 [],
       Raise (ValueError "invalid literal for int() with base 10: ''")).
Proof. split; vm_compute; reflexivity. Qed.

(* ===================================================================== *)
(** ** The scenarios of the specification, run on the model *)
(* ===================================================================== *)

(** Scenario A: one sms entry, the transport always failing, three
    drains with [max_attempts = 3]: Failed with count 3, never logged. *)
Example scenario_always_failing :
  let s := drains 3 [Examples.unconfigured; Examples.unconfigured; Examples.unconfigured]
             Examples.queued_once in
  outbox_df s
  = [(0%nat, Row (VStr "+254700000000") (VStr "Register for SHA") (VStr "English")
                 (VStr "2025-01-01 08:00:00") (VStr "sms") (VInt 3) (VStr "Failed"))]
  ∧ message_logs s = [].
Proof. split; vm_compute; reflexivity. Qed.

(** Scenario B: two failures, then a success on the third drain: the
    queue is empty and the log has exactly one row. *)
Example scenario_third_time_lucky :
  let s := drains 3 [Examples.unconfigured; Examples.unconfigured; Examples.sms_only]
             Examples.queued_once in
  outbox_df s = []
  ∧ message_logs s
    = [SentRow (VStr "+254700000000") (VStr "Register for SHA") (VStr "English")
               (VStr "2025-01-01 09:00:00") (VStr "sms") (VStr "Sent")].
Proof. split; vm_compute; reflexivity. Qed.

(** Scenario C: two entries, the first fails and the second succeeds in
    the same drain.  (Here the voice entry is the one that fails.) *)
Example scenario_mixed_pass :
  process_outbox Examples.sms_only 3 Examples.two_pending
  = (State [(1%nat, Examples.entry "+254700000001" "voice" 1 "Retrying")]
           [SentRow (VStr "+254700000000") (VStr "Register for SHA") (VStr "English")
                    (VStr "2025-01-01 09:00:00") (VStr "sms") (VStr "Sent")]
           5
           [Attempt 0 (VStr "sms") (VStr "+254700000000") (VStr "Register for SHA")
                    true "SMS sent: SM1";
            Attempt 1 (VStr "voice") (VStr "+254700000001") (VStr "Register for SHA")
                    false "Twilio error: number rejected"],
     Ok [(0%nat, true, "SMS sent: SM1"); (1%nat, false, "Twilio error: number rejected")]).
Proof. vm_compute. reflexivity. Qed.

(** Scenario D: a Failed entry is reopened and attempted again. *)
Example scenario_reset_then_drain :
  let s := (retry_failed_only Examples.unconfigured Examples.two_failed).1 in
  outbox_df s
  = [(0%nat, Examples.entry "+254700000000" "sms" 0 "Pending");
     (1%nat, Examples.entry "+254700000001" "voice" 1 "Retrying");
     (4%nat, Examples.entry "+254700000002" "sms" 0 "Pending")]
  ∧ (retry_failed_only Examples.unconfigured Examples.two_failed).2
    = Ok (st_success "Marked 2 failed messages for retry.")
  ∧ a_idx <$> trace (process_outbox Examples.unconfigured 3 s).1 = [0; 1; 4]%nat.
Proof. split_and!; vm_compute; reflexivity. Qed.

(** Scenario E: the Failed entries are cleared, the log is untouched. *)
Example scenario_purge :
  clear_all_failed Examples.unconfigured Examples.two_failed
  = (State [(1%nat, Examples.entry "+254700000001" "voice" 1 "Retrying")] [] 1 [],
     Ok (st_success "Cleared 2 failed messages.")).
Proof. vm_compute. reflexivity. Qed.

(* ===================================================================== *)
(** ** Further properties of a drain *)
(* ===================================================================== *)

Section MorePassLemmas.

Variables (E : env) (max_attempts : Z).

Ltac pass_cases r t :=
  cbn [run_rows];
  let a := fresh "a" in
  let inf := fresh "inf" in
  destruct (py_int (Attempts r)) as [a|?] eqn:?;
  [ destruct (max_attempts <=? a) eqn:?;
    [ | destruct (count_write E (S t) (a + 1)) as [[]|?] eqn:?;
        [ destruct (answer E t (Type_ r) (Recipient r) (Message r)) as [[] inf] eqn:? | ] ] | ];
  cbn [kept logged tried reported clock failure fst snd].

Lemma reported_labels rows : ∀ t,
  failure (run_rows E max_attempts rows t) = None →
  (λ o : outcome, o.1.1) <$> reported (run_rows E max_attempts rows t) = labels rows.
Proof.
  induction rows as [|[i r] rest IH]; intros t; [done|].
  pass_cases r t; intros Hf; try done; cbn; f_equal; by apply IH.
Qed.

Lemma below_ceiling_spec r :
  below_ceiling max_attempts r = true
  ↔ ∃ a, py_int (Attempts r) = Ok a ∧ a < max_attempts.
Proof.
  unfold below_ceiling. destruct (py_int (Attempts r)) as [a|e].
  - rewrite Z.ltb_lt. split; [by exists a|by intros (? & [= <-] & ?)].
  - split; [done|by intros (? & [=] & _)].
Qed.

Lemma tried_below_ceiling rows : ∀ t,
  failure (run_rows E max_attempts rows t) = None →
  a_idx <$> tried (run_rows E max_attempts rows t)
  = labels (filter (λ e : nat * row, below_ceiling max_attempts e.2 = true) rows).
Proof.
  induction rows as [|[i r] rest IH]; intros t; [done|].
  unfold below_ceiling at 1. pass_cases r t; intros Hf; try done.
  - rewrite filter_cons_False.
    2:{ cbn. rewrite Heqr0. apply Z.leb_le in Heqb. intros ?%Z.ltb_lt. lia. }
    by apply IH.
  - rewrite filter_cons_True.
    2:{ cbn. rewrite Heqr0. apply Z.leb_gt in Heqb. by apply Z.ltb_lt. }
    cbn. f_equal. by apply IH.
  - rewrite filter_cons_True.
    2:{ cbn. rewrite Heqr0. apply Z.leb_gt in Heqb. by apply Z.ltb_lt. }
    cbn. f_equal. by apply IH.
Qed.

Lemma kept_status rows : ∀ t idx r,
  failure (run_rows E max_attempts rows t) = None →
  (idx, r) ∈ kept (run_rows E max_attempts rows t) →
  Status r = VStr "Retrying" ∨ Status r = VStr "Failed".
Proof.
  induction rows as [|[i r0] rest IH]; intros t idx r; [by intros _ ?%elem_of_nil|].
  pass_cases r0 t; intros Hf Hin; try done;
    try (apply elem_of_cons in Hin as [[= -> ->]|Hin]); try (by eapply IH).
  - right. apply Status_set_Status.
  - unfold after_failure. rewrite Status_set_Status.
    destruct (_ <? _); [by left|by right].
Qed.

(** Deliveries counted three ways: the outcomes that say so, the rows
    logged, the rows that left the table. *)
Lemma pass_counts rows : ∀ t,
  failure (run_rows E max_attempts rows t) = None →
  let p := run_rows E max_attempts rows t in
  let n := length (filter (λ o : outcome, o.1.2 = true) (reported p)) in
  length (logged p) = n
  ∧ length rows = (length (kept p) + n)%nat
  ∧ length (filter (λ o : outcome, o.1.2 = false) (reported p)) = length (kept p)
  ∧ (rows ≠ [] → reported p ≠ []).
Proof.
  induction rows as [|[i r] rest IH]; intros t; [done|].
  cbv zeta. pass_cases r t; intros Hf; try done;
    destruct (IH _ Hf) as (H1 & H2 & H3 & _); cbv zeta in *.
  - rewrite filter_cons_False by (cbn; congruence).
    rewrite filter_cons_True by done. cbn. rewrite H1, H2, H3.
    split_and!; try done; lia.
  - rewrite filter_cons_True by done.
    rewrite filter_cons_False by (cbn; congruence). cbn. rewrite H1, H2, H3.
    split_and!; try done; lia.
  - rewrite filter_cons_False by (cbn; congruence).
    rewrite filter_cons_True by done. cbn. rewrite H1, H2, H3.
    split_and!; try done; lia.
Qed.

End MorePassLemmas.

(** X1. A drain that returns, on a queue whose labels are distinct,
    reports exactly one outcome per queued entry, in queue order. *)
Theorem drain_reports_every_entry (E : env) (max_attempts : Z) s s' results :
  NoDup (labels (outbox_df s)) →
  process_outbox E max_attempts s = (s', Ok results) →
  (λ o : outcome, o.1.1) <$> results = labels (outbox_df s).
Proof.
  intros Hnd Hrun.
  destruct (drain_pass E max_attempts s Hnd) as (_ & _ & _ & _ & _ & Hres).
  rewrite Hrun in Hres. destruct (Hres _ eq_refl) as [Hf ->].
  by apply reported_labels.
Qed.

Lemma drain_reports_every_entry_witness :
  (λ o : outcome, o.1.1)
    <$> [(0%nat, false, "max attempts reached"); (1%nat, false, "Twilio error: number rejected")]
  = labels (outbox_df Examples.one_exhausted).
Proof.
  apply (drain_reports_every_entry Examples.sms_only 3 Examples.one_exhausted
           (process_outbox Examples.sms_only 3 Examples.one_exhausted).1).
  - refine (bool_decide_unpack _ _). vm_compute. exact I.
  - vm_compute. reflexivity.
Defined.

(** X2. A drain that returns, on a queue whose labels are distinct,
    calls the transport exactly for the entries whose count is below
    [max_attempts], once each and in queue order. *)
Theorem drain_attempts_below_ceiling (E : env) (max_attempts : Z) s s' results :
  NoDup (labels (outbox_df s)) →
  process_outbox E max_attempts s = (s', Ok results) →
  a_idx <$> new_attempts s s'
  = labels (filter (λ e : nat * row, below_ceiling max_attempts e.2 = true) (outbox_df s)).
Proof.
  intros Hnd Hrun.
  destruct (drain_pass E max_attempts s Hnd) as (_ & _ & Htr & _ & _ & Hres).
  rewrite Hrun in *. cbn [fst] in Htr. destruct (Hres _ eq_refl) as [Hf _].
  rewrite Htr. by apply tried_below_ceiling.
Qed.

Lemma drain_attempts_below_ceiling_witness :
  a_idx <$> new_attempts Examples.one_exhausted
              (process_outbox Examples.sms_only 3 Examples.one_exhausted).1
  = labels (filter (λ e : nat * row, below_ceiling 3 e.2 = true)
              (outbox_df Examples.one_exhausted)).
Proof.
  apply (drain_attempts_below_ceiling Examples.sms_only 3 Examples.one_exhausted _
           [(0%nat, false, "max attempts reached"); (1%nat, false, "Twilio error: number rejected")]).
  - refine (bool_decide_unpack _ _). vm_compute. exact I.
  - vm_compute. reflexivity.
Defined.

(** X3. After a drain that returns, on a queue whose labels are
    distinct, no entry is Pending: every entry left in the queue is
    Retrying or Failed. *)
Theorem drain_leaves_no_pending (E : env) (max_attempts : Z) s s' results idx r :
  NoDup (labels (outbox_df s)) →
  process_outbox E max_attempts s = (s', Ok results) →
  (idx, r) ∈ outbox_df s' →
  Status r = VStr "Retrying" ∨ Status r = VStr "Failed".
Proof.
  intros Hnd Hrun Hin.
  destruct (drain_pass E max_attempts s Hnd) as (Hdf & _ & _ & _ & _ & Hres).
  rewrite Hrun in *. cbn [fst] in Hdf. destruct (Hres _ eq_refl) as [Hf _].
  rewrite Hdf in Hin. by eapply kept_status.
Qed.

Lemma drain_leaves_no_pending_witness :
  Status (Examples.entry "+254700000001" "voice" 1 "Retrying") = VStr "Retrying"
  ∨ Status (Examples.entry "+254700000001" "voice" 1 "Retrying") = VStr "Failed".
Proof.
  apply (drain_leaves_no_pending Examples.sms_only 3 Examples.two_pending
           (process_outbox Examples.sms_only 3 Examples.two_pending).1
           [(0%nat, true, "SMS sent: SM1"); (1%nat, false, "Twilio error: number rejected")]
           1%nat).
  - refine (bool_decide_unpack _ _). vm_compute. exact I.
  - vm_compute. reflexivity.
  - vm_compute. apply list_elem_of_here.
Defined.

Lemma length_error_lines (results : list outcome) :
  length (omap (λ r : outcome,
                  if r.1.2 then None
                  else Some (show_error ("Message " +:+ str_nat r.1.1 +:+ ": " +:+ r.2)))
            results)
  = length (filter (λ o : outcome, o.1.2 = false) results).
Proof.
  induction results as [|[[i []] inf] results IH]; [done|..].
  - rewrite filter_cons_False by (cbn; congruence). exact IH.
  - rewrite filter_cons_True by done. cbn [omap list_omap length fst snd].
    cbn. f_equal. exact IH.
Qed.

(** X4. "Process All Messages" on a non-empty queue whose labels are
    distinct, when it returns: the number in "Processed n messages
    successfully." is the number of rows the delivery log gained and the
    number of entries that left the queue, and there is one error line
    for each entry still queued. *)
Theorem process_all_messages_counts (E : env) s s' shown :
  NoDup (labels (outbox_df s)) →
  outbox_df s ≠ [] →
  process_all_messages E s = (s', Ok shown) →
  ∃ n errors,
    shown = show_success ("Processed " +:+ str_nat n +:+ " messages successfully.") :: errors
    ∧ length (message_logs s') = (length (message_logs s) + n)%nat
    ∧ length (outbox_df s) = (length (outbox_df s') + n)%nat
    ∧ length errors = length (outbox_df s').
Proof.
  intros Hnd Hne. unfold process_all_messages. run.
  destruct (outbox_df s) as [|e df] eqn:Hdf; [done|].
  cbn [Frame.empty]. rewrite <- Hdf in *. clear Hdf e df.
  destruct (drain_pass E 3 s Hnd) as (Hdf & _ & _ & Hlogs & _ & Hres).
  destruct (process_outbox E 3 s) as [s1 [results|e]] eqn:Hrun; [|done].
  cbn [fst snd] in *. destruct (Hres _ eq_refl) as [Hf ->].
  destruct (pass_counts E 3 (outbox_df s) (tick s) Hf) as (H1 & H2 & H3 & H4).
  cbv zeta in *. specialize (H4 Hne).
  destruct (reported _) as [|o os] eqn:Hrep; [done|].
  intros [= <- <-].
  exists (length (filter (λ o : outcome, o.1.2 = true) (o :: os))),
    (omap (λ r : outcome,
             if r.1.2 then None
             else Some (show_error ("Message " +:+ str_nat r.1.1 +:+ ": " +:+ r.2)))
       (o :: os)).
  split; [done|].
  rewrite Hlogs, Hdf, length_app, H1, length_error_lines, H3. by split_and!.
Qed.

Lemma process_all_messages_counts_witness :
  ∃ n errors,
    [show_success "Processed 1 messages successfully.";
     show_error "Message 1: Twilio error: number rejected"]
    = show_success ("Processed " +:+ str_nat n +:+ " messages successfully.") :: errors
    ∧ length (message_logs (process_all_messages Examples.sms_only Examples.two_pending).1)
      = (length (message_logs Examples.two_pending) + n)%nat
    ∧ length (outbox_df Examples.two_pending)
      = (length (outbox_df (process_all_messages Examples.sms_only Examples.two_pending).1) + n)%nat
    ∧ length errors
      = length (outbox_df (process_all_messages Examples.sms_only Examples.two_pending).1).
Proof.
  apply (process_all_messages_counts Examples.sms_only Examples.two_pending).
  - refine (bool_decide_unpack _ _). vm_compute. exact I.
  - discriminate.
  - vm_compute. reflexivity.
Defined.

Section Undelivered.

Variables (E : env) (max_attempts : Z).

Ltac pass_cases r t :=
  cbn [run_rows];
  let a := fresh "a" in
  let inf := fresh "inf" in
  destruct (py_int (Attempts r)) as [a|?] eqn:?;
  [ destruct (max_attempts <=? a) eqn:?;
    [ | destruct (count_write E (S t) (a + 1)) as [[]|?] eqn:?;
        [ destruct (answer E t (Type_ r) (Recipient r) (Message r)) as [[] inf] eqn:? | ] ] | ];
  cbn [kept logged tried reported clock failure fst snd].

Lemma never_delivers_answer t msg_type to_number message :
  never_delivers E → (answer E t msg_type to_number message).1 = false.
Proof.
  intros Hdown.
  destruct (Hdown to_number message (State [] [] t [])) as [[i1 H1] [i2 H2]].
  destruct (eq_str msg_type "sms") eqn:Hty.
  - apply eq_str_true in Hty as ->.
    rewrite safe_send_sms_answer in H1. cbn in H1. by injection H1 as ->.
  - rewrite (safe_make_call_answer E msg_type) in H2 by done. cbn in H2.
    by injection H2 as ->.
Qed.

Lemma small_count_succ a :
  small_count a = true → a < max_attempts → max_attempts ≤ 2 ^ 53 →
  small_count (a + 1) = true.
Proof.
  unfold small_count. intros [H1 H2]%andb_prop Hlt Hmax.
  apply Z.leb_le in H1, H2. apply andb_true_intro. split; apply Z.leb_le; lia.
Qed.

Lemma undelivered_kept rows : ∀ t,
  never_delivers E →
  max_attempts ≤ 2 ^ 53 →
  (∀ idx r, (idx, r) ∈ rows → small_like (Attempts r)) →
  let p := run_rows E max_attempts rows t in
  kept p = (λ e : nat * row, (e.1, undelivered max_attempts e.2)) <$> rows
  ∧ logged p = [].
Proof.
  intros t Hdown Hmax. revert t.
  induction rows as [|[i r] rest IH]; intros t Hall; [done|].
  assert (∀ idx r, (idx, r) ∈ rest → small_like (Attempts r)) as Hrest.
  { intros ?? Hin. eapply Hall. by apply list_elem_of_further. }
  cbv zeta. rewrite fmap_cons. unfold undelivered at 1. cbn [fst snd].
  pose proof (never_delivers_answer t (Type_ r) (Recipient r) (Message r) Hdown) as Hans.
  destruct (Hall i r (list_elem_of_here _ _)) as (a0 & Ha0 & Hs0).
  pass_cases r t.
  - destruct (IH t Hrest) as [-> ->]. done.
  - done.
  - destruct (IH (S t) Hrest) as [-> ->]. done.
  - exfalso. rewrite count_write_small in *; [done|].
    apply small_count_succ; [congruence| |done]. by apply Z.leb_gt.
  - congruence.
Qed.

Lemma undelivered_small_like r :
  max_attempts ≤ 2 ^ 53 →
  small_like (Attempts r) → small_like (Attempts (undelivered max_attempts r)).
Proof.
  intros Hmax (a & Ha & Hs). unfold undelivered. rewrite Ha.
  destruct (max_attempts <=? a) eqn:Hle.
  - rewrite Attempts_set_Status. by exists a.
  - unfold after_failure. rewrite Attempts_set_Status, Attempts_set_Attempts.
    exists (a + 1). split; [done|].
    apply small_count_succ; [done| |done]. by apply Z.leb_gt.
Qed.

Lemma undelivered_count r a :
  py_int (Attempts r) = Ok a →
  py_int (Attempts (undelivered max_attempts r)) = Ok (count_after max_attempts a 1)
  ∧ Status (undelivered max_attempts r)
    = VStr (if count_after max_attempts a 1 <? max_attempts then "Retrying" else "Failed").
Proof.
  intros Ha. unfold undelivered, count_after. rewrite Ha.
  destruct (max_attempts <=? a) eqn:Hmax.
  - rewrite Attempts_set_Status, Status_set_Status, Ha. split; [done|].
    apply Z.leb_le in Hmax. by rewrite (proj2 (Z.ltb_ge _ _)) by lia.
  - apply Z.leb_gt in Hmax. unfold after_failure.
    rewrite Attempts_set_Status, Attempts_set_Attempts, Status_set_Status. cbn.
    replace (Z.min (a + Z.of_nat 1) max_attempts) with (a + 1) by lia. done.
Qed.

Lemma count_after_step a k :
  count_after max_attempts (count_after max_attempts a 1) k
  = count_after max_attempts a (S k).
Proof.
  unfold count_after.
  destruct (max_attempts <=? a) eqn:H1.
  - by rewrite H1.
  - apply Z.leb_gt in H1.
    destruct (max_attempts <=? Z.min (a + Z.of_nat 1) max_attempts) eqn:H2.
    + apply Z.leb_le in H2. lia.
    + apply Z.leb_gt in H2. lia.
Qed.

(** One drain in a world that delivers nothing. *)
Lemma drain_undelivered s :
  never_delivers E →
  NoDup (labels (outbox_df s)) →
  max_attempts ≤ 2 ^ 53 →
  (∀ idx r, (idx, r) ∈ outbox_df s → small_like (Attempts r)) →
  let s' := (process_outbox E max_attempts s).1 in
  outbox_df s' = (λ e : nat * row, (e.1, undelivered max_attempts e.2)) <$> outbox_df s
  ∧ message_logs s' = message_logs s.
Proof.
  intros Hdown Hnd Hmax Hall.
  destruct (drain_pass E max_attempts s Hnd) as (Hdf & _ & _ & Hlogs & _).
  destruct (undelivered_kept (outbox_df s) (tick s) Hdown Hmax Hall) as [Hk Hl].
  cbv zeta. by rewrite Hdf, Hlogs, Hk, Hl, app_nil_r.
Qed.

End Undelivered.

Lemma drains_undelivered (max_attempts : Z) Es : ∀ s idx r a,
  Forall never_delivers Es →
  NoDup (labels (outbox_df s)) →
  max_attempts ≤ 2 ^ 53 →
  (∀ idx r, (idx, r) ∈ outbox_df s → small_like (Attempts r)) →
  (idx, r) ∈ outbox_df s → py_int (Attempts r) = Ok a →
  Es ≠ [] →
  let s' := drains max_attempts Es s in
  message_logs s' = message_logs s
  ∧ ∃ r', (idx, r') ∈ outbox_df s'
      ∧ py_int (Attempts r') = Ok (count_after max_attempts a (length Es))
      ∧ Status r'
        = VStr (if count_after max_attempts a (length Es) <? max_attempts
                then "Retrying" else "Failed").
Proof.
  induction Es as [|E Es IH]; intros s idx r a Hdown Hnd Hmax Hall Hin Ha Hne; [done|].
  apply Forall_cons in Hdown as [HE Hdown].
  cbv zeta. rewrite drains_cons.
  destruct (drain_undelivered E max_attempts s HE Hnd Hmax Hall) as [Hdf Hlogs].
  destruct (undelivered_count max_attempts r a Ha) as [Ha1 Hst1].
  assert ((idx, undelivered max_attempts r) ∈ outbox_df (process_outbox E max_attempts s).1)
    as Hin1.
  { rewrite Hdf. apply list_elem_of_fmap. by exists (idx, r). }
  destruct Es as [|E' Es'].
  { cbn [drains foldl length]. split; [done|]. by eexists. }
  destruct (IH (process_outbox E max_attempts s).1 idx (undelivered max_attempts r)
              (count_after max_attempts a 1)) as (Hl & r' & Hr' & Hc & Hs); try done.
  - by apply drain_NoDup.
  - rewrite Hdf. intros i x ([j y] & [= -> ->] & Hy)%list_elem_of_fmap.
    apply undelivered_small_like; [done|]. by eapply Hall.
  - rewrite count_after_step in Hc, Hs. split; [congruence|]. by exists r'.
Qed.

(** X5. While the transport delivers nothing, draining only counts: on
    a queue whose labels are distinct and whose counts all convert to
    small integers (at most 53 bits, which every column holds), after
    [k >= 1] drains with the same [max_attempts], itself at most
    [2^53], nothing has been logged, and an entry that started with
    count [a] is still queued, with count [a] and status Failed when
    [a] was at the ceiling, and otherwise with count
    [min (a + k) max_attempts], Retrying while that is below
    [max_attempts] and Failed once it reaches it. *)
Theorem drains_exhaust_budget (max_attempts : Z) Es s idx r a :
  Forall never_delivers Es →
  Es ≠ [] →
  NoDup (labels (outbox_df s)) →
  max_attempts ≤ 2 ^ 53 →
  (∀ idx r, (idx, r) ∈ outbox_df s → small_like (Attempts r)) →
  (idx, r) ∈ outbox_df s → py_int (Attempts r) = Ok a →
  let s' := drains max_attempts Es s in
  let count := if max_attempts <=? a then a
               else Z.min (a + Z.of_nat (length Es)) max_attempts in
  message_logs s' = message_logs s
  ∧ ∃ r', (idx, r') ∈ outbox_df s'
      ∧ py_int (Attempts r') = Ok count
      ∧ Status r' = VStr (if count <? max_attempts then "Retrying" else "Failed").
Proof.
  intros Hdown Hne Hnd Hmax Hall Hin Ha.
  by apply (drains_undelivered max_attempts Es s idx r a).
Qed.

Lemma unconfigured_never_delivers : never_delivers Examples.unconfigured.
Proof.
  intros to_number message s. split; eexists.
  - by rewrite safe_send_sms_answer.
  - by rewrite (safe_make_call_answer _ (VStr "voice")).
Qed.

Lemma drains_exhaust_budget_witness :
  let s' := drains 3 [Examples.unconfigured; Examples.unconfigured; Examples.unconfigured]
              Examples.two_pending in
  let count := if 3 <=? 0 then 0 else Z.min (0 + Z.of_nat 3) 3 in
  message_logs s' = message_logs Examples.two_pending
  ∧ ∃ r', (0%nat, r') ∈ outbox_df s'
      ∧ py_int (Attempts r') = Ok count
      ∧ Status r' = VStr (if count <? 3 then "Retrying" else "Failed").
Proof.
  apply (drains_exhaust_budget 3
           [Examples.unconfigured; Examples.unconfigured; Examples.unconfigured]
           Examples.two_pending 0%nat (Examples.entry "+254700000000" "sms" 0 "Pending") 0).
  - repeat constructor; apply unconfigured_never_delivers.
  - discriminate.
  - refine (bool_decide_unpack _ _). vm_compute. exact I.
  - vm_compute. discriminate.
  - intros idx r Hin. cbn in Hin.
    apply elem_of_cons in Hin as [[= -> ->]|Hin]; [by exists 0|].
    apply elem_of_cons in Hin as [[= -> ->]|Hin]; [by exists 0|].
    by apply elem_of_nil in Hin.
  - apply list_elem_of_here.
  - reflexivity.
Defined.

Lemma same_message_refl r : same_message r r.
Proof. by repeat split. Qed.

Lemma same_message_trans r1 r2 r3 :
  same_message r1 r2 → same_message r2 r3 → same_message r1 r3.
Proof.
  intros (? & ? & ? & ? & ?) (? & ? & ? & ? & ?). repeat split; congruence.
Qed.

Lemma same_message_set c v r :
  c = CStatus ∨ c = CAttempts → same_message r (set_col c v r).
Proof. destruct r. by intros [-> | ->]. Qed.

Lemma drain_same_message E max_attempts s idx r' :
  NoDup (labels (outbox_df s)) →
  (idx, r') ∈ outbox_df (process_outbox E max_attempts s).1 →
  ∃ r, (idx, r) ∈ outbox_df s ∧ same_message r r'.
Proof.
  intros Hnd. destruct (drain_pass E max_attempts s Hnd) as (-> & _).
  intros Hin. destruct (kept_row _ _ _ _ _ _ Hin) as (r & Hr & Hcases).
  exists r. split; [done|].
  destruct Hcases as [->|[(a & _ & _ & ->)|(a & _ & _ & ->)]].
  - apply same_message_refl.
  - apply same_message_set. by left.
  - unfold after_failure. eapply same_message_trans; apply same_message_set; auto.
Qed.

(** X6. Draining never rewrites a message: on a queue whose labels are
    distinct, through any number of drains, returning or raising, every
    entry still queued has the recipient, message, language, creation
    date and channel it had under the same label before. *)
Theorem drains_keep_message (max_attempts : Z) Es s idx r' :
  NoDup (labels (outbox_df s)) →
  (idx, r') ∈ outbox_df (drains max_attempts Es s) →
  ∃ r, (idx, r) ∈ outbox_df s
    ∧ Recipient r' = Recipient r ∧ Message r' = Message r ∧ Language r' = Language r
    ∧ Date_Created r' = Date_Created r ∧ Type_ r' = Type_ r.
Proof.
  revert s idx r'. induction Es as [|E Es IH]; intros s idx r' Hnd Hin.
  { exists r'. by split_and!. }
  rewrite drains_cons in Hin.
  destruct (IH _ _ _ (drain_NoDup max_attempts E s Hnd) Hin) as (r1 & Hin1 & H1).
  destruct (drain_same_message E max_attempts s idx r1 Hnd Hin1) as (r & Hr & H0).
  exists r. split; [done|]. by apply (same_message_trans r r1 r').
Qed.

Lemma drains_keep_message_witness :
  ∃ r, (1%nat, r) ∈ outbox_df Examples.one_exhausted
    ∧ Recipient (Examples.entry "+254700000001" "voice" 2 "Retrying") = Recipient r
    ∧ Message (Examples.entry "+254700000001" "voice" 2 "Retrying") = Message r
    ∧ Language (Examples.entry "+254700000001" "voice" 2 "Retrying") = Language r
    ∧ Date_Created (Examples.entry "+254700000001" "voice" 2 "Retrying") = Date_Created r
    ∧ Type_ (Examples.entry "+254700000001" "voice" 2 "Retrying") = Type_ r.
Proof.
  apply (drains_keep_message 3 [Examples.unconfigured; Examples.sms_only]
           Examples.one_exhausted 1%nat).
  - refine (bool_decide_unpack _ _). vm_compute. exact I.
  - vm_compute. apply list_elem_of_further, list_elem_of_here.
Defined.

(* ===================================================================== *)
(** ** Further properties of the two buttons *)
(* ===================================================================== *)

Lemma count_failed_reopened (df : frame) :
  count_failed ((λ e : nat * row, (e.1, reopened e.2)) <$> df) = 0%nat.
Proof.
  unfold count_failed. induction df as [|[i r] df IH]; [done|].
  rewrite fmap_cons, filter_cons_False; [done|]. cbn. unfold reopened.
  destruct (eq_str (Status r) "Failed") eqn:Hst; [|congruence].
  by destruct r.
Qed.

Lemma count_failed_purged (df : frame) :
  count_failed (filter (λ e : nat * row, Status e.2 ≠ VStr "Failed") df) = 0%nat.
Proof.
  unfold count_failed. induction df as [|[i r] df IH]; [done|].
  destruct (decide (Status r = VStr "Failed")) as [Hst|Hst].
  - by rewrite filter_cons_False by (cbn; tauto).
  - rewrite filter_cons_True by done.
    rewrite filter_cons_False; [done|]. cbn. by rewrite eq_str_true.
Qed.

(** X7. After "Retry Failed Only" no entry is Failed, and pressing the
    button again, in any state of the disk, changes nothing. *)
Theorem retry_failed_only_settles (E E' : env) s :
  let s' := (retry_failed_only E s).1 in
  count_failed (outbox_df s') = 0%nat
  ∧ (∀ idx r, (idx, r) ∈ outbox_df s' → Status r ≠ VStr "Failed")
  ∧ (retry_failed_only E' s').1 = s'.
Proof.
  cbv zeta.
  assert (count_failed (outbox_df (retry_failed_only E s).1) = 0%nat) as H0.
  { rewrite retry_failed_only_run. cbv zeta. destruct (decide _); [done|].
    apply count_failed_reopened. }
  split_and!; [done| |].
  - intros idx r Hin Hst. unfold count_failed in H0. apply length_zero_iff_nil in H0.
    eapply (filter_nil_not_elem_of _ _ _ H0); [|done]. cbn. by apply eq_str_true.
  - rewrite (retry_failed_only_run E'). cbv zeta. by rewrite decide_True.
Qed.

(** X8. After "Clear All Failed" no entry is Failed, and pressing the
    button again, in any state of the disk, changes nothing. *)
Theorem clear_all_failed_settles (E E' : env) s :
  let s' := (clear_all_failed E s).1 in
  count_failed (outbox_df s') = 0%nat
  ∧ (∀ idx r, (idx, r) ∈ outbox_df s' → Status r ≠ VStr "Failed")
  ∧ (clear_all_failed E' s').1 = s'.
Proof.
  cbv zeta.
  assert (count_failed (outbox_df (clear_all_failed E s).1) = 0%nat) as H0.
  { rewrite clear_all_failed_run. cbv zeta. destruct (decide _); [done|].
    apply count_failed_purged. }
  split_and!; [done| |].
  - intros idx r Hin Hst. unfold count_failed in H0. apply length_zero_iff_nil in H0.
    eapply (filter_nil_not_elem_of _ _ _ H0); [|done]. cbn. by apply eq_str_true.
  - rewrite (clear_all_failed_run E'). cbv zeta. by rewrite decide_True.
Qed.

(** X9. A Failed entry reopened by "Retry Failed Only" is sent again:
    on a queue whose labels are distinct, the next drain that returns,
    with a positive [max_attempts], calls the transport for it. *)
Theorem reset_then_drain_attempts (E E' : env) (max_attempts : Z) s s2 results idx r :
  NoDup (labels (outbox_df s)) →
  0 < max_attempts →
  (idx, r) ∈ outbox_df s → Status r = VStr "Failed" →
  process_outbox E' max_attempts (retry_failed_only E s).1 = (s2, Ok results) →
  attempted (retry_failed_only E s).1 s2 idx.
Proof.
  intros Hnd Hmax Hin Hst Hrun.
  assert (count_failed (outbox_df s) ≠ 0%nat) as Hn.
  { unfold count_failed. intros H0%length_zero_iff_nil.
    eapply (filter_nil_not_elem_of _ _ _ H0); [|done]. cbn. by apply eq_str_true. }
  assert (outbox_df (retry_failed_only E s).1
          = (λ e : nat * row, (e.1, reopened e.2)) <$> outbox_df s) as Hdf.
  { rewrite retry_failed_only_run. cbv zeta. by rewrite decide_False. }
  assert (NoDup (labels (outbox_df (retry_failed_only E s).1))) as Hnd1.
  { rewrite Hdf. unfold labels. by rewrite <- list_fmap_compose. }
  destruct (drain_pass E' max_attempts _ Hnd1) as (_ & _ & Htr & _ & _ & Hres).
  rewrite Hrun in *. cbn [fst] in Htr. destruct (Hres _ eq_refl) as [Hf _].
  pose proof (tried_below_ceiling E' max_attempts _ _ Hf) as Hlab.
  unfold attempted. rewrite Htr.
  assert (idx ∈ a_idx <$> tried (run_rows E' max_attempts
            (outbox_df (retry_failed_only E s).1) (tick (retry_failed_only E s).1)))
    as ([] & Heq & Hatt)%list_elem_of_fmap.
  { rewrite Hlab. apply list_elem_of_fmap. exists (idx, reopened r). split; [done|].
    apply list_elem_of_filter. split.
    - cbn. unfold reopened. rewrite (proj2 (eq_str_true _ _) Hst).
      unfold below_ceiling. rewrite Attempts_set_Attempts. cbn. by apply Z.ltb_lt.
    - rewrite Hdf. apply list_elem_of_fmap. by exists (idx, r). }
  eexists. split; [done|]. by rewrite Heq.
Qed.

Lemma reset_then_drain_attempts_witness :
  attempted (retry_failed_only Examples.unconfigured Examples.two_failed).1
    (process_outbox Examples.sms_only 3
       (retry_failed_only Examples.unconfigured Examples.two_failed).1).1
    4.
Proof.
  apply (reset_then_drain_attempts Examples.unconfigured Examples.sms_only 3
           Examples.two_failed _
           [(0%nat, true, "SMS sent: SM1"); (1%nat, false, "Twilio error: number rejected");
            (4%nat, true, "SMS sent: SM1")]
           4%nat (Examples.entry "+254700000002" "sms" 3 "Failed")).
  - refine (bool_decide_unpack _ _). vm_compute. exact I.
  - lia.
  - vm_compute. do 2 apply list_elem_of_further. apply list_elem_of_here.
  - reflexivity.
  - vm_compute. reflexivity.
Defined.

(* ===================================================================== *)
(** ** Enqueueing and loading *)
(* ===================================================================== *)

Lemma add_to_outbox_run E recipient message language msg_type s :
  add_to_outbox E recipient message language msg_type s
  = (State (Frame.concat_ignore_index (outbox_df s)
              (queued recipient message language msg_type (now E (tick s))))
           (message_logs s) (S (S (tick s))) (trace s),
     match to_json E (S (tick s)) OUTBOX_FILE with
     | Ok u => Ok u
     | Raise _ => json_dump E (S (tick s)) OUTBOX_FILE
     end).
Proof.
  unfold add_to_outbox. run. rewrite save_df_to_file_run. by destruct s.
Qed.

Lemma concat_ignore_index_rows (df : frame) r :
  (Frame.concat_ignore_index df r).*2 = df.*2 ++ [r]
  ∧ labels (Frame.concat_ignore_index df r) = seq 0 (length df + 1).
Proof.
  unfold Frame.concat_ignore_index, labels. split.
  - apply snd_zip. rewrite length_seq, length_app, length_fmap. cbn. lia.
  - apply fst_zip. rewrite length_seq, length_app, length_fmap. cbn. lia.
Qed.

(** X10. [add_to_outbox] keeps the queued rows, cell by cell and in
    order, puts the new row last with count 0 and status Pending, and
    renumbers the labels 0, 1, 2, ... (so a label a drain reported may
    name another entry afterwards); the log is untouched; and all this
    holds in the session also when saving the table raises. *)
Theorem add_to_outbox_appends (E : env) (recipient message language msg_type : value) s :
  let s' := (add_to_outbox E recipient message language msg_type s).1 in
  (outbox_df s').*2
  = (outbox_df s).*2
    ++ [Row recipient message language (VStr (now E (tick s))) msg_type
            (VInt 0) (VStr "Pending")]
  ∧ labels (outbox_df s') = seq 0 (length (outbox_df s) + 1)
  ∧ message_logs s' = message_logs s
  ∧ trace s' = trace s.
Proof.
  cbv zeta. rewrite add_to_outbox_run. cbn [fst outbox_df message_logs trace].
  destruct (concat_ignore_index_rows (outbox_df s)
              (queued recipient message language msg_type (now E (tick s)))) as [-> ->].
  done.
Qed.

Lemma columns_has (recs : list (gmap string value)) rec c v :
  rec ∈ recs → rec !! c = Some v → c ∈ Loader.columns recs.
Proof.
  intros Hin Hc. unfold Loader.columns. apply elem_of_union_list.
  exists (dom rec). split; [by apply list_elem_of_fmap_2|].
  apply elem_of_dom. by exists v.
Qed.

Lemma load_df_from_file_fallback f recs :
  fallback_read f recs → load_df_from_file f = Loader.outbox_frame recs.
Proof.
  intros (Hf & [e He] & Hl). unfold load_df_from_file. by rewrite Hf, He, Hl.
Qed.

(** X11. Loading an outbox file through the fallback ([pd.read_json]
    raises, [json.load] reads the records) gives one row per record, in
    order, under the labels 0, 1, 2, ...; in each row a cell that is a
    string in the record is that string, and a column no record has is
    filled with empty strings. *)
Theorem load_df_from_file_keeps_cells f recs :
  fallback_read f recs →
  labels (load_df_from_file f) = seq 0 (length recs)
  ∧ ∀ i rec, recs !! i = Some rec →
      ∃ r, load_df_from_file f !! i = Some (i, r)
        ∧ ∀ c,
            (∀ text, rec !! column_name c = Some (VStr text) → get_col c r = VStr text)
            ∧ (column_name c ∉ Loader.columns recs → get_col c r = VStr "").
Proof.
  intros Hread. rewrite (load_df_from_file_fallback f recs Hread).
  unfold Loader.outbox_frame, labels. split.
  { apply fst_zip. by rewrite length_seq, length_fmap. }
  intros i rec Hi. exists (Loader.outbox_row (Loader.columns recs) rec). split.
  - apply lookup_zip_with_Some. exists i, (Loader.outbox_row (Loader.columns recs) rec).
    split_and!; [done| |by rewrite list_lookup_fmap, Hi].
    apply lookup_seq. split; [done|]. by eapply lookup_lt_Some.
  - assert (rec ∈ recs) as Hin by (by eapply list_elem_of_lookup_2).
    intros c. unfold Loader.outbox_row, Loader.cell. split.
    + intros text Hc. pose proof (columns_has recs rec _ _ Hin Hc) as Hcol.
      destruct c; cbn in *; by rewrite bool_decide_eq_true_2, Hc.
    + intros Hcol. destruct c; cbn in *; by rewrite bool_decide_eq_false_2.
Qed.

Lemma load_df_from_file_keeps_cells_witness :
  let recs : list (gmap string value) :=
    [ {[ "Recipient" := VStr "+254700000000"; "Message" := VStr "Register for SHA";
         "Language" := VStr "English"; "Date Created" := VStr "2024-12-31 07:00:00";
         "Type" := VStr "sms"; "Attempts" := VInt (2 ^ 70) ]} ] in
  fallback_read Examples.wide_file recs
  ∧ labels (load_df_from_file Examples.wide_file) = seq 0 (length recs)
  ∧ ∀ i rec, recs !! i = Some rec →
      ∃ r, load_df_from_file Examples.wide_file !! i = Some (i, r)
        ∧ ∀ c,
            (∀ text, rec !! column_name c = Some (VStr text) → get_col c r = VStr text)
            ∧ (column_name c ∉ Loader.columns recs → get_col c r = VStr "").
Proof.
  intros recs.
  assert (fallback_read Examples.wide_file recs) as H
    by (split_and!; [reflexivity|by eexists|reflexivity]).
  exact (conj H (load_df_from_file_keeps_cells Examples.wide_file recs H)).
Defined.

(** The table loaded from that file: the recipient is the string of
    the file, the missing status is the empty string. *)
Example load_wide_file :
  load_df_from_file Examples.wide_file
  = [(0%nat, Row (VStr "+254700000000") (VStr "Register for SHA") (VStr "English")
                 (VStr "2024-12-31 07:00:00") (VStr "sms") (VInt (2 ^ 70)) (VStr ""))].
Proof. vm_compute. reflexivity. Qed.

(* ===================================================================== *)
(** ** The pages that send *)
(* ===================================================================== *)

Lemma mbind_run {A B} (m : M A) (k : A → M B) s :
  (m ≫= k) s
  = match m s with
    | (s1, Ok a) => k a s1
    | (s1, Raise e) => (s1, Raise e)
    end.
Proof. reflexivity. Qed.

Section PageLemmas.

Variable E : env.

Lemma send_if_configured_sms to_number message s :
  send_if_configured E (safe_send_sms E to_number message) s
  = (set_tick S (if twilio_configured E (tick s) && TwilioClient E
                 then set_tick S s else s),
     Ok (page_answer E (tick s) "sms" to_number message)).
Proof.
  unfold send_if_configured, page_answer. run.
  destruct (twilio_configured E (tick s) && TwilioClient E); [|done].
  rewrite safe_send_sms_answer. by destruct s.
Qed.

Lemma send_if_configured_call msg_type to_number message s :
  msg_type ≠ "sms" →
  send_if_configured E (safe_make_call E to_number message) s
  = (set_tick S (if twilio_configured E (tick s) && TwilioClient E
                 then set_tick S s else s),
     Ok (page_answer E (tick s) msg_type to_number message)).
Proof.
  intros Hty. unfold send_if_configured, page_answer, channel. run.
  rewrite bool_decide_eq_false_2 by done.
  destruct (twilio_configured E (tick s) && TwilioClient E); [|done].
  rewrite (safe_make_call_answer E (VStr "voice")) by done. by destruct s.
Qed.

(** The state the "Send" button leaves. *)
Lemma send_message_run recipient msg_text msg_type msg_lang s :
  recipient ≠ "" → msg_text ≠ "" →
  let text := VStr (safe_translate msg_text msg_lang) in
  let t1 := if twilio_configured E (tick s) && TwilioClient E
            then S (S (tick s)) else S (tick s) in
  (send_message E recipient msg_text msg_type msg_lang s).1
  = if (page_answer E (tick s) msg_type (VStr recipient) text).1
    then State (outbox_df s)
               (message_logs s
                ++ [SentRow (VStr recipient) text (VStr msg_lang) (VStr (now E t1))
                            (VStr (channel msg_type)) (VStr "Sent")])
               (S (S t1)) (trace s)
    else State (Frame.concat_ignore_index (outbox_df s)
                  (queued (VStr recipient) text (VStr msg_lang)
                          (VStr (channel msg_type)) (now E t1)))
               (message_logs s) (S (S t1)) (trace s).
Proof.
  intros Hr Hm. cbv zeta. unfold send_message.
  rewrite (bool_decide_eq_false_2 (recipient = "")) by done.
  rewrite (bool_decide_eq_false_2 (msg_text = "")) by done.
  cbn [orb]. destruct (decide (msg_type = "sms")) as [Hty|Hty].
  - subst msg_type. rewrite (bool_decide_eq_true_2 ("sms" = "sms")) by done.
    unfold channel. rewrite (bool_decide_eq_true_2 ("sms" = "sms")) by done.
    rewrite mbind_run, send_if_configured_sms.
    destruct (page_answer E (tick s) "sms" _ _) as [[] inf]; cbn [fst].
    + run. rewrite save_df_to_file_run. fields.
      by destruct (twilio_configured E (tick s) && TwilioClient E).
    + rewrite add_to_outbox_run. fields.
      by destruct (twilio_configured E (tick s) && TwilioClient E).
  - rewrite (bool_decide_eq_false_2 (msg_type = "sms")) by done.
    unfold channel. rewrite (bool_decide_eq_false_2 (msg_type = "sms")) by done.
    rewrite mbind_run, (send_if_configured_call msg_type) by done.
    destruct (page_answer E (tick s) msg_type _ _) as [[] inf]; cbn [fst].
    + run. rewrite save_df_to_file_run. fields.
      by destruct (twilio_configured E (tick s) && TwilioClient E).
    + rewrite add_to_outbox_run. fields.
      by destruct (twilio_configured E (tick s) && TwilioClient E).
Qed.

End PageLemmas.

Lemma concat_ignore_index_last (df : frame) r :
  (length df, r) ∈ Frame.concat_ignore_index df r.
Proof.
  unfold Frame.concat_ignore_index.
  apply (list_elem_of_lookup_2 _ (length df)).
  apply lookup_zip_with_Some. exists (length df), r. split_and!; [done| |].
  - apply lookup_seq. split; [done|lia].
  - rewrite lookup_app_r by (by rewrite length_fmap).
    by rewrite length_fmap, Nat.sub_diag.
Qed.

Lemma concat_ignore_index_NoDup (df : frame) r :
  NoDup (labels (Frame.concat_ignore_index df r)).
Proof. rewrite (proj2 (concat_ignore_index_rows df r)). apply NoDup_seq. Qed.

(** X12. The "Send" button with a recipient and a text: a message the
    transport accepts is appended to the log, with the translated text,
    the language and the channel, and the queue is untouched; any other
    message is appended to the queue as a Pending entry with count 0,
    and the log is untouched.  Never both, never neither. *)
Theorem send_message_logs_or_queues (E : env) (recipient msg_text msg_type msg_lang : string) s :
  recipient ≠ "" → msg_text ≠ "" →
  let s' := (send_message E recipient msg_text msg_type msg_lang s).1 in
  let text := VStr (safe_translate msg_text msg_lang) in
  if (page_answer E (tick s) msg_type (VStr recipient) text).1
  then outbox_df s' = outbox_df s
       ∧ ∃ date, message_logs s'
                 = message_logs s
                   ++ [SentRow (VStr recipient) text (VStr msg_lang) (VStr date)
                               (VStr (channel msg_type)) (VStr "Sent")]
  else message_logs s' = message_logs s
       ∧ ∃ date, (outbox_df s').*2
                 = (outbox_df s).*2
                   ++ [Row (VStr recipient) text (VStr msg_lang) (VStr date)
                           (VStr (channel msg_type)) (VInt 0) (VStr "Pending")].
Proof.
  intros Hr Hm. cbv zeta. rewrite (send_message_run E) by done.
  destruct (page_answer E (tick s) msg_type _ _).1; cbn [outbox_df message_logs].
  - split; [done|]. by eexists.
  - split; [done|]. eexists. apply concat_ignore_index_rows.
Qed.

Lemma send_message_logs_or_queues_witness :
  let s' := (send_message Examples.unconfigured "+254700000000" "Send"
               "sms" "Swahili" Examples.two_pending).1 in
  message_logs s' = message_logs Examples.two_pending
  ∧ ∃ date, (outbox_df s').*2
            = (outbox_df Examples.two_pending).*2
              ++ [Row (VStr "+254700000000") (VStr "Tuma") (VStr "Swahili")
                      (VStr date) (VStr "sms") (VInt 0) (VStr "Pending")].
Proof.
  pose proof (send_message_logs_or_queues Examples.unconfigured "+254700000000"
                "Send" "sms" "Swahili" Examples.two_pending) as H.
  exact (H ltac:(discriminate) ltac:(discriminate)).
Defined.

(** X13. A message the "Send" button could not send is sent by the next
    drain: left out of the log by the button, it is the last entry of
    the queue, a drain with a positive [max_attempts] that returns
    calls the transport for it, and if that call succeeds the log gains
    a row with the recipient, translated text, language and channel
    given on the page. *)
Theorem queued_message_is_retried (E E' : env) (max_attempts : Z)
    (recipient msg_text msg_type msg_lang : string) s s2 results :
  recipient ≠ "" → msg_text ≠ "" → 0 < max_attempts →
  let s1 := (send_message E recipient msg_text msg_type msg_lang s).1 in
  message_logs s1 = message_logs s →
  process_outbox E' max_attempts s1 = (s2, Ok results) →
  let idx := length (outbox_df s) in
  attempted s1 s2 idx
  ∧ (delivered s1 s2 idx →
     ∃ date, SentRow (VStr recipient) (VStr (safe_translate msg_text msg_lang))
                     (VStr msg_lang) (VStr date) (VStr (channel msg_type)) (VStr "Sent")
             ∈ new_logs s1 s2).
Proof.
  intros Hr Hm Hmax. cbv zeta. rewrite (send_message_run E) by done.
  destruct (page_answer E (tick s) msg_type _ _).1.
  { cbn [message_logs]. intros Heq. exfalso.
    apply (f_equal length) in Heq. rewrite length_app in Heq. cbn in Heq. lia. }
  intros _.
  set (t1 := if twilio_configured E (tick s) && TwilioClient E
             then S (S (tick s)) else S (tick s)).
  set (q := queued (VStr recipient) (VStr (safe_translate msg_text msg_lang))
              (VStr msg_lang) (VStr (channel msg_type)) (now E t1)).
  set (s1 := State _ _ _ _). intros Hrun.
  assert (NoDup (labels (outbox_df s1))) as Hnd by apply concat_ignore_index_NoDup.
  assert ((length (outbox_df s), q) ∈ outbox_df s1) as Hin
    by apply concat_ignore_index_last.
  destruct (drain_pass E' max_attempts s1 Hnd) as (_ & Hlog & Htr & _ & _ & Hres).
  rewrite Hrun in *. cbn [fst] in Htr, Hlog. destruct (Hres _ eq_refl) as [Hf _].
  pose proof (tried_below_ceiling E' max_attempts _ _ Hf) as Hlab.
  split.
  - unfold attempted. rewrite Htr.
    assert (length (outbox_df s)
            ∈ a_idx <$> tried (run_rows E' max_attempts (outbox_df s1) (tick s1)))
      as ([] & Heq & Hatt)%list_elem_of_fmap.
    { rewrite Hlab. apply list_elem_of_fmap. exists (length (outbox_df s), q).
      split; [done|]. apply list_elem_of_filter. split; [|done].
      cbn. unfold below_ceiling. cbn. by apply Z.ltb_lt. }
    eexists. split; [done|]. by rewrite Heq.
  - intros (att & Hatt & Hidx & Hok). rewrite Htr in Hatt. rewrite Hlog.
    destruct (tried_row E' max_attempts _ _ _ Hatt)
      as (r & a & Hr' & _ & _ & _ & _ & _ & Hw).
    destruct (Hw (or_introl Hf)) as (_ & _ & Hsent).
    rewrite Hidx in Hr'. rewrite <- (label_unique _ _ _ _ Hnd Hin Hr') in Hsent.
    destruct (Hsent Hok) as [tk Htk]. by exists (now E' tk).
Qed.

Lemma queued_message_is_retried_witness :
  let s1 := (send_message Examples.unconfigured "+254700000000" "Send"
               "sms" "Swahili" Examples.two_pending).1 in
  let s2 := (process_outbox Examples.sms_only 3 s1).1 in
  attempted s1 s2 2
  ∧ (delivered s1 s2 2 →
     ∃ date, SentRow (VStr "+254700000000") (VStr "Tuma") (VStr "Swahili")
                     (VStr date) (VStr "sms") (VStr "Sent")
             ∈ new_logs s1 s2).
Proof.
  refine (queued_message_is_retried Examples.unconfigured Examples.sms_only 3
            "+254700000000" "Send" "sms" "Swahili" Examples.two_pending _
            match (process_outbox Examples.sms_only 3
                     (send_message Examples.unconfigured "+254700000000" "Send"
                        "sms" "Swahili" Examples.two_pending).1).2 with
            | Ok l => l
            | Raise _ => []
            end _ _ _ _ _).
  - discriminate.
  - discriminate.
  - lia.
  - vm_compute. reflexivity.
  - vm_compute. reflexivity.
Defined.

Section PartnerLemmas.

Variable E : env.

(** The state the "Send Message" button of the partners page leaves. *)
Lemma send_to_partner_run partner_row msg_text msg_type s :
  msg_text ≠ "" →
  let preferred := preferred_lang (P_Language partner_row) in
  let text := VStr (safe_translate msg_text preferred) in
  let t1 := if twilio_configured E (tick s) && TwilioClient E
            then S (S (tick s)) else S (tick s) in
  (send_to_partner E partner_row msg_text msg_type s).1
  = if (page_answer E (tick s) msg_type (P_Contact partner_row) text).1
    then State (outbox_df s) (message_logs s) t1 (trace s)
    else State (Frame.concat_ignore_index (outbox_df s)
                  (queued (P_Contact partner_row) text (VStr preferred)
                          (VStr (channel msg_type)) (now E t1)))
               (message_logs s) (S (S t1)) (trace s).
Proof.
  intros Hm. cbv zeta. unfold send_to_partner.
  rewrite (bool_decide_eq_false_2 (msg_text = "")) by done.
  destruct (decide (msg_type = "sms")) as [Hty|Hty].
  - subst msg_type. rewrite (bool_decide_eq_true_2 ("sms" = "sms")) by done.
    unfold channel. rewrite (bool_decide_eq_true_2 ("sms" = "sms")) by done.
    rewrite mbind_run, send_if_configured_sms.
    destruct (page_answer E (tick s) "sms" _ _) as [[] inf]; cbn [fst].
    + run. fields. destruct s.
      by destruct (twilio_configured E _ && TwilioClient E).
    + rewrite add_to_outbox_run. fields.
      by destruct (twilio_configured E (tick s) && TwilioClient E).
  - rewrite (bool_decide_eq_false_2 (msg_type = "sms")) by done.
    unfold channel. rewrite (bool_decide_eq_false_2 (msg_type = "sms")) by done.
    rewrite mbind_run, (send_if_configured_call E msg_type) by done.
    destruct (page_answer E (tick s) msg_type _ _) as [[] inf]; cbn [fst].
    + run. fields. destruct s.
      by destruct (twilio_configured E _ && TwilioClient E).
    + rewrite add_to_outbox_run. fields.
      by destruct (twilio_configured E (tick s) && TwilioClient E).
Qed.

End PartnerLemmas.

(** X14. The "Send Message" button of the partners page never writes
    the message log: a message the transport accepts leaves the log and
    the queue as they were, so no record of it is kept; any other
    message is queued for the partner's contact, translated into the
    first language listed for the partner. *)
Theorem send_to_partner_never_logs (E : env) (partner_row : partner)
    (msg_text msg_type : string) s :
  let s' := (send_to_partner E partner_row msg_text msg_type s).1 in
  let preferred := preferred_lang (P_Language partner_row) in
  let text := VStr (safe_translate msg_text preferred) in
  message_logs s' = message_logs s
  ∧ (msg_text ≠ "" →
     if (page_answer E (tick s) msg_type (P_Contact partner_row) text).1
     then outbox_df s' = outbox_df s
     else ∃ date, (outbox_df s').*2
                  = (outbox_df s).*2
                    ++ [Row (P_Contact partner_row) text (VStr preferred) (VStr date)
                            (VStr (channel msg_type)) (VInt 0) (VStr "Pending")]).
Proof.
  cbv zeta. destruct (decide (msg_text = "")) as [->|Hm].
  { split; [done|]. by intros []. }
  rewrite (send_to_partner_run E) by done.
  destruct (page_answer E (tick s) msg_type _ _).1; cbn [outbox_df message_logs].
  - done.
  - split; [done|]. intros _. eexists. apply concat_ignore_index_rows.
Qed.

(* ===================================================================== *)
(** ** Translation, the FAQ page and the chatbot *)
(* ===================================================================== *)

Lemma safe_translate_in text lang :
  safe_translate text lang = translate_in (default ∅ (faq_translations !! lang)) text.
Proof. reflexivity. Qed.

Lemma translate_in_empty text : translate_in ∅ text = text.
Proof. unfold translate_in. case_bool_decide; [done|]. by rewrite lookup_empty. Qed.

(** A property of every table of [faq_translations], and of the empty
    table, holds of the table [safe_translate] uses for any language. *)
Lemma table_of_language (P : gmap string string → Prop) lang :
  map_Forall (λ _, P) faq_translations → P ∅ →
  P (default ∅ (faq_translations !! lang)).
Proof.
  intros Hall Hempty. destruct (faq_translations !! lang) as [d|] eqn:Hd; [|done].
  exact (Hall _ _ Hd).
Qed.

Lemma tables_closed :
  map_Forall (λ _ d, map_Forall (λ _ v, translate_in d v = v) d) faq_translations.
Proof. refine (bool_decide_unpack _ _). vm_compute. exact I. Qed.

(** X15. Translating is idempotent: a text [safe_translate] has
    translated into a language is left as it is when translated into
    that language again, whatever the text and the language. *)
Theorem safe_translate_idempotent (text lang : string) :
  safe_translate (safe_translate text lang) lang = safe_translate text lang.
Proof.
  rewrite !safe_translate_in.
  apply (table_of_language
           (λ d, translate_in d (translate_in d text) = translate_in d text)).
  - intros l d Hd. unfold translate_in at 2 3. case_bool_decide as Ht.
    { subst. done. }
    destruct (d !! text) as [v|] eqn:Hv; cbn.
    + exact (tables_closed l d Hd text v Hv).
    + unfold translate_in. rewrite bool_decide_eq_false_2 by done. by rewrite Hv.
  - by rewrite !translate_in_empty.
Qed.

Lemma faq_page_tables :
  map_Forall (λ lang d,
    (λ qa : string * string, (translate_in d qa.1, translate_in d qa.2)) <$> faqs
    = if bool_decide (lang = "English")
      then (λ qa : string * string, (qa.2, qa.2)) <$> faqs
      else faqs) faq_translations.
Proof. refine (bool_decide_unpack _ _). vm_compute. exact I. Qed.

(** X16. The FAQ list is not translated: in every language other than
    English, known to the tables or not, the page shows each question
    and each answer of [faqs] as written there, in English; and in
    English the header of each entry is the answer, not the question. *)
Theorem faq_page_not_translated (selected_language : string) :
  faq_page selected_language
  = if bool_decide (selected_language = "English")
    then (λ qa : string * string, (qa.2, qa.2)) <$> faqs
    else faqs.
Proof.
  unfold faq_page.
  destruct (faq_translations !! selected_language) as [d|] eqn:Hd.
  - rewrite <- (faq_page_tables _ _ Hd). apply list_fmap_ext. intros _ qa _.
    by rewrite !safe_translate_in, Hd.
  - rewrite bool_decide_eq_false_2 by (by intros ->).
    rewrite <- (list_fmap_id faqs) at 2. apply list_fmap_ext. intros _ [q a] _.
    by rewrite !safe_translate_in, Hd, !translate_in_empty.
Qed.

Lemma answers_not_translated :
  map_Forall (λ _ d, Forall (λ qa : string * string, translate_in d qa.2 = qa.2) faqs)
    faq_translations.
Proof. refine (bool_decide_unpack _ _). vm_compute. exact I. Qed.

Lemma answer_not_translated q a lang :
  (q, a) ∈ faqs → safe_translate a lang = a.
Proof.
  intros Hin. rewrite safe_translate_in.
  apply (table_of_language (λ d, translate_in d a = a)).
  - intros l d Hd. pose proof (answers_not_translated l d Hd) as Hall.
    rewrite Forall_forall in Hall. exact (Hall _ Hin).
  - apply translate_in_empty.
Qed.

(** Each question of [faqs], lowered, finds its own answer in the
    keyword loop, whatever the response it started from. *)
Lemma first_match_question :
  Forall (λ qa : string * string,
            ∀ response, first_match (PyStr.lower qa.1) faqs response = qa.2) faqs.
Proof.
  unfold faqs at 2. repeat constructor; intros response; vm_compute; reflexivity.
Qed.

(** X17. The chatbot answers the FAQ questions: when the user types a
    question of [faqs], in any letter case, and OpenAI is not set up,
    the page shows that question's answer; when OpenAI is set up and
    the call raises, it shows the error and then that answer.  The
    answer is shown in English whatever language is selected. *)
Theorem chatbot_answers_faq_question (A : ai) (q a user_input selected_language : string) :
  (q, a) ∈ faqs →
  PyStr.lower user_input = PyStr.lower q →
  get_answer A user_input selected_language
  = if openai A && configure_openai_api A then
      match ChatCompletion_create A user_input with
      | Ok content =>
          [show_markdown
             ("**" +:+ safe_translate "Chatbot (AI) Response:" selected_language +:+ "** "
              +:+ safe_translate (PyStr.strip content) selected_language)]
      | Raise e =>
          [show_error ("OpenAI error: " +:+ str_exn e);
           show_markdown
             ("**" +:+ safe_translate "Chatbot (Fallback):" selected_language +:+ "** "
              +:+ a)]
      end
    else
      [show_markdown
         ("**" +:+ safe_translate "Chatbot Response:" selected_language +:+ "** " +:+ a)].
Proof.
  intros Hin Hlow.
  pose proof first_match_question as Hall. rewrite Forall_forall in Hall.
  pose proof (Hall _ Hin) as Hq. cbn [fst snd] in Hq.
  assert (user_input ≠ "") as Hne.
  { intros ->. cbn in Hlow.
    assert (Forall (λ qa : string * string, PyStr.lower qa.1 ≠ "") faqs) as Hnon
      by (repeat constructor; discriminate).
    rewrite Forall_forall in Hnon. by apply (Hnon _ Hin). }
  unfold get_answer. rewrite bool_decide_eq_false_2 by done.
  rewrite Hlow, !Hq, (answer_not_translated q a) by done.
  reflexivity.
Qed.

Lemma chatbot_answers_faq_question_witness :
  get_answer (Ai false false (λ _, Ok "")) "what is sha?" "Luo"
  = [show_markdown
       ("**" +:+ safe_translate "Chatbot Response:" "Luo" +:+ "** "
        +:+ "SHA stands for Social Health Authority, which provides health services and benefits.")].
Proof.
  apply (chatbot_answers_faq_question (Ai false false (λ _, Ok "")) "What is SHA?").
  - apply list_elem_of_here.
  - reflexivity.
Defined.

(* ===================================================================== *)
(** ** Partners' languages and the reminders *)
(* ===================================================================== *)

Lemma preferred_lang_option l rest :
  l ∈ language_options →
  preferred_lang (py_join ", " (l :: rest)) = l.
Proof.
  intros Hl. unfold language_options in Hl.
  repeat (apply elem_of_cons in Hl as [->|Hl]); [..|by apply elem_of_nil in Hl];
    destruct rest; vm_compute; reflexivity.
Qed.

(** X18. The language of a message to a partner is the first language
    picked when the partner was added: for a partner added with
    languages chosen among the four options, the "Send Message" button
    translates into the first of them, and into English when none was
    picked. *)
Theorem partner_language_round_trip (name role contact campaign : string)
    (langs : list string) :
  langs ⊆ language_options →
  preferred_lang (P_Language (new_partner name role langs contact campaign))
  = default "English" (head langs).
Proof.
  intros Hsub. destruct langs as [|l rest]; [reflexivity|].
  cbn [new_partner P_Language head default].
  apply preferred_lang_option. apply Hsub. apply list_elem_of_here.
Qed.

Lemma partner_language_round_trip_witness :
  preferred_lang (P_Language (new_partner "Achieng" "Volunteer" ["Luo"; "English"]
                                "+254700000000" "Registration drive"))
  = "Luo".
Proof.
  apply (partner_language_round_trip "Achieng" "Volunteer" "+254700000000"
           "Registration drive" ["Luo"; "English"]).
  unfold language_options. set_solver.
Defined.

Module RemindersFacts.
Import Reminders.

Lemma complete_middle idx done r rest :
  NoDup ((done ++ (idx, r) :: rest).*1) →
  complete idx (done ++ (idx, r) :: rest)
  = done ++ (idx, set_Status (VStr "Completed") r) :: rest.
Proof.
  intros Hnd. unfold complete.
  rewrite bool_decide_eq_true_2 by (rewrite fmap_app; set_solver).
  rewrite fmap_app in Hnd. cbn in Hnd.
  apply NoDup_app in Hnd as (_ & Hdisj & Hnd).
  apply NoDup_cons in Hnd as [Hrest _].
  rewrite fmap_app, fmap_cons. cbn [fst snd].
  rewrite (bool_decide_eq_true_2 (idx = idx)) by done. f_equal; [|f_equal].
  - rewrite <- (list_fmap_id done) at 2. apply list_fmap_ext. intros k [j x] Hj.
    cbn. rewrite bool_decide_eq_false_2; [done|]. intros ->.
    apply (Hdisj idx); [|apply list_elem_of_here].
    apply list_elem_of_fmap. exists (idx, x). split; [done|].
    by eapply list_elem_of_lookup_2.
  - rewrite <- (list_fmap_id rest) at 2. apply list_fmap_ext. intros k [j x] Hj.
    cbn. rewrite bool_decide_eq_false_2; [done|]. intros ->.
    apply Hrest. apply list_elem_of_fmap. exists (idx, x). split; [done|].
    by eapply list_elem_of_lookup_2.
Qed.

End RemindersFacts.

(** X19. Completing a reminder: on a table whose labels are distinct,
    the "Complete" button of a reminder sets its status to Completed
    and nothing else, every other reminder stays as it was and where it
    was, and the dashboard's Active Reminders figure drops by one when
    the reminder was Pending or In Progress and stays otherwise. *)
Theorem reminder_complete (idx : nat) (r : Reminders.reminder)
    (df : list (nat * Reminders.reminder)) :
  NoDup df.*1 → (idx, r) ∈ df →
  ∃ done rest,
    df = done ++ (idx, r) :: rest
    ∧ Reminders.complete idx df
      = done ++ (idx, Reminders.Reminder (Reminders.Task r) (Reminders.Due_Date r)
                        (Reminders.Assigned_To r) (VStr "Completed")) :: rest
    ∧ (Reminders.active_reminders (Reminders.complete idx df)
       + (if Reminders.active r then 1 else 0))%nat
      = Reminders.active_reminders df.
Proof.
  intros Hnd (done & rest & ->)%list_elem_of_split.
  exists done, rest. split; [done|].
  rewrite RemindersFacts.complete_middle by done. split; [done|].
  unfold Reminders.active_reminders. rewrite !filter_app, !length_app.
  rewrite filter_cons_False by (cbn; done).
  destruct (Reminders.active r) eqn:Hr.
  - rewrite filter_cons_True by done. cbn. lia.
  - rewrite filter_cons_False by (cbn; congruence). lia.
Qed.

Lemma reminder_complete_witness :
  let df := [(0%nat, Reminders.Reminder (VStr "Print posters") (VStr "2025-01-10")
                       (VStr "Achieng") (VStr "Completed"));
             (1%nat, Reminders.Reminder (VStr "Call the chief") (VStr "2025-01-12")
                       (VStr "Otieno") (VStr "In Progress"))] in
  Reminders.active_reminders df = 1%nat
  ∧ ∃ done rest,
      df = done ++ (1%nat, Reminders.Reminder (VStr "Call the chief") (VStr "2025-01-12")
                             (VStr "Otieno") (VStr "In Progress")) :: rest
      ∧ Reminders.complete 1 df
        = done ++ (1%nat, Reminders.Reminder (VStr "Call the chief") (VStr "2025-01-12")
                            (VStr "Otieno") (VStr "Completed")) :: rest
      ∧ (Reminders.active_reminders (Reminders.complete 1 df) + 1)%nat
        = Reminders.active_reminders df.
Proof.
  intros df. split; [reflexivity|].
  apply (reminder_complete 1
           (Reminders.Reminder (VStr "Call the chief") (VStr "2025-01-12")
              (VStr "Otieno") (VStr "In Progress")) df).
  - refine (bool_decide_unpack _ _). vm_compute. exact I.
  - apply list_elem_of_further, list_elem_of_here.
Defined.

(* ===================================================================== *)
(** ** Sessions of button presses *)
(* ===================================================================== *)

Lemma consistent_row_int_like r : consistent_row r → int_like (Attempts r).
Proof.
  intros [[_ ->]|[[_ [->| ->]]|[_ ->]]]; eexists; reflexivity.
Qed.

Lemma consistent_queued recipient message language msg_type date :
  consistent_row (queued recipient message language msg_type date).
Proof. by left. Qed.

Lemma consistent_concat (df : frame) q :
  (∀ idx r, (idx, r) ∈ df → consistent_row r) → consistent_row q →
  NoDup (labels (Frame.concat_ignore_index df q))
  ∧ ∀ idx r, (idx, r) ∈ Frame.concat_ignore_index df q → consistent_row r.
Proof.
  intros Hrows Hq. split; [apply concat_ignore_index_NoDup|].
  intros idx r Hin. apply elem_of_zip_r in Hin.
  apply elem_of_app in Hin as [([i x] & -> & Hx)%list_elem_of_fmap|Hin].
  - by eapply Hrows.
  - apply list_elem_of_singleton in Hin. by subst.
Qed.

Lemma consistent_send E recipient msg_text msg_type msg_lang s :
  consistent s → consistent (send_message E recipient msg_text msg_type msg_lang s).1.
Proof.
  intros [Hnd Hrows].
  destruct (decide (recipient = "")) as [->|Hr].
  { exact (conj Hnd Hrows). }
  destruct (decide (msg_text = "")) as [->|Hm].
  { unfold send_message. rewrite (bool_decide_eq_true_2 ("" = "")) by done.
    rewrite orb_true_r. exact (conj Hnd Hrows). }
  unfold consistent. rewrite (send_message_run E) by done.
  destruct (page_answer E (tick s) msg_type _ _).1; cbn [outbox_df]; [by split|].
  apply consistent_concat; [done|apply consistent_queued].
Qed.

Lemma consistent_send_to_partner E partner_row msg_text msg_type s :
  consistent s → consistent (send_to_partner E partner_row msg_text msg_type s).1.
Proof.
  intros [Hnd Hrows].
  destruct (decide (msg_text = "")) as [->|Hm]; [exact (conj Hnd Hrows)|].
  unfold consistent. rewrite (send_to_partner_run E) by done.
  destruct (page_answer E (tick s) msg_type _ _).1; cbn [outbox_df]; [by split|].
  apply consistent_concat; [done|apply consistent_queued].
Qed.

Lemma consistent_drain E s :
  consistent s → consistent (process_outbox E 3 s).1.
Proof.
  intros [Hnd Hrows]. split; [by apply drain_NoDup|].
  destruct (drain_pass E 3 s Hnd) as (-> & _).
  intros idx r' Hin.
  destruct (kept_row _ _ _ _ _ _ Hin) as (r & Hr & Hcases).
  pose proof (Hrows _ _ Hr) as Hrow.
  destruct Hcases as [->|[(a & Hint & Hle & ->)|(a & Hint & Hlt & ->)]]; [done|..].
  - right; right. rewrite Attempts_set_Status, Status_set_Status. split; [done|].
    destruct Hrow as [[_ Ha]|[[_ [Ha|Ha]]|[_ Ha]]]; rewrite Ha in Hint;
      injection Hint as <-; (lia || done).
  - unfold after_failure, consistent_row.
    rewrite Attempts_set_Status, Attempts_set_Attempts, Status_set_Status.
    destruct Hrow as [[_ Ha]|[[_ [Ha|Ha]]|[_ Ha]]]; rewrite Ha in Hint;
      injection Hint as <-; cbn; try lia; auto.
Qed.

Lemma process_all_messages_state E s :
  (process_all_messages E s).1 = (process_outbox E 3 s).1
  ∧ (returns (process_outbox E 3 s) → returns (process_all_messages E s)).
Proof.
  unfold process_all_messages. run.
  destruct (outbox_df s) as [|e df] eqn:Hdf; cbn [Frame.empty].
  - unfold process_outbox. run. by rewrite Hdf.
  - destruct (process_outbox E 3 s) as [s1 [results|e']]; [|done].
    by destruct results.
Qed.

Lemma consistent_process E s :
  consistent s → consistent (process_all_messages E s).1.
Proof.
  intros H. rewrite (proj1 (process_all_messages_state E s)). by apply consistent_drain.
Qed.

Lemma consistent_retry E s : consistent s → consistent (retry_failed_only E s).1.
Proof.
  intros [Hnd Hrows]. rewrite retry_failed_only_run. cbv zeta.
  destruct (decide _); [done|]. cbn [fst]. split; cbn [outbox_df].
  - unfold labels. by rewrite <- list_fmap_compose.
  - intros idx r' ([i r] & [= -> ->] & Hin)%list_elem_of_fmap. cbn.
    pose proof (Hrows _ _ Hin) as Hrow. unfold reopened.
    destruct (eq_str (Status r) "Failed") eqn:Hst; [|done].
    left. by destruct r.
Qed.

Lemma consistent_clear E s : consistent s → consistent (clear_all_failed E s).1.
Proof.
  intros [Hnd Hrows]. rewrite clear_all_failed_run. cbv zeta.
  destruct (decide _); [done|]. cbn [fst]. split; cbn [outbox_df].
  - eapply sublist_NoDup; [done|]. apply fmap_sublist, sublist_filter.
  - intros idx r [_ Hin]%list_elem_of_filter. by eapply Hrows.
Qed.

Lemma consistent_press s s' : press s s' → consistent s → consistent s'.
Proof.
  destruct 1; auto using consistent_send, consistent_send_to_partner,
    consistent_process, consistent_retry, consistent_clear.
Qed.

(** X20. Status and count agree throughout a session: starting from a
    queue where every entry is Pending with count 0, Retrying with count
    1 or 2, or Failed with count 3 (an empty queue is one), any number
    of presses of the buttons that send, process, retry or clear leaves
    a queue of the same kind, with distinct labels; and on it "Process
    All Messages" returns whenever the two tables can be written. *)
Theorem session_keeps_status_and_count s0 s :
  consistent s0 → rtc press s0 s →
  NoDup (labels (outbox_df s))
  ∧ (∀ idx r, (idx, r) ∈ outbox_df s →
       (Status r = VStr "Pending" ∧ Attempts r = VInt 0)
       ∨ (Status r = VStr "Retrying" ∧ (Attempts r = VInt 1 ∨ Attempts r = VInt 2))
       ∨ (Status r = VStr "Failed" ∧ Attempts r = VInt 3))
  ∧ ∀ E, storage_ok E → returns (process_all_messages E s).
Proof.
  intros H0 Hsteps.
  assert (consistent s) as [Hnd Hrows].
  { induction Hsteps as [|x y z Hxy _ IH]; [done|]. apply IH. by eapply consistent_press. }
  split_and!; [done|exact Hrows|].
  intros E Hdisk. apply process_all_messages_state.
  apply process_outbox_returns; [done| |].
  - intros idx r a Hin Ha _.
    destruct (Hrows _ _ Hin) as [[_ H]|[[_ [H|H]]|[_ H]]];
      rewrite H in Ha; injection Ha as <-; reflexivity.
  - intros idx r Hin. apply consistent_row_int_like. by eapply Hrows.
Qed.

Lemma session_keeps_status_and_count_witness :
  let s := (process_all_messages Examples.unconfigured
              (send_message Examples.unconfigured "+254700000000" "Send" "sms" "Swahili"
                 empty_state).1).1 in
  NoDup (labels (outbox_df s))
  ∧ (∀ idx r, (idx, r) ∈ outbox_df s →
       (Status r = VStr "Pending" ∧ Attempts r = VInt 0)
       ∨ (Status r = VStr "Retrying" ∧ (Attempts r = VInt 1 ∨ Attempts r = VInt 2))
       ∨ (Status r = VStr "Failed" ∧ Attempts r = VInt 3))
  ∧ ∀ E, storage_ok E → returns (process_all_messages E s).
Proof.
  apply (session_keeps_status_and_count empty_state).
  - split; [constructor|]. by intros ?? ?%elem_of_nil.
  - eapply rtc_l; [apply (press_send Examples.unconfigured "+254700000000" "Send" "sms"
                            "Swahili")|].
    eapply rtc_l; [apply (press_process Examples.unconfigured)|].
    apply rtc_refl.
Defined.
